(** * AIGovLens: the evaluation and reporting pipeline of [app.py]

    A shallow embedding of the pure parts of [app.py] (prompt construction,
    clean-up and decoding of the model's answer, the PDF story, the JSON
    export, the risk badge) together with the properties its specification
    states about them.

    Python values are modelled as the interpreter has them: a [str] is a
    sequence of Unicode code points, a [dict] is an insertion-ordered
    association list, an exception is an explicit [Raise]. *)

From Stdlib Require Import String Ascii.
From Stdlib Require Import List NArith ZArith Bool Lia.
Import ListNotations.

Set Implicit Arguments.

(* ================================================================== *)
(** * Python strings *)
(* ================================================================== *)

(** A code point, and a Python [str]: a sequence of code points. *)
Definition cp := N.
Definition pystr := list cp.

(** The [str] denoted by an ASCII literal of the source. *)
Fixpoint lit (s : string) : pystr :=
  match s with
  | EmptyString => []
  | String a r => N_of_ascii a :: lit r
  end.
Arguments lit s%_string.

(** The double quote, which a literal cannot hold. *)
Definition dq : pystr := [34%N].

(** The new line. *)
Definition newline : pystr := [10%N].

Fixpoint pystr_eqb (a b : pystr) : bool :=
  match a, b with
  | [], [] => true
  | x :: a', y :: b' => N.eqb x y && pystr_eqb a' b'
  | _, _ => false
  end.

(** [s.startswith(p)] *)
Fixpoint startswith (s p : pystr) : bool :=
  match p, s with
  | [], _ => true
  | a :: p', b :: s' => N.eqb a b && startswith s' p'
  | _ :: _, [] => false
  end.

(** [sep in s] *)
Fixpoint occurs (sep s : pystr) : bool :=
  startswith s sep ||
  match s with
  | [] => false
  | _ :: r => occurs sep r
  end.

(** [Py_UNICODE_ISSPACE]: the characters [str.strip()] removes. *)
Definition is_space (c : cp) : bool :=
  ((9 <=? c) && (c <=? 13) || (28 <=? c) && (c <=? 32) ||
   (c =? 133) || (c =? 160) || (c =? 5760) ||
   (8192 <=? c) && (c <=? 8202) || (c =? 8232) || (c =? 8233) ||
   (c =? 8239) || (c =? 8287) || (c =? 12288))%N.

Fixpoint lstrip (s : pystr) : pystr :=
  match s with
  | [] => []
  | c :: r => if is_space c then lstrip r else s
  end.

Definition rstrip (s : pystr) : pystr := rev (lstrip (rev s)).

(** [s.strip()] *)
Definition strip (s : pystr) : pystr := rstrip (lstrip s).

(** [s.partition(sep)] when [sep] occurs in [s]: the text before the first
    occurrence and the text after it. *)
Fixpoint find_sep (sep s : pystr) : option (pystr * pystr) :=
  if startswith s sep then Some ([], skipn (length sep) s)
  else match s with
       | [] => None
       | c :: r =>
           match find_sep sep r with
           | Some (b, a) => Some (c :: b, a)
           | None => None
           end
       end.

(** [s.split(sep)] for a non-empty [sep]: cut at each occurrence found from
    the left.  Every cut removes at least one character, so [length s] cuts
    are never exceeded. *)
Fixpoint split_upto (n : nat) (sep s : pystr) : list pystr :=
  match n with
  | O => [s]
  | S n' =>
      match find_sep sep s with
      | None => [s]
      | Some (b, a) => b :: split_upto n' sep a
      end
  end.

Definition split (sep s : pystr) : list pystr := split_upto (length s) sep s.

(** [sep.join(parts)] *)
Fixpoint join (sep : pystr) (parts : list pystr) : pystr :=
  match parts with
  | [] => []
  | [p] => p
  | p :: rest => p ++ sep ++ join sep rest
  end.

(** [s.replace(old, new)] for a one-character [old]. *)
Definition replace_char (old : cp) (new : pystr) (s : pystr) : pystr :=
  flat_map (fun c => if N.eqb c old then new else [c]) s.

(* ================================================================== *)
(** * Exceptions *)
(* ================================================================== *)

Inductive exn : Type :=
  | JSONDecodeError
  | RecursionError
  | KeyError
  | IndexError
  | TypeError
  | AttributeError
  | ValueError.

Inductive res (A : Type) : Type :=
  | Ok (a : A)
  | Raise (e : exn).
Arguments Ok {A} a.
Arguments Raise {A} e.

Definition bind {A B : Type} (m : res A) (k : A -> res B) : res B :=
  match m with
  | Ok a => k a
  | Raise e => Raise e
  end.

Notation "x <- m ;; k" := (bind m (fun x => k))
  (at level 61, m at next level, right associativity).

(** [l[i]] on a list: [IndexError] out of range. *)
Definition index {A : Type} (l : list A) (i : nat) : res A :=
  match nth_error l i with
  | Some a => Ok a
  | None => Raise IndexError
  end.

(* ================================================================== *)
(** * Cleaning the model's answer (evaluate_use_case, lines 211-218) *)
(* ================================================================== *)

Definition fence : pystr := lit "```".

(** Lines 214-217: what follows [result_text = ... .strip()]. *)
Definition unfence (result_text : pystr) : res pystr :=
  if startswith result_text fence then
    result_text <- index (split fence result_text) 1 ;;
    if startswith result_text (lit "json") then Ok (skipn 4 result_text)
    else Ok result_text
  else Ok result_text.

(** Lines 211-218: the text handed to [json.loads]. *)
Definition clean_response (content : pystr) : res pystr :=
  result_text <- unfence (strip content) ;;
  Ok (strip result_text).

(* ================================================================== *)
(** * Python values and the [json] module *)
(* ================================================================== *)

(** The values [json.loads] builds.  A [float] is kept as the literal it was
    read from; a [dict] keeps its keys in insertion order. *)
Unset Elimination Schemes.
Inductive value : Type :=
  | VNone
  | VBool (b : bool)
  | VInt (z : Z)
  | VFloat (literal : pystr)
  | VStr (s : pystr)
  | VList (l : list value)
  | VDict (d : list (pystr * value)).
Set Elimination Schemes.

Definition dict := list (pystr * value).

(** [d[k] = v]: a new key goes last, a known key keeps its place. *)
Fixpoint dict_set (d : dict) (k : pystr) (v : value) : dict :=
  match d with
  | [] => [(k, v)]
  | (k', v') :: r =>
      if pystr_eqb k' k then (k', v) :: r else (k', v') :: dict_set r k v
  end.

(** [d.get(k)] *)
Fixpoint dict_find (d : dict) (k : pystr) : option value :=
  match d with
  | [] => None
  | (k', v) :: r => if pystr_eqb k' k then Some v else dict_find r k
  end.

(** ** What the embedding takes from the interpreter *)

Definition ascii_upper (c : cp) : cp :=
  if ((97 <=? c) && (c <=? 122))%N then (c - 32)%N else c.

Definition ascii_lower (c : cp) : cp :=
  if ((65 <=? c) && (c <=? 90))%N then (c + 32)%N else c.

Definition ascii_alpha (c : cp) : bool :=
  ((65 <=? c) && (c <=? 90) || (97 <=? c) && (c <=? 122))%N.

(** The Unicode case tables, the float conversions and the two limits of
    CPython that [json.loads] can meet.  Below 128 the case tables are the
    ASCII ones; elsewhere, and for floats, they are whatever the interpreter
    provides. *)
Class PyRuntime : Type := {
  (** how many arrays and objects inside one another [json.loads] can enter
      where the script calls it, before the recursion limit is reached *)
  nesting_limit : nat;
  (** [sys.get_int_max_str_digits()]; 0 when there is no limit *)
  int_max_str_digits : nat;
  (** [_PyUnicode_ToUpperFull] *)
  to_upper : cp -> pystr;
  (** [_PyUnicode_ToTitleFull] *)
  to_title : cp -> pystr;
  (** [lower_ucs4]: the lower case of the character at an index of a
      string (the final sigma depends on its neighbours). *)
  to_lower : pystr -> nat -> cp -> pystr;
  (** [_PyUnicode_IsCased] *)
  is_cased : cp -> bool;
  (** [repr] of a [str] *)
  str_repr : pystr -> pystr;
  (** [repr] of the float a literal denotes *)
  float_repr : pystr -> pystr;
  (** how [json.dumps] writes that float *)
  float_json : pystr -> pystr;
  (** the integer that float equals, when there is one *)
  float_integral : pystr -> option Z;
  to_upper_ascii : forall c, (c < 128)%N -> to_upper c = [ascii_upper c];
  to_title_ascii : forall c, (c < 128)%N -> to_title c = [ascii_upper c];
  to_lower_ascii : forall s i c, (c < 128)%N -> to_lower s i c = [ascii_lower c];
  is_cased_ascii : forall c, (c < 128)%N -> is_cased c = ascii_alpha c
}.

(** [s.upper()] *)
Definition upper `{PyRuntime} (s : pystr) : pystr := flat_map to_upper s.

(** [s.title()]: a character after a cased one is lowered, any other is
    title-cased. *)
Fixpoint title_from `{PyRuntime} (s : pystr) (i : nat) (rest : pystr)
    (previous_is_cased : bool) : pystr :=
  match rest with
  | [] => []
  | c :: r =>
      (if previous_is_cased then to_lower s i c else to_title c)
        ++ title_from s (S i) r (is_cased c)
  end.

Definition title `{PyRuntime} (s : pystr) : pystr := title_from s 0 s false.

(** ** json.loads, after the scanner of CPython's [_json] module *)

(** What a scanning function returns: a value and the text after it, a
    decoding error, another exception, or that the budget of calls ran
    out. *)
Inductive scan (A : Type) : Type :=
  | Found (a : A) (rest : pystr)
  | Stop
  | Fail (e : exn)
  | Exhausted.
Arguments Found {A} a rest.
Arguments Stop {A}.
Arguments Fail {A} e.
Arguments Exhausted {A}.

Definition is_ws (c : cp) : bool :=
  ((c =? 32) || (c =? 9) || (c =? 10) || (c =? 13))%N.

Fixpoint skip_ws (s : pystr) : pystr :=
  match s with
  | [] => []
  | c :: r => if is_ws c then skip_ws r else s
  end.

Definition is_digit (c : cp) : bool := ((48 <=? c) && (c <=? 57))%N.

Definition hex_val (c : cp) : option N :=
  if is_digit c then Some (c - 48)%N
  else if ((97 <=? c) && (c <=? 102))%N then Some (c - 87)%N
  else if ((65 <=? c) && (c <=? 70))%N then Some (c - 55)%N
  else None.

Definition hex4 (a b c d : cp) : option N :=
  match hex_val a, hex_val b, hex_val c, hex_val d with
  | Some a, Some b, Some c, Some d => Some (((a * 16 + b) * 16 + c) * 16 + d)%N
  | _, _, _, _ => None
  end.

Definition is_high_surrogate (c : cp) : bool := ((55296 <=? c) && (c <=? 56319))%N.
Definition is_low_surrogate (c : cp) : bool := ((56320 <=? c) && (c <=? 57343))%N.

(** [Py_UNICODE_JOIN_SURROGATES] *)
Definition join_surrogates (hi lo : cp) : cp :=
  (65536 + N.lor (N.shiftl (N.land hi 1023) 10) (N.land lo 1023))%N.

(** The one-character escapes of a JSON string. *)
Definition unescape (c : cp) : option cp :=
  if (c =? 34)%N then Some 34%N
  else if (c =? 92)%N then Some 92%N
  else if (c =? 47)%N then Some 47%N
  else if (c =? 98)%N then Some 8%N
  else if (c =? 102)%N then Some 12%N
  else if (c =? 110)%N then Some 10%N
  else if (c =? 114)%N then Some 13%N
  else if (c =? 116)%N then Some 9%N
  else None.

(** [scanstring] (strict): [s] is the text after the opening quote, [acc]
    the characters read so far, last first. *)
Fixpoint scanstring (s : pystr) (acc : pystr) {struct s} : option (pystr * pystr) :=
  match s with
  | [] => None
  | c :: r =>
      if (c =? 34)%N then Some (rev acc, r)
      else if (c =? 92)%N then
        match r with
        | [] => None
        | e :: r1 =>
            if (e =? 117)%N then
              match r1 with
              | h1 :: h2 :: h3 :: h4 :: r2 =>
                  match hex4 h1 h2 h3 h4 with
                  | None => None
                  | Some u =>
                      if is_high_surrogate u then
                        match r2 with
                        | b :: u' :: g1 :: g2 :: g3 :: g4 :: r3 =>
                            if ((b =? 92) && (u' =? 117))%N then
                              match hex4 g1 g2 g3 g4 with
                              | None => None
                              | Some u2 =>
                                  if is_low_surrogate u2
                                  then scanstring r3 (join_surrogates u u2 :: acc)
                                  else scanstring r2 (u :: acc)
                              end
                            else scanstring r2 (u :: acc)
                        | _ => scanstring r2 (u :: acc)
                        end
                      else scanstring r2 (u :: acc)
                  end
              | _ => None
              end
            else
              match unescape e with
              | Some c' => scanstring r1 (c' :: acc)
              | None => None
              end
        end
      else if (c <=? 31)%N then None
      else scanstring r (c :: acc)
  end.

Fixpoint span_digits (s : pystr) : pystr * pystr :=
  match s with
  | [] => ([], [])
  | c :: r =>
      if is_digit c then let (d, t) := span_digits r in (c :: d, t)
      else ([], s)
  end.

(** The number a run of decimal digits denotes. *)
Definition digits_value (ds : pystr) : N :=
  fold_left (fun n c => (n * 10 + (c - 48))%N) ds 0%N.

(** [_match_number]: an [int] when the literal has neither fraction nor
    exponent, a [float] otherwise. *)
Definition match_number (s : pystr) : option (value * pystr) :=
  let (neg, s1) :=
    match s with
    | c :: r => if (c =? 45)%N then (true, r) else (false, s)
    | [] => (false, s)
    end in
  match s1 with
  | [] => None
  | c :: r =>
      let int_part :=
        if ((49 <=? c) && (c <=? 57))%N
        then Some (let (d, t) := span_digits r in (c :: d, t))
        else if (c =? 48)%N then Some ([c], r)
        else None in
      match int_part with
      | None => None
      | Some (digits, s2) =>
          let (frac, s3) :=
            match s2 with
            | dot :: d :: r' =>
                if ((dot =? 46)%N && is_digit d)
                then let (ds, t) := span_digits r' in (dot :: d :: ds, t)
                else ([], s2)
            | _ => ([], s2)
            end in
          let (exp, s4) :=
            match s3 with
            | e :: r' =>
                if ((e =? 101) || (e =? 69))%N then
                  let (sign, r'') :=
                    match r' with
                    | sg :: t =>
                        if ((sg =? 45) || (sg =? 43))%N then ([sg], t) else ([], r')
                    | [] => ([], r')
                    end in
                  let (ds, t) := span_digits r'' in
                  match ds with
                  | [] => ([], s3)
                  | _ :: _ => (e :: sign ++ ds, t)
                  end
                else ([], s3)
            | [] => ([], s3)
            end in
          match frac, exp with
          | [], [] =>
              let n := Z.of_N (digits_value digits) in
              Some (VInt (if neg then (- n)%Z else n), s4)
          | _, _ =>
              Some (VFloat ((if neg then [45%N] else []) ++ digits ++ frac ++ exp), s4)
          end
      end
  end.

(** [PyLong_FromString] refuses a literal of more digits than the limit
    allows: none of 640 digits or fewer, and none when the limit is 0. *)
Definition int_too_long `{PyRuntime} (digits : nat) : bool :=
  Nat.ltb 640 digits && Nat.ltb 0 int_max_str_digits
  && Nat.ltb int_max_str_digits digits.

(** The number of digits of the integer literal read from [s] up to
    [rest]: what was read, less the sign. *)
Definition literal_digits (s rest : pystr) : nat :=
  length s - length rest
  - match s with
    | c :: _ => if (c =? 45)%N then 1 else 0
    | [] => 0
    end.

(** [scan_once], [_parse_object] and [_parse_array].  [fuel] bounds the
    calls still allowed and [depth] the arrays and objects that can still be
    entered ([_Py_EnterRecursiveCall]); [parse_members] starts at a key and
    [parse_elements] at an element, white space already skipped. *)
Fixpoint scan_once `{PyRuntime} (fuel depth : nat) (s : pystr) {struct fuel}
    : scan value :=
  match fuel with
  | O => Exhausted
  | S f =>
      match s with
      | [] => Stop
      | c :: r =>
          if (c =? 34)%N then
            match scanstring r [] with
            | Some (str, rest) => Found (VStr str) rest
            | None => Stop
            end
          else if (c =? 123)%N then
            match depth with
            | O => Fail RecursionError
            | S d =>
                match skip_ws r with
                | c' :: r' =>
                    if (c' =? 125)%N then Found (VDict []) r'
                    else parse_members f d (c' :: r') []
                | [] => Stop
                end
            end
          else if (c =? 91)%N then
            match depth with
            | O => Fail RecursionError
            | S d =>
                match skip_ws r with
                | c' :: r' =>
                    if (c' =? 93)%N then Found (VList []) r'
                    else parse_elements f d (c' :: r') []
                | [] => Stop
                end
            end
          else if startswith s (lit "null") then Found VNone (skipn 4 s)
          else if startswith s (lit "true") then Found (VBool true) (skipn 4 s)
          else if startswith s (lit "false") then Found (VBool false) (skipn 5 s)
          else if startswith s (lit "NaN") then Found (VFloat (lit "NaN")) (skipn 3 s)
          else if startswith s (lit "Infinity")
               then Found (VFloat (lit "Infinity")) (skipn 8 s)
          else if startswith s (lit "-Infinity")
               then Found (VFloat (lit "-Infinity")) (skipn 9 s)
          else
            match match_number s with
            | Some (VInt z, rest) =>
                if int_too_long (literal_digits s rest) then Fail ValueError
                else Found (VInt z) rest
            | Some (v, rest) => Found v rest
            | None => Stop
            end
      end
  end

with parse_members `{PyRuntime} (fuel depth : nat) (s : pystr) (acc : dict)
    {struct fuel} : scan value :=
  match fuel with
  | O => Exhausted
  | S f =>
      match s with
      | [] => Stop
      | q :: r =>
          if (q =? 34)%N then
            match scanstring r [] with
            | None => Stop
            | Some (key, rest) =>
                match skip_ws rest with
                | colon :: rest1 =>
                    if (colon =? 58)%N then
                      match scan_once f depth (skip_ws rest1) with
                      | Found v rest2 =>
                          let acc' := dict_set acc key v in
                          match skip_ws rest2 with
                          | c :: rest3 =>
                              if (c =? 125)%N then Found (VDict acc') rest3
                              else if (c =? 44)%N
                                   then parse_members f depth (skip_ws rest3) acc'
                                   else Stop
                          | [] => Stop
                          end
                      | Stop => Stop
                      | Fail e => Fail e
                      | Exhausted => Exhausted
                      end
                    else Stop
                | [] => Stop
                end
            end
          else Stop
      end
  end

with parse_elements `{PyRuntime} (fuel depth : nat) (s : pystr) (acc : list value)
    {struct fuel} : scan value :=
  match fuel with
  | O => Exhausted
  | S f =>
      match scan_once f depth s with
      | Found v rest =>
          match skip_ws rest with
          | c :: rest1 =>
              if (c =? 93)%N then Found (VList (acc ++ [v])) rest1
              else if (c =? 44)%N
                   then parse_elements f depth (skip_ws rest1) (acc ++ [v])
                   else Stop
          | [] => Stop
          end
      | Stop => Stop
      | Fail e => Fail e
      | Exhausted => Exhausted
      end
  end.

(** [json.loads(s)] for a [str]: no byte-order mark, one value, nothing but
    white space around it.  A text nested deeper than the interpreter
    allows raises [RecursionError], an integer literal of too many digits
    [ValueError]; every other failure is a [JSONDecodeError].  The budget
    [2 * len(s) + 1] is never used up (see [scan_budget]). *)
Definition json_loads `{PyRuntime} (s : pystr) : res value :=
  if startswith s [65279%N] then Raise JSONDecodeError
  else
    match scan_once (2 * length s + 1) nesting_limit (skip_ws s) with
    | Found v rest =>
        match skip_ws rest with
        | [] => Ok v
        | _ :: _ => Raise JSONDecodeError
        end
    | Stop => Raise JSONDecodeError
    | Fail e => Raise e
    | Exhausted => Raise RecursionError
    end.

(** ** str() and repr() *)

Fixpoint dec_digits (fuel : nat) (n : N) (acc : pystr) : pystr :=
  match fuel with
  | O => acc
  | S f =>
      let acc' := (48 + n mod 10)%N :: acc in
      if (n <? 10)%N then acc' else dec_digits f (n / 10)%N acc'
  end.

(** The decimal digits of a natural number: it has no more of them than it
    has binary digits. *)
Definition str_N (n : N) : pystr := dec_digits (S (N.size_nat n)) n [].

(** [int.__repr__] *)
Definition str_int (z : Z) : pystr :=
  match z with
  | Z0 => str_N 0
  | Zpos p => str_N (Npos p)
  | Zneg p => 45%N :: str_N (Npos p)
  end.

Fixpoint py_repr `{PyRuntime} (v : value) : pystr :=
  match v with
  | VNone => lit "None"
  | VBool true => lit "True"
  | VBool false => lit "False"
  | VInt z => str_int z
  | VFloat l => float_repr l
  | VStr s => str_repr s
  | VList l => lit "[" ++ join (lit ", ") (map py_repr l) ++ lit "]"
  | VDict d =>
      lit "{"
      ++ join (lit ", ")
           (map (fun kv : pystr * value => let (k, x) := kv in str_repr k ++ lit ": " ++ py_repr x) d)
      ++ lit "}"
  end.

(** [str(v)], which is what an f-string field writes. *)
Definition py_str `{PyRuntime} (v : value) : pystr :=
  match v with
  | VStr s => s
  | _ => py_repr v
  end.

(** Truth value of an object. *)
Definition truthy `{PyRuntime} (v : value) : bool :=
  match v with
  | VNone => false
  | VBool b => b
  | VInt z => negb (Z.eqb z 0)
  | VFloat l => match float_integral l with Some 0%Z => false | _ => true end
  | VStr s => match s with [] => false | _ => true end
  | VList l => match l with [] => false | _ => true end
  | VDict d => match d with [] => false | _ => true end
  end.

(** ** json.dumps(obj, indent=2) *)

Definition hex_digit (n : N) : cp := if (n <? 10)%N then (48 + n)%N else (87 + n)%N.

(** ['\\u{0:04x}'.format(n)] *)
Definition u_escape (n : N) : pystr :=
  [92%N; 117%N; hex_digit (n / 4096); hex_digit ((n / 256) mod 16);
   hex_digit ((n / 16) mod 16); hex_digit (n mod 16)].

(** One character of [encode_basestring_ascii]. *)
Definition escape_char (c : cp) : pystr :=
  if (c =? 92)%N then [92%N; 92%N]
  else if (c =? 34)%N then [92%N; 34%N]
  else if (c =? 8)%N then [92%N; 98%N]
  else if (c =? 12)%N then [92%N; 102%N]
  else if (c =? 10)%N then [92%N; 110%N]
  else if (c =? 13)%N then [92%N; 114%N]
  else if (c =? 9)%N then [92%N; 116%N]
  else if ((32 <=? c) && (c <=? 126))%N then [c]
  else if (c <? 65536)%N then u_escape c
  else
    let n := (c - 65536)%N in
    u_escape (N.lor 55296 (N.land (N.shiftr n 10) 1023))
    ++ u_escape (N.lor 56320 (N.land n 1023)).

Definition encode_basestring_ascii (s : pystr) : pystr :=
  dq ++ flat_map escape_char s ++ dq.

(** A new line and the indentation of a nesting level. *)
Definition newline_indent (level : nat) : pystr := 10%N :: repeat 32%N (2 * level).

(** [_iterencode] with [indent=2]: items one per line, [','] between them,
    [': '] after a key.  This is the text of the values the encoder writes;
    where it raises instead (an [int] of more digits than the conversion to
    [str] allows, a value nested deeper than the recursion limit lets the
    encoder follow) lies outside the definition, and the statements on the
    export are made for [writable] and [exportable] values. *)
Fixpoint encode `{PyRuntime} (level : nat) (v : value) : pystr :=
  match v with
  | VNone => lit "null"
  | VBool true => lit "true"
  | VBool false => lit "false"
  | VInt z => str_int z
  | VFloat l => float_json l
  | VStr s => encode_basestring_ascii s
  | VList [] => lit "[]"
  | VList (x :: xs) =>
      lit "[" ++ newline_indent (S level) ++ encode (S level) x
      ++ flat_map (fun y => lit "," ++ newline_indent (S level) ++ encode (S level) y) xs
      ++ newline_indent level ++ lit "]"
  | VDict [] => lit "{}"
  | VDict ((k, x) :: xs) =>
      lit "{" ++ newline_indent (S level)
      ++ encode_basestring_ascii k ++ lit ": " ++ encode (S level) x
      ++ flat_map (fun kv : pystr * value => let (k', y) := kv in
                     lit "," ++ newline_indent (S level)
                     ++ encode_basestring_ascii k' ++ lit ": " ++ encode (S level) y) xs
      ++ newline_indent level ++ lit "}"
  end.

Definition json_dumps `{PyRuntime} (obj : value) : pystr := encode 0 obj.

(** A runtime that is exact on ASCII text and on integers, for running the
    definitions on such inputs: other characters have no case, a float
    prints as its literal; the limit on digits is CPython's default, and the
    nesting is what the default recursion limit of 1000 leaves to a script
    that is some hundred calls deep. *)
Definition ascii_runtime : PyRuntime.
Proof.
  refine {|
    nesting_limit := 900;
    int_max_str_digits := 4300;
    to_upper := fun c => [ascii_upper c];
    to_title := fun c => [ascii_upper c];
    to_lower := fun _ _ c => [ascii_lower c];
    is_cased := ascii_alpha;
    str_repr := fun s => 39%N :: s ++ [39%N];
    float_repr := fun l => l;
    float_json := fun l => l;
    float_integral := fun _ => None
  |}; reflexivity.
Defined.

(* ================================================================== *)
(** * The prompt (EVALUATION_PROMPT, evaluate_use_case lines 191-199) *)
(* ================================================================== *)

(** A word between double quotes. *)
Definition q (s : string) : pystr := dq ++ lit s ++ dq.
Arguments q s%_string.

(** The lines of the template, as the source has them. *)
Definition EVALUATION_PROMPT_lines : list pystr :=
  [
    lit "You are an expert AI governance analyst. Evaluate the following AI use case against regulatory frameworks and risk criteria.";
    [];
    lit "## USE CASE DETAILS:";
    lit "Name: {name}";
    lit "Department: {department}";
    lit "Description: {description}";
    lit "AI Techniques: {ai_techniques}";
    lit "Target Markets: {markets}";
    lit "Data Types: {data_types}";
    lit "Deployment Stage: {stage}";
    [];
    lit "## EVALUATE AGAINST:";
    lit "1. **Regulatory Risk**: EU AI Act, Colorado AI Act, NYC Local Law 144, GDPR implications";
    lit "2. **Bias & Fairness Risk**: Potential for discrimination, affected groups, historical bias in domain";
    lit "3. **Data Privacy Risk**: PII handling, consent, data retention, cross-border transfers";
    lit "4. **Transparency Risk**: Explainability requirements, user notification, right to human review";
    [];
    lit "## RETURN JSON ONLY (no markdown, no explanation outside JSON):";
    lit "{{";
    lit "    " ++ q "overall_score" ++ lit ": <0-100 integer>,";
    lit "    " ++ q "risk_level" ++ lit ": " ++ q "<HIGH|MEDIUM|LOW>" ++ lit ",";
    lit "    " ++ q "risks" ++ lit ": {{";
    lit "        " ++ q "regulatory" ++ lit ": {{";
    lit "            " ++ q "level" ++ lit ": " ++ q "<HIGH|MEDIUM|LOW>" ++ lit ",";
    lit "            " ++ q "score" ++ lit ": <0-100>,";
    lit "            " ++ q "summary" ++ lit ": " ++ q "<2-3 sentence explanation>" ++ lit ",";
    lit "            " ++ q "applicable_regulations" ++ lit ": [" ++ q "<list of specific regulations that apply>" ++ lit "]";
    lit "        }},";
    lit "        " ++ q "bias" ++ lit ": {{";
    lit "            " ++ q "level" ++ lit ": " ++ q "<HIGH|MEDIUM|LOW>" ++ lit ",";
    lit "            " ++ q "score" ++ lit ": <0-100>,";
    lit "            " ++ q "summary" ++ lit ": " ++ q "<2-3 sentence explanation>" ++ lit ",";
    lit "            " ++ q "affected_groups" ++ lit ": [" ++ q "<list of potentially affected groups>" ++ lit "]";
    lit "        }},";
    lit "        " ++ q "privacy" ++ lit ": {{";
    lit "            " ++ q "level" ++ lit ": " ++ q "<HIGH|MEDIUM|LOW>" ++ lit ",";
    lit "            " ++ q "score" ++ lit ": <0-100>,";
    lit "            " ++ q "summary" ++ lit ": " ++ q "<2-3 sentence explanation>" ++ lit ",";
    lit "            " ++ q "data_concerns" ++ lit ": [" ++ q "<list of specific data concerns>" ++ lit "]";
    lit "        }},";
    lit "        " ++ q "transparency" ++ lit ": {{";
    lit "            " ++ q "level" ++ lit ": " ++ q "<HIGH|MEDIUM|LOW>" ++ lit ",";
    lit "            " ++ q "score" ++ lit ": <0-100>,";
    lit "            " ++ q "summary" ++ lit ": " ++ q "<2-3 sentence explanation>" ++ lit ",";
    lit "            " ++ q "requirements" ++ lit ": [" ++ q "<list of transparency requirements>" ++ lit "]";
    lit "        }}";
    lit "    }},";
    lit "    " ++ q "recommended_actions" ++ lit ": [";
    lit "        {{";
    lit "            " ++ q "priority" ++ lit ": 1,";
    lit "            " ++ q "action" ++ lit ": " ++ q "<specific action to take>" ++ lit ",";
    lit "            " ++ q "regulation" ++ lit ": " ++ q "<relevant regulation or best practice>" ++ lit ",";
    lit "            " ++ q "owner" ++ lit ": " ++ q "<suggested responsible party>";
    lit "        }}";
    lit "    ],";
    lit "    " ++ q "executive_summary" ++ lit ": " ++ q "<3-4 sentence summary suitable for leadership>";
    lit "}}"
  ].

Definition EVALUATION_PROMPT : pystr :=
  flat_map (fun l => l ++ [10%N]) EVALUATION_PROMPT_lines.

(** What ends or qualifies a field name in a format string. *)
Definition is_field_mark (c : cp) : bool :=
  ((c =? 123) || (c =? 33) || (c =? 58) || (c =? 46) || (c =? 91))%N.

Fixpoint kw_find (kw : list (pystr * pystr)) (k : pystr) : res pystr :=
  match kw with
  | [] => Raise KeyError
  | (k', v) :: r => if pystr_eqb k' k then Ok v else kw_find r k
  end.

(** [template.format] with keyword arguments that are [str]s: [{{] and [}}] stand for a
    brace, [{name}] for the argument of that name.  Replacement fields are
    plain names, as in [EVALUATION_PROMPT]; conversions, format
    specifications and attribute or index look-ups are refused.  [field]
    holds the characters of the field being read, last first. *)
Fixpoint format_from (t : pystr) (field : option pystr) (kw : list (pystr * pystr))
    {struct t} : res pystr :=
  match t with
  | [] =>
      match field with
      | None => Ok []
      | Some _ => Raise ValueError
      end
  | c :: r =>
      match field with
      | Some acc =>
          if (c =? 125)%N then
            v <- kw_find kw (rev acc) ;;
            rest <- format_from r None kw ;;
            Ok (v ++ rest)
          else if is_field_mark c then Raise ValueError
          else format_from r (Some (c :: acc)) kw
      | None =>
          if (c =? 123)%N then
            match r with
            | c' :: r' =>
                if (c' =? 123)%N
                then rest <- format_from r' None kw ;; Ok (123%N :: rest)
                else format_from r (Some []) kw
            | [] => Raise ValueError
            end
          else if (c =? 125)%N then
            match r with
            | c' :: r' =>
                if (c' =? 125)%N
                then rest <- format_from r' None kw ;; Ok (125%N :: rest)
                else Raise ValueError
            | [] => Raise ValueError
            end
          else rest <- format_from r None kw ;; Ok (c :: rest)
      end
  end.

Definition format (template : pystr) (kw : list (pystr * pystr)) : res pystr :=
  format_from template None kw.

(** The use-case [dict] that [main] builds: always these seven keys. *)
Record use_case : Type := {
  name : pystr;
  department : pystr;
  ai_techniques : pystr;
  stage : pystr;
  markets : list pystr;
  data_types : list pystr;
  description : pystr
}.

(** Lines 191-199. *)
Definition build_prompt (use_case_data : use_case) : res pystr :=
  format EVALUATION_PROMPT
    [ (lit "name", name use_case_data);
      (lit "department", department use_case_data);
      (lit "description", description use_case_data);
      (lit "ai_techniques", ai_techniques use_case_data);
      (lit "markets", join (lit ", ") (markets use_case_data));
      (lit "data_types", join (lit ", ") (data_types use_case_data));
      (lit "stage", stage use_case_data) ].

(* ================================================================== *)
(** * get_risk_badge and the decoding of the answer *)
(* ================================================================== *)

Definition HIGH_badge : pystr :=
  lit "<span class=" ++ q "risk-high" ++ lit ">" ++ [9888%N; 65039%N] ++ lit " HIGH</span>".
Definition MEDIUM_badge : pystr :=
  lit "<span class=" ++ q "risk-medium" ++ lit ">" ++ [9889%N] ++ lit " MEDIUM</span>".
Definition LOW_badge : pystr :=
  lit "<span class=" ++ q "risk-low" ++ lit ">" ++ [9989%N] ++ lit " LOW</span>".

(** Lines 175-183.  [level.upper()] needs a [str]. *)
Definition get_risk_badge `{PyRuntime} (level : value) : res pystr :=
  match level with
  | VStr level =>
      let level := upper level in
      if pystr_eqb level (lit "HIGH") then Ok HIGH_badge
      else if pystr_eqb level (lit "MEDIUM") then Ok MEDIUM_badge
      else Ok LOW_badge
  | _ => Raise AttributeError
  end.

(** Lines 211-220: from the text of the answer to the decoded value. *)
Definition parse_response `{PyRuntime} (content : pystr) : res value :=
  result_text <- clean_response content ;;
  json_loads result_text.


(* ================================================================== *)
(** * generate_pdf_report *)
(* ================================================================== *)

(** [o[key]] with a [str] key. *)
Definition getitem (o : value) (key : pystr) : res value :=
  match o with
  | VDict d =>
      match dict_find d key with
      | Some v => Ok v
      | None => Raise KeyError
      end
  | _ => Raise TypeError
  end.

(** [o.get(key, default)] *)
Definition get (o : value) (key : pystr) (default : value) : res value :=
  match o with
  | VDict d =>
      match dict_find d key with
      | Some v => Ok v
      | None => Ok default
      end
  | _ => Raise AttributeError
  end.

(** [o.items()] *)
Definition items (o : value) : res (list (pystr * value)) :=
  match o with
  | VDict d => Ok d
  | _ => Raise AttributeError
  end.

(** [o[:n]] *)
Definition slice_to (n : nat) (o : value) : res value :=
  match o with
  | VStr s => Ok (VStr (firstn n s))
  | VList l => Ok (VList (firstn n l))
  | _ => Raise TypeError
  end.

(** The elements a [for] loop visits. *)
Definition iterate (o : value) : res (list value) :=
  match o with
  | VList l => Ok l
  | VStr s => Ok (map (fun c => VStr [c]) s)
  | VDict d => Ok (map (fun kv => VStr (fst kv)) d)
  | _ => Raise TypeError
  end.

(** A loop whose body may raise: the first exception ends it. *)
Fixpoint for_each {A B : Type} (body : A -> res B) (l : list A) : res (list B) :=
  match l with
  | [] => Ok []
  | a :: r =>
      b <- body a ;;
      bs <- for_each body r ;;
      Ok (b :: bs)
  end.

Fixpoint str_find (d : list (pystr * pystr)) (k : pystr) : option pystr :=
  match d with
  | [] => None
  | (k', v) :: r => if pystr_eqb k' k then Some v else str_find r k
  end.

(** [{'HIGH': '#DC2626', 'MEDIUM': '#D97706', 'LOW': '#059669'}.get(level,
    '#64748B')] (lines 276 and 300): a list or a dict cannot be a key. *)
Definition level_color (level : value) : res pystr :=
  match level with
  | VStr s =>
      match str_find [ (lit "HIGH", lit "#DC2626");
                       (lit "MEDIUM", lit "#D97706");
                       (lit "LOW", lit "#059669") ] s with
      | Some c => Ok c
      | None => Ok (lit "#64748B")
      end
  | VList _ | VDict _ => Raise TypeError
  | _ => Ok (lit "#64748B")
  end.

Record ParagraphStyle : Type := {
  style_name : pystr;
  parent : pystr;
  fontSize : option Z;
  textColor : option pystr;
  spaceBefore : option Z;
  spaceAfter : option Z;
  fontName : option pystr;
  alignment : option pystr
}.

Definition title_style : ParagraphStyle :=
  {| style_name := lit "Title"; parent := lit "Heading1"; fontSize := Some 24%Z;
     textColor := Some (lit "#1E293B"); spaceBefore := None; spaceAfter := Some 6%Z;
     fontName := None; alignment := None |}.
Definition subtitle_style : ParagraphStyle :=
  {| style_name := lit "Subtitle"; parent := lit "Normal"; fontSize := Some 12%Z;
     textColor := Some (lit "#64748B"); spaceBefore := None; spaceAfter := Some 20%Z;
     fontName := None; alignment := None |}.
Definition heading_style : ParagraphStyle :=
  {| style_name := lit "Heading"; parent := lit "Heading2"; fontSize := Some 14%Z;
     textColor := Some (lit "#3B82F6"); spaceBefore := Some 20%Z; spaceAfter := Some 10%Z;
     fontName := None; alignment := None |}.
Definition body_style : ParagraphStyle :=
  {| style_name := lit "Body"; parent := lit "Normal"; fontSize := Some 10%Z;
     textColor := Some (lit "#374151"); spaceBefore := None; spaceAfter := Some 8%Z;
     fontName := None; alignment := None |}.
Definition label_style : ParagraphStyle :=
  {| style_name := lit "Label"; parent := lit "Body"; fontSize := None;
     textColor := Some (lit "#64748B"); spaceBefore := None; spaceAfter := None;
     fontName := Some (lit "Helvetica-Bold"); alignment := None |}.
Definition footer_style : ParagraphStyle :=
  {| style_name := lit "Footer"; parent := lit "Normal"; fontSize := Some 8%Z;
     textColor := Some (lit "#94A3B8"); spaceBefore := None; spaceAfter := None;
     fontName := None; alignment := Some (lit "TA_CENTER") |}.

(** The argument of a table style command; a width is in tenths of a point. *)
Inductive style_arg : Type :=
  | Font (face : pystr)
  | Size (points : Z)
  | HexColor (hex : pystr)
  | White
  | Align (how : pystr)
  | Line (tenths : Z) (hex : pystr).

(** [(command, (col, row), (col, row), argument)] *)
Definition table_cmd : Type := pystr * (Z * Z) * (Z * Z) * style_arg.

(** The flowables of the story; column widths are in tenths of an inch. *)
Inductive flowable : Type :=
  | Paragraph (text : value) (style : ParagraphStyle)
  | Spacer (width height : Z)
  | HRFlowable (width : pystr) (thickness : Z) (color : pystr)
  | Table (data : list (list value)) (colWidths : list Z) (style : list table_cmd).

(** ** What the embedding takes from reportlab *)

(** The paragraph parser and the document builder. *)
Class Reportlab : Type := {
  (** whether [ParaParser.parse] accepts a text as the markup of a
      paragraph *)
  parses_as_markup : pystr -> bool;
  (** the exception [doc.build] ends in on a story, if it ends in one *)
  doc_build : list flowable -> option exn
}.

(** [Paragraph(text, style)].  The text is split into lines and parsed as
    markup when the paragraph is made: a text that is no [str] raises
    [AttributeError], one the parser refuses [ValueError]. *)
Definition paragraph `{Reportlab} (text : value) (style : ParagraphStyle)
    : res flowable :=
  match text with
  | VStr s =>
      if parses_as_markup s then Ok (Paragraph (VStr s) style) else Raise ValueError
  | _ => Raise AttributeError
  end.

(** Line 302: the line of a risk section that names the risk and its
    level. *)
Definition risk_line `{PyRuntime} (risk_name : pystr) (level : value)
    (level_color : pystr) : pystr :=
  lit "<b>" ++ title (replace_char 95%N (lit " ") risk_name)
  ++ lit " Risk:</b> <font color='" ++ level_color
  ++ lit "'>" ++ py_str level ++ lit "</font>".

(** Lines 297-304: the three flowables of one entry of [risks]. *)
Definition risk_section `{PyRuntime} `{Reportlab} (item : pystr * value)
    : res (list flowable) :=
  let (risk_name, risk_data) := item in
  level <- get risk_data (lit "level") (VStr (lit "UNKNOWN")) ;;
  level_color <- level_color level ;;
  heading <- paragraph (VStr (risk_line risk_name level level_color)) body_style ;;
  summary <- get risk_data (lit "summary") (VStr []) ;;
  summary <- paragraph summary body_style ;;
  Ok [ heading; summary; Spacer 1 8 ].

(** Lines 313-318: one row of the actions table. *)
Definition action_row `{PyRuntime} (action : value) : res (list value) :=
  priority <- get action (lit "priority") (VStr (lit "-")) ;;
  text <- get action (lit "action") (VStr []) ;;
  text <- slice_to 60 text ;;
  regulation <- get action (lit "regulation") (VStr []) ;;
  regulation <- slice_to 30 regulation ;;
  owner <- get action (lit "owner") (VStr []) ;;
  Ok [ VStr (lit "P" ++ py_str priority); text; regulation; owner ].

Definition action_table_style : list table_cmd :=
  [ (lit "BACKGROUND", (0, 0), (-1, 0), HexColor (lit "#3B82F6"));
    (lit "TEXTCOLOR", (0, 0), (-1, 0), White);
    (lit "FONTNAME", (0, 0), (-1, 0), Font (lit "Helvetica-Bold"));
    (lit "FONTSIZE", (0, 0), (-1, -1), Size 9);
    (lit "BOTTOMPADDING", (0, 0), (-1, -1), Size 8);
    (lit "TOPPADDING", (0, 0), (-1, -1), Size 8);
    (lit "GRID", (0, 0), (-1, -1), Line 5 (lit "#E2E8F0"));
    (lit "VALIGN", (0, 0), (-1, -1), Align (lit "TOP")) ]%Z.

(** Lines 308-331: the actions table, when there are actions. *)
Definition actions_section `{PyRuntime} (evaluation_result : value) : res (list flowable) :=
  actions <- get evaluation_result (lit "recommended_actions") (VList []) ;;
  if truthy actions then
    first_six <- slice_to 6 actions ;;
    first_six <- iterate first_six ;;
    rows <- for_each action_row first_six ;;
    Ok [ Table
           ([VStr (lit "Priority"); VStr (lit "Action"); VStr (lit "Regulation");
             VStr (lit "Owner")] :: rows)
           [6; 30; 15; 14]%Z action_table_style ]
  else Ok [].

(** Lines 243-247.  [generated] is [datetime.now().strftime('%B %d, %Y at
    %I:%M %p')]. *)
Definition report_header `{Reportlab} (generated : pystr) : res (list flowable) :=
  generated <- paragraph (VStr (lit "Generated: " ++ generated)) subtitle_style ;;
  Ok [ Paragraph (VStr ([128269%N] ++ lit " AIGovLens Governance Report")) title_style;
       generated;
       HRFlowable (lit "100%") 2 (lit "#3B82F6");
       Spacer 1 20 ].

(** The rows of the overview table (lines 250-257). *)
Definition overview_data (use_case_data : use_case) : list (list value) :=
  [ [VStr (lit "Use Case Name:"); VStr (name use_case_data)];
    [VStr (lit "Department:"); VStr (department use_case_data)];
    [VStr (lit "AI Techniques:"); VStr (ai_techniques use_case_data)];
    [VStr (lit "Deployment Stage:"); VStr (stage use_case_data)];
    [VStr (lit "Target Markets:"); VStr (join (lit ", ") (markets use_case_data))];
    [VStr (lit "Data Types:"); VStr (join (lit ", ") (data_types use_case_data))] ].

(** Lines 249-272. *)
Definition report_overview `{Reportlab} (use_case_data : use_case)
    : res (list flowable) :=
  description <- paragraph (VStr (description use_case_data)) body_style ;;
  Ok [ Paragraph (VStr ([128203%N] ++ lit " Use Case Overview")) heading_style;
       Table (overview_data use_case_data) [15; 50]%Z
         [ (lit "FONTNAME", (0, 0), (0, -1), Font (lit "Helvetica-Bold"));
           (lit "FONTSIZE", (0, 0), (-1, -1), Size 10);
           (lit "TEXTCOLOR", (0, 0), (0, -1), HexColor (lit "#64748B"));
           (lit "TEXTCOLOR", (1, 0), (1, -1), HexColor (lit "#1E293B"));
           (lit "BOTTOMPADDING", (0, 0), (-1, -1), Size 8);
           (lit "VALIGN", (0, 0), (-1, -1), Align (lit "TOP")) ]%Z;
       Spacer 1 10;
       Paragraph (VStr (lit "Description:")) label_style;
       description ].

(** The style of the assessment table (lines 282-288): the cell of the
    risk level takes [risk_color]. *)
Definition assessment_style (risk_color : pystr) : list table_cmd :=
  [ (lit "FONTNAME", (0, 0), (-1, -1), Font (lit "Helvetica-Bold"));
    (lit "FONTSIZE", (0, 0), (-1, -1), Size 12);
    (lit "TEXTCOLOR", (0, 0), (0, -1), HexColor (lit "#64748B"));
    (lit "TEXTCOLOR", (1, 1), (1, 1), HexColor risk_color);
    (lit "BOTTOMPADDING", (0, 0), (-1, -1), Size 8) ]%Z.

(** The rows of the assessment table (lines 277-280): the risk level is
    the cell of column 1, row 1. *)
Definition assessment_data `{PyRuntime} (overall_score risk_level : value)
    : list (list value) :=
  [ [VStr (lit "Overall Score:"); VStr (py_str overall_score ++ lit "/100")];
    [VStr (lit "Risk Level:"); risk_level] ].

(** Lines 274-291. *)
Definition report_assessment `{PyRuntime} `{Reportlab} (evaluation_result : value)
    : res (list flowable) :=
  risk_level <- getitem evaluation_result (lit "risk_level") ;;
  risk_color <- level_color risk_level ;;
  overall_score <- getitem evaluation_result (lit "overall_score") ;;
  executive_summary <- get evaluation_result (lit "executive_summary") (VStr []) ;;
  executive_summary <- paragraph executive_summary body_style ;;
  Ok [ Paragraph (VStr ([128202%N] ++ lit " Overall Assessment")) heading_style;
       Table (assessment_data overall_score risk_level) [15; 50]%Z
         (assessment_style risk_color);
       Spacer 1 10;
       executive_summary ].

(** Lines 293-304. *)
Definition risk_breakdown `{PyRuntime} `{Reportlab} (evaluation_result : value)
    : res (list flowable) :=
  risks <- get evaluation_result (lit "risks") (VDict []) ;;
  risk_items <- items risks ;;
  sections <- for_each risk_section risk_items ;;
  Ok (Paragraph (VStr ([9888%N; 65039%N] ++ lit " Risk Assessment")) heading_style
      :: concat sections).

(** Lines 333-339. *)
Definition report_footer : list flowable :=
  [ Spacer 1 30;
    HRFlowable (lit "100%") 1 (lit "#E2E8F0");
    Paragraph (VStr (lit "Generated by AIGovLens - Open Source AI Governance Toolkit"))
      footer_style;
    Paragraph (VStr (lit "github.com/parul-khanna/aigovlens | MIT License")) footer_style;
    Paragraph
      (VStr ([9888%N; 65039%N]
             ++ lit " This report is for informational purposes only and does not constitute legal advice."))
      footer_style ].

(** Lines 230-343, in the order of the source: the story is made piece by
    piece, each paragraph parsed as it is made, and handed to [doc.build],
    from which reportlab lays out the buffer that is returned. *)
Definition generate_pdf_report `{PyRuntime} `{Reportlab} (generated : pystr)
    (use_case_data : use_case) (evaluation_result : value) : res (list flowable) :=
  header <- report_header generated ;;
  overview <- report_overview use_case_data ;;
  assessment <- report_assessment evaluation_result ;;
  breakdown <- risk_breakdown evaluation_result ;;
  actions <- actions_section evaluation_result ;;
  let story :=
    header ++ overview ++ assessment ++ breakdown
    ++ (Paragraph (VStr ([9989%N] ++ lit " Recommended Actions")) heading_style :: actions)
    ++ report_footer in
  match doc_build story with
  | None => Ok story
  | Some e => Raise e
  end.

(** A reportlab that is exact on the texts and stories the definitions are
    run on: it takes a text without [<], [>] and [&], and a line of the
    form of [risk_line] in one of the four colours, as markup; it builds a
    story whose table cells are no lists. *)
Definition plain_text (s : pystr) : bool :=
  forallb (fun c => negb ((c =? 60) || (c =? 62) || (c =? 38))%N) s.

Definition known_color (c : pystr) : bool :=
  existsb (pystr_eqb c) [lit "#DC2626"; lit "#D97706"; lit "#059669"; lit "#64748B"].

Definition simple_markup (s : pystr) : bool :=
  plain_text s
  || (startswith s (lit "<b>")
      && match find_sep (lit "</b> <font color='") (skipn 3 s) with
         | Some (risk_title, r) =>
             plain_text risk_title
             && match find_sep (lit "'>") r with
                | Some (color, r') =>
                    known_color color
                    && match find_sep (lit "</font>") r' with
                       | Some (level, []) => plain_text level
                       | _ => false
                       end
                | None => false
                end
         | None => false
         end).

Definition scalar_cells (f : flowable) : bool :=
  match f with
  | Table data _ _ =>
      forallb (forallb (fun v => match v with VList _ => false | _ => true end)) data
  | _ => true
  end.

Definition plain_reportlab : Reportlab :=
  {| parses_as_markup := simple_markup;
     doc_build := fun story =>
       if forallb scalar_cells story then None else Some AttributeError |}.

(* ================================================================== *)
(** * evaluate_use_case and main *)
(* ================================================================== *)

(** What a download button is given. *)
Inductive download_data : Type :=
  | pdf_buffer (story : list flowable)
  | json_str (text : pystr).

(** What the page is told.  The cards of the results view carry the values
    written into their fixed HTML. *)
Inductive st_call : Type :=
  | st_error (text : pystr)
  | st_error_exception (text : pystr) (e : exn)
  | st_success (text : pystr)
  | st_info (body : value)
  | st_write (text : pystr)
  | st_balloons
  | score_card (overall_score risk_level : pystr)
  | risk_card (column : nat) (icon risk_title badge summary : pystr)
  | action_line (priority_color priority action regulation owner : pystr)
  | st_download_button (label : pystr) (data : download_data) (file_name mime : pystr).

(** Lines 186-227, with the completion service as a function from the key
    and the prompt to the answer's [content].  The function returns the
    decoded value, or [None] after reporting through [st.error]. *)
Definition evaluate_use_case `{PyRuntime} (completion : pystr -> pystr -> res value)
    (use_case_data : use_case) (api_key : pystr) : value * list st_call :=
  let body : res value :=
    prompt <- build_prompt use_case_data ;;
    content <- completion api_key prompt ;;
    content <- match content with
               | VStr s => Ok s
               | _ => Raise AttributeError
               end ;;
    parse_response content in
  match body with
  | Ok result => (result, [])
  | Raise JSONDecodeError =>
      (VNone, [st_error (lit "Failed to parse AI response. Please try again.")])
  | Raise e => (VNone, [st_error_exception (lit "Error calling Groq API: ") e])
  end.

(** [st.session_state]: the two entries [main] keeps. *)
Record session_state : Type := {
  evaluation_result : value;
  use_case_data : option use_case
}.

(** Lines 403-406. *)
Definition initial_state : session_state :=
  {| evaluation_result := VNone; use_case_data := None |}.

(** What the widgets return in one run of the script. *)
Record widgets : Type := {
  api_key : pystr;
  name_input : pystr;
  department_select : pystr;
  ai_techniques_select : pystr;
  stage_select : pystr;
  markets_select : list pystr;
  data_types_select : list pystr;
  description_area : pystr;
  evaluate_btn : bool;
  clear_btn : bool;
  new_evaluation_btn : bool
}.

(** The readings of [datetime.now()] a run makes, one for each call. *)
Record clock : Type := {
  generated : pystr;      (* line 244: strftime('%B %d, %Y at %I:%M %p') *)
  pdf_yyyymmdd : pystr;   (* line 593: strftime('%Y%m%d') *)
  isoformat : pystr;      (* line 602: isoformat() *)
  json_yyyymmdd : pystr   (* line 607: strftime('%Y%m%d') *)
}.

(** How a run of the script ends. *)
Inductive ending : Type :=
  | finished
  | rerun
  | raised (e : exn).

Record run : Type := {
  state : session_state;
  calls : list st_call;
  outcome : ending
}.

Definition is_empty (s : pystr) : bool :=
  match s with
  | [] => true
  | _ :: _ => false
  end.

(** Lines 483-515: the Evaluate button. *)
Definition on_evaluate `{PyRuntime} (completion : pystr -> pystr -> res value)
    (w : widgets) (s : session_state) : session_state * list st_call :=
  if is_empty (name_input w) then (s, [st_error (lit "Please enter a use case name")])
  else if pystr_eqb (department_select w) (lit "Select...")
       then (s, [st_error (lit "Please select a department")])
  else if match markets_select w with [] => true | _ => false end
       then (s, [st_error (lit "Please select at least one target market")])
  else if match data_types_select w with [] => true | _ => false end
       then (s, [st_error (lit "Please select at least one data type")])
  else if is_empty (description_area w)
       then (s, [st_error (lit "Please enter a description")])
  else if is_empty (api_key w)
       then (s, [st_error (lit "Please enter your Groq API key in the sidebar")])
  else
    let use_case_data :=
      {| name := name_input w;
         department := department_select w;
         ai_techniques :=
           if pystr_eqb (ai_techniques_select w) (lit "Select...")
           then lit "Not specified" else ai_techniques_select w;
         stage :=
           if pystr_eqb (stage_select w) (lit "Select...")
           then lit "Not specified" else stage_select w;
         markets := markets_select w;
         data_types := data_types_select w;
         description := description_area w |} in
    let (result, told) := evaluate_use_case completion use_case_data (api_key w) in
    if truthy result then
      ({| evaluation_result := result; use_case_data := Some use_case_data |},
       told ++ [ st_success ([9989%N]
                             ++ lit " Evaluation complete! View results in the Results tab.");
                 st_balloons ])
    else (s, told).

(** The use-case [dict] as a value, keys in the order [main] writes them. *)
Definition use_case_value (u : use_case) : value :=
  VDict [ (lit "name", VStr (name u));
          (lit "department", VStr (department u));
          (lit "ai_techniques", VStr (ai_techniques u));
          (lit "stage", VStr (stage u));
          (lit "markets", VList (map VStr (markets u)));
          (lit "data_types", VList (map VStr (data_types u)));
          (lit "description", VStr (description u)) ].

(** Lines 599-603: the bundle and its serialization. *)
Definition export_bundle (use_case : use_case) (result : value) (generated_at : pystr)
    : value :=
  VDict [ (lit "use_case", use_case_value use_case);
          (lit "evaluation", result);
          (lit "generated_at", VStr generated_at) ].

Definition export_json `{PyRuntime} (use_case : use_case) (result : value)
    (generated_at : pystr) : pystr :=
  json_dumps (export_bundle use_case result generated_at).

(** Line 556. *)
Definition risk_icon (risk_name : pystr) : pystr :=
  match str_find [ (lit "regulatory", [127963%N; 65039%N]);
                   (lit "bias", [9878%N; 65039%N]);
                   (lit "privacy", [128274%N]);
                   (lit "transparency", [128065%N; 65039%N]) ] risk_name with
  | Some icon => icon
  | None => [128202%N]
  end.

(** Line 573: [{1: ..., 2: ..., 3: ...}.get(priority, ...)]; [True] and
    [1.0] are the key [1]. *)
Definition priority_color `{PyRuntime} (priority : value) : res pystr :=
  let of_int (z : Z) : pystr :=
    if (z =? 1)%Z then [128308%N]
    else if (z =? 2)%Z then [128992%N]
    else if (z =? 3)%Z then [128993%N]
    else [9898%N] in
  match priority with
  | VInt z => Ok (of_int z)
  | VBool b => Ok (of_int (if b then 1 else 0)%Z)
  | VFloat l =>
      match float_integral l with
      | Some z => Ok (of_int z)
      | None => Ok [9898%N]
      end
  | VList _ | VDict _ => Raise TypeError
  | _ => Ok [9898%N]
  end.

(** Lines 551-563: the card of one entry of [risks]. *)
Definition risk_card_of `{PyRuntime} (idx : nat) (item : pystr * value) : res st_call :=
  let (risk_name, risk_data) := item in
  let risk_title := title (replace_char 95%N (lit " ") risk_name) in
  level <- get risk_data (lit "level") (VStr (lit "UNKNOWN")) ;;
  let icon := risk_icon risk_name in
  badge <- get_risk_badge level ;;
  summary <- get risk_data (lit "summary") (VStr (lit "No details available.")) ;;
  Ok (risk_card (Nat.modulo idx 2) icon risk_title badge (py_str summary)).

(** The calls made before a piece of the script ended, and the exception
    that ended it, if one did. *)
Definition logged : Type := list st_call * option exn.

(** Make the calls [m] computes, then go on with [k], unless [m] raises. *)
Definition tell (m : res (list st_call)) (k : logged) : logged :=
  match m with
  | Ok told => (told ++ fst k, snd k)
  | Raise e => ([], Some e)
  end.

Definition and_then (a k : logged) : logged :=
  match snd a with
  | None => (fst a ++ fst k, snd k)
  | Some _ => a
  end.

Fixpoint risk_cards `{PyRuntime} (idx : nat) (risk_items : list (pystr * value)) : logged :=
  match risk_items with
  | [] => ([], None)
  | item :: r =>
      tell (card <- risk_card_of idx item ;; Ok [card]) (risk_cards (S idx) r)
  end.

(** Lines 571-578. *)
Definition action_line_of `{PyRuntime} (action : value) : res st_call :=
  priority <- get action (lit "priority") (VStr (lit "-")) ;;
  priority_color <- priority_color priority ;;
  text <- get action (lit "action") (VStr (lit "N/A")) ;;
  regulation <- get action (lit "regulation") (VStr []) ;;
  owner <- get action (lit "owner") (VStr (lit "TBD")) ;;
  Ok (action_line priority_color (py_str priority) (py_str text) (py_str regulation)
        (py_str owner)).

Fixpoint action_lines `{PyRuntime} (actions : list value) : logged :=
  match actions with
  | [] => ([], None)
  | action :: r =>
      tell (line <- action_line_of action ;; Ok [line]) (action_lines r)
  end.

(** Lines 582-610: the two download buttons. *)
Definition export_buttons `{PyRuntime} `{Reportlab} (now : clock) (use_case : use_case)
    (result : value) : logged :=
  let name_stem := replace_char 32%N (lit "_") (name use_case) in
  tell (story <- generate_pdf_report (generated now) use_case result ;;
        Ok [ st_download_button ([128196%N] ++ lit " Download PDF Report")
               (pdf_buffer story)
               (lit "AIGovLens_Report_" ++ name_stem ++ lit "_" ++ pdf_yyyymmdd now
                ++ lit ".pdf")
               (lit "application/pdf") ])
    ([ st_download_button ([128202%N] ++ lit " Download JSON")
         (json_str (export_json use_case result (isoformat now)))
         (lit "AIGovLens_Data_" ++ name_stem ++ lit "_" ++ json_yyyymmdd now
          ++ lit ".json")
         (lit "application/json") ],
     None).

(** Lines 518-610: the results view of a stored evaluation. *)
Definition results_view `{PyRuntime} `{Reportlab} (now : clock) (use_case : use_case) (result : value)
    : logged :=
  tell (overall_score <- get result (lit "overall_score") (VStr (lit "N/A")) ;;
        risk_level <- get result (lit "risk_level") (VStr (lit "N/A")) ;;
        Ok [score_card (py_str overall_score) (py_str risk_level)])
 (tell (executive_summary <- get result (lit "executive_summary")
                               (VStr (lit "No summary available.")) ;;
        Ok [st_info executive_summary])
 (match (risks <- get result (lit "risks") (VDict []) ;; items risks) with
  | Raise e => ([], Some e)
  | Ok risk_items =>
      and_then (risk_cards 0 risk_items)
     (match get result (lit "recommended_actions") (VList []) with
      | Raise e => ([], Some e)
      | Ok actions =>
          and_then
            (if truthy actions then
               match iterate actions with
               | Ok elements => action_lines elements
               | Raise e => ([], Some e)
               end
             else ([st_write (lit "No specific actions recommended.")], None))
            (export_buttons now use_case result)
      end)
  end)).

Definition no_results : list st_call :=
  [ st_info (VStr ([128072%N] ++ lit " Enter a use case in the 'Evaluate Use Case' tab and click 'Evaluate with AI' to see results here.")) ].

(** Lines 517-619: the Results tab. *)
Definition results_tab `{PyRuntime} `{Reportlab} (now : clock) (w : widgets) (s : session_state) : run :=
  match use_case_data s with
  | Some use_case =>
      if truthy (evaluation_result s) then
        match results_view now use_case (evaluation_result s) with
        | (told, None) =>
            if new_evaluation_btn w
            then {| state := initial_state; calls := told; outcome := rerun |}
            else {| state := s; calls := told; outcome := finished |}
        | (told, Some e) => {| state := s; calls := told; outcome := raised e |}
        end
      else {| state := s; calls := no_results; outcome := finished |}
  | None => {| state := s; calls := no_results; outcome := finished |}
  end.

(** One run of [main]: the Evaluate tab, then the Results tab. *)
Definition main `{PyRuntime} `{Reportlab} (completion : pystr -> pystr -> res value) (now : clock)
    (w : widgets) (s : session_state) : run :=
  if clear_btn w then {| state := initial_state; calls := []; outcome := rerun |}
  else
    let (s1, told) := if evaluate_btn w then on_evaluate completion w s else (s, []) in
    let r := results_tab now w s1 in
    {| state := state r; calls := told ++ calls r; outcome := outcome r |}.

(** The download buttons of a run. *)
Definition downloads (r : run) : list st_call :=
  filter (fun c => match c with st_download_button _ _ _ _ => true | _ => false end)
    (calls r).

(* ================================================================== *)
(** * The vocabulary of the specification *)
(* ================================================================== *)

(** One of the three levels. *)
Definition is_level (v : value) : bool :=
  match v with
  | VStr s =>
      pystr_eqb s (lit "HIGH") || pystr_eqb s (lit "MEDIUM") || pystr_eqb s (lit "LOW")
  | _ => false
  end.

(** An integer from 0 to 100. *)
Definition is_score (v : value) : bool :=
  match v with
  | VInt z => ((0 <=? z) && (z <=? 100))%Z
  | _ => false
  end.

(** The field is present and fails the check. *)
Definition present_but_not (check : value -> bool) (d : dict) (key : pystr) : bool :=
  match dict_find d key with
  | Some v => negb (check v)
  | None => false
  end.

(** A schema violation: a level that is present and outside the
    enumeration, or a score that is present and not an integer of the
    range, in the record or in an entry of its [risks]. *)
Definition schema_violation (v : value) : bool :=
  match v with
  | VDict d =>
      present_but_not is_level d (lit "risk_level")
      || present_but_not is_score d (lit "overall_score")
      || match dict_find d (lit "risks") with
         | Some (VDict risks) =>
             existsb (fun kv : pystr * value =>
                        match snd kv with
                        | VDict rd =>
                            present_but_not is_level rd (lit "level")
                            || present_but_not is_score rd (lit "score")
                        | _ => false
                        end) risks
         | _ => false
         end
  | _ => false
  end.

(** The text of a field of an action, empty when the field is absent. *)
Definition field_text (action : value) (key : pystr) : pystr :=
  match action with
  | VDict d =>
      match dict_find d key with
      | Some (VStr s) => s
      | _ => []
      end
  | _ => []
  end.

(** A field that holds a text when it is present. *)
Definition text_if_present (d : dict) (key : pystr) : bool :=
  match dict_find d key with
  | Some (VStr _) | None => true
  | Some _ => false
  end.

(** An Action: a record whose action and regulation are texts. *)
Definition is_action (v : value) : bool :=
  match v with
  | VDict d => text_if_present d (lit "action") && text_if_present d (lit "regulation")
  | _ => false
  end.

(** The recommended actions of an evaluation record: a sequence of
    Actions, empty when the record has none. *)
Definition actions_of (evaluation_result : value) : option (list value) :=
  match evaluation_result with
  | VDict d =>
      match dict_find d (lit "recommended_actions") with
      | None => Some []
      | Some (VList l) => if forallb is_action l then Some l else None
      | Some _ => None
      end
  | _ => None
  end.

(** The value of a field of a record, or a default when it is absent. *)
Definition field_or (record : value) (key : pystr) (default : value) : value :=
  match record with
  | VDict d =>
      match dict_find d key with
      | Some v => v
      | None => default
      end
  | _ => default
  end.

(** The row of an Action in the actions table: priority, action capped at
    60 characters, regulation capped at 30, owner. *)
Definition capped_row `{PyRuntime} (action : value) : list value :=
  [ VStr (lit "P" ++ py_str (field_or action (lit "priority") (VStr (lit "-"))));
    VStr (firstn 60 (field_text action (lit "action")));
    VStr (firstn 30 (field_text action (lit "regulation")));
    field_or action (lit "owner") (VStr []) ].

(** The head of the actions table. *)
Definition actions_header : list value :=
  [VStr (lit "Priority"); VStr (lit "Action"); VStr (lit "Regulation"); VStr (lit "Owner")].

(** An entry of [risks] that can be rendered: a record whose level, when it
    has one, is not a list or a record, whose line is markup with that
    level in it, and whose summary, when it has one, is a text that is
    markup. *)
Definition renderable_risk `{PyRuntime} `{Reportlab} (entry : pystr * value) : bool :=
  match snd entry with
  | VDict _ =>
      match level_color (field_or (snd entry) (lit "level") (VStr (lit "UNKNOWN"))),
            field_or (snd entry) (lit "summary") (VStr []) with
      | Ok color, VStr summary =>
          parses_as_markup
            (risk_line (fst entry)
               (field_or (snd entry) (lit "level") (VStr (lit "UNKNOWN"))) color)
          && parses_as_markup summary
      | _, _ => false
      end
  | _ => false
  end.

(** The section of an entry of [risks]: its title and level in the colour
    of the level, then its summary. *)
Definition section_of `{PyRuntime} (entry : pystr * value) (level : value) (color : pystr)
    : list flowable :=
  [ Paragraph (VStr (risk_line (fst entry) level color)) body_style;
    Paragraph (field_or (snd entry) (lit "summary") (VStr [])) body_style;
    Spacer 1 8 ].

(** A paragraph whose text holds the given words. *)
Definition mentions (words : pystr) (f : flowable) : bool :=
  match f with
  | Paragraph (VStr text) _ => occurs words text
  | _ => false
  end.

(** ** What is no JSON *)

(** The first character of a JSON value (RFC 8259): that of an object, an
    array, a string or a number, or of [false], [null] or [true]. *)
Definition begins_json_value (c : cp) : bool :=
  ((c =? 123) || (c =? 91) || (c =? 34) || (c =? 45) || is_digit c
   || (c =? 102) || (c =? 110) || (c =? 116))%N.

(** A text that is no JSON whatever follows: after the white space of
    JSON it is empty or begins with a character that begins no value. *)
Definition begins_no_json (s : pystr) : bool :=
  match skip_ws s with
  | [] => true
  | c :: _ => negb (begins_json_value c)
  end.

(** An answer that is no JSON and that [json.loads] takes. *)
Definition nan_response : pystr := lit "NaN".

(** ** The form and the session *)

(** The checks of lines 485-496 all pass. *)
Definition form_complete (w : widgets) : bool :=
  negb (is_empty (name_input w))
  && negb (pystr_eqb (department_select w) (lit "Select..."))
  && negb (match markets_select w with [] => true | _ => false end)
  && negb (match data_types_select w with [] => true | _ => false end)
  && negb (is_empty (description_area w))
  && negb (is_empty (api_key w)).

(** The use case a complete form describes (lines 498-506). *)
Definition use_case_of_form (w : widgets) : use_case :=
  {| name := name_input w;
     department := department_select w;
     ai_techniques :=
       if pystr_eqb (ai_techniques_select w) (lit "Select...")
       then lit "Not specified" else ai_techniques_select w;
     stage :=
       if pystr_eqb (stage_select w) (lit "Select...")
       then lit "Not specified" else stage_select w;
     markets := markets_select w;
     data_types := data_types_select w;
     description := description_area w |}.

(** The two entries of the session go together: no use case and no result,
    or a use case and a result that counts as true. *)
Definition coherent `{PyRuntime} (s : session_state) : Prop :=
  match use_case_data s with
  | None => evaluation_result s = VNone
  | Some _ => truthy (evaluation_result s) = true
  end.

(** An entry of [risks] the results view can show: a dict whose level, if
    it has one, is a [str]. *)
Definition card_renderable (entry : pystr * value) : bool :=
  match snd entry with
  | VDict rd =>
      match dict_find rd (lit "level") with
      | Some (VStr _) | None => true
      | Some _ => false
      end
  | _ => false
  end.

(** An action the results view can list: a dict whose priority, if it has
    one, can be looked up (no list, no dict). *)
Definition line_renderable (action : value) : bool :=
  match action with
  | VDict d =>
      match dict_find d (lit "priority") with
      | Some (VList _) | Some (VDict _) => false
      | _ => true
      end
  | _ => false
  end.

Definition is_download (c : st_call) : bool :=
  match c with
  | st_download_button _ _ _ _ => true
  | _ => false
  end.

(** A filled form for Scenario A. *)
Definition resume_form : widgets :=
  {| api_key := lit "gsk_key";
     name_input := lit "Resume Screener";
     department_select := lit "Human Resources";
     ai_techniques_select := lit "Select...";
     stage_select := lit "Pilot";
     markets_select := [lit "United States"];
     data_types_select := [lit "PII"];
     description_area := lit "Screens resumes using NLP.";
     evaluate_btn := true;
     clear_btn := false;
     new_evaluation_btn := false |}.

(** The same form before the API key is entered. *)
Definition resume_form_without_key : widgets :=
  {| api_key := [];
     name_input := lit "Resume Screener";
     department_select := lit "Human Resources";
     ai_techniques_select := lit "Select...";
     stage_select := lit "Pilot";
     markets_select := [lit "United States"];
     data_types_select := [lit "PII"];
     description_area := lit "Screens resumes using NLP.";
     evaluate_btn := true;
     clear_btn := false;
     new_evaluation_btn := false |}.

(** ** What the export can carry *)

(** A code point that is a Unicode scalar value: in range and no
    surrogate. *)
Definition is_scalar (c : cp) : bool :=
  ((c <? 55296) || ((57344 <=? c) && (c <? 1114112)))%N.

(** A [str] of scalar values, as decoding UTF-8 gives. *)
Definition is_text (s : pystr) : bool := forallb is_scalar s.

Fixpoint distinct (keys : list pystr) : bool :=
  match keys with
  | [] => true
  | k :: r => negb (existsb (pystr_eqb k) r) && distinct r
  end.

(** How deep the arrays and objects of a value are inside one another. *)
Fixpoint nesting (v : value) : nat :=
  match v with
  | VList l => S (fold_right (fun x n => Nat.max (nesting x) n) 0 l)
  | VDict d =>
      S (fold_right (fun (kv : pystr * value) n =>
                       let (_, x) := kv in Nat.max (nesting x) n) 0 d)
  | _ => 0
  end.

(** The values [json.dumps] writes and [json.loads] reads as they are:
    [None], [bool], [int] of no more digits than the conversion between
    [int] and [str] allows, text, lists and dicts of them with distinct text
    keys.  A [float] is left out: the embedding keeps it as its literal, and
    what [repr] prints for it belongs to the runtime. *)
Fixpoint writable `{PyRuntime} (v : value) : bool :=
  match v with
  | VNone | VBool _ => true
  | VInt z => negb (int_too_long (length (str_N (Z.abs_N z))))
  | VFloat _ => false
  | VStr s => is_text s
  | VList l => forallb writable l
  | VDict d =>
      distinct (map fst d)
      && forallb (fun kv : pystr * value => let (k, x) := kv in
                    is_text k && writable x) d
  end.

(** The values the round trip is stated for: writable, and nested less
    deep than [json.loads] can follow, with a level to spare for the bundle
    around them. *)
Definition exportable `{PyRuntime} (v : value) : bool :=
  writable v && Nat.ltb (nesting v) nesting_limit.

(** A character of ASCII. *)
Definition is_ascii (c : cp) : bool := (c <? 128)%N.

(** The text after an encoded value: the end, a comma or a new line. *)
Definition closes (rest : pystr) : bool :=
  match rest with
  | [] => true
  | c :: _ => ((c =? 44) || (c =? 10))%N
  end.

(** What reading an encoded value back means, at a depth that is allowed
    and whatever the indentation and the text after it: with budget enough,
    [scan_once] finds the value and stops right after it. *)
Definition reads_back `{PyRuntime} (depth : nat) (v : value) : Prop :=
  forall level rest, closes rest = true ->
  exists f, forall g, f <= g ->
    scan_once g depth (encode level v ++ rest) = Found v rest.

(** The keys of a [dict], in order. *)
Definition keys (v : value) : list pystr :=
  match v with
  | VDict d => map fst d
  | _ => []
  end.

(** A small evaluation record for Scenario A. *)
Definition resume_evaluation : value :=
  VDict [ (lit "overall_score", VInt 78);
          (lit "risk_level", VStr (lit "HIGH"));
          (lit "risks",
           VDict [ (lit "bias",
                    VDict [ (lit "level", VStr (lit "HIGH"));
                            (lit "score", VInt 80);
                            (lit "summary", VStr (lit "Historical bias."));
                            (lit "key_concerns", VList [VStr (lit "Proxy features")]) ]) ]);
          (lit "recommended_actions", VList []);
          (lit "executive_summary", VStr (lit "Proceed with care.")) ].

(** ** The scenarios of the specification, as texts *)

(** Scenario C: an answer that is not JSON. *)
Definition not_json_response : pystr := lit "not json at all".

(** Scenario D: an answer whose [risks] omit the transparency category. *)
Definition no_transparency_response : pystr :=
  lit "{" ++ q "overall_score" ++ lit ": 78, " ++ q "risk_level" ++ lit ": " ++ q "HIGH"
  ++ lit ", " ++ q "risks" ++ lit ": {"
  ++ q "regulatory" ++ lit ": {" ++ q "level" ++ lit ": " ++ q "HIGH" ++ lit ", "
     ++ q "score" ++ lit ": 80, " ++ q "summary" ++ lit ": " ++ q "Hiring is high risk." ++ lit "}, "
  ++ q "bias" ++ lit ": {" ++ q "level" ++ lit ": " ++ q "MEDIUM" ++ lit ", "
     ++ q "score" ++ lit ": 55, " ++ q "summary" ++ lit ": " ++ q "Historical bias." ++ lit "}, "
  ++ q "privacy" ++ lit ": {" ++ q "level" ++ lit ": " ++ q "LOW" ++ lit ", "
     ++ q "score" ++ lit ": 20, " ++ q "summary" ++ lit ": " ++ q "Little personal data." ++ lit "}"
  ++ lit "}, " ++ q "recommended_actions" ++ lit ": [], "
  ++ q "executive_summary" ++ lit ": " ++ q "Proceed with care." ++ lit "}".

(** An answer whose level is outside the enumeration and whose score is
    out of range. *)
Definition out_of_schema_response : pystr :=
  lit "{" ++ q "overall_score" ++ lit ": 150, " ++ q "risk_level" ++ lit ": "
  ++ q "EXTREME" ++ lit "}".

(** A payload with a fence inside one of its strings. *)
Definition payload_with_fence : pystr :=
  lit "{" ++ q "executive_summary" ++ lit ": " ++ q "Fence code with ``` marks."
  ++ lit "}".

(** Scenario A: the use case of the resume screener. *)
Definition resume_screener : use_case :=
  {| name := lit "Resume Screener";
     department := lit "Human Resources";
     ai_techniques := lit "Natural Language Processing (NLP)";
     stage := lit "Not specified";
     markets := [lit "United States"];
     data_types := [lit "PII"];
     description := lit "Screens resumes using NLP." |}.

(* ================================================================== *)
(** * Strings: prefixes, occurrences, stripping *)
(* ================================================================== *)

Lemma startswith_empty (s : pystr) : startswith s [] = true.
Proof. now destruct s. Qed.

Lemma startswith_app (p rest : pystr) : startswith (p ++ rest) p = true.
Proof.
  induction p as [|a p IH]; simpl; [now destruct rest|].
  now rewrite N.eqb_refl.
Qed.

Lemma startswith_split (s p : pystr) :
  startswith s p = true -> s = p ++ skipn (length p) s.
Proof.
  revert s; induction p as [|a p IH]; intros s H; simpl in *; [reflexivity|].
  destruct s as [|b s]; [discriminate|].
  apply andb_prop in H as [Hab H]. apply N.eqb_eq in Hab; subst.
  simpl. f_equal. now apply IH.
Qed.

Lemma startswith_occurs (sep s : pystr) : startswith s sep = true -> occurs sep s = true.
Proof. intros H. destruct s; simpl in *; now rewrite H. Qed.

Lemma occurs_cons (sep : pystr) (c : cp) (s : pystr) :
  occurs sep s = true -> occurs sep (c :: s) = true.
Proof. intros H. simpl. rewrite H. apply orb_true_r. Qed.

Lemma occurs_app_r (sep l s : pystr) : occurs sep s = true -> occurs sep (l ++ s) = true.
Proof. intros H. induction l; simpl app; [assumption|now apply occurs_cons]. Qed.

Lemma occurs_here (sep rest : pystr) : occurs sep (sep ++ rest) = true.
Proof. apply startswith_occurs, startswith_app. Qed.

Lemma startswith_app_l (s t p : pystr) :
  startswith s p = true -> startswith (s ++ t) p = true.
Proof.
  revert s; induction p as [|a p IH]; intros s H; [apply startswith_empty|].
  destruct s as [|b s]; simpl in *; [discriminate|].
  apply andb_prop in H as [-> H]. simpl. now apply IH.
Qed.

Lemma occurs_app_l (sep s t : pystr) : occurs sep s = true -> occurs sep (s ++ t) = true.
Proof.
  induction s as [|c s IH]; intros H.
  - simpl in H. rewrite orb_false_r in H. destruct sep; [|discriminate].
    destruct t; reflexivity.
  - simpl in H. apply orb_prop in H as [H|H].
    + apply startswith_occurs. now apply (startswith_app_l (c :: s)).
    + simpl app. apply occurs_cons. now apply IH.
Qed.

(** A text in which [sep] does not occur has no part in which it does. *)
Lemma absent_app (sep l r : pystr) :
  occurs sep (l ++ r) = false -> occurs sep l = false /\ occurs sep r = false.
Proof.
  intros H; split.
  - destruct (occurs sep l) eqn:E; [|reflexivity].
    now rewrite (occurs_app_l _ _ r E) in H.
  - destruct (occurs sep r) eqn:E; [|reflexivity].
    now rewrite (occurs_app_r _ l _ E) in H.
Qed.

Lemma lstrip_suffix (s : pystr) : exists l, s = l ++ lstrip s.
Proof.
  induction s as [|c s [l IH]]; [now exists []|].
  simpl. destruct (is_space c).
  - exists (c :: l). simpl. now f_equal.
  - now exists [].
Qed.

Lemma rstrip_prefix (s : pystr) : exists r, s = rstrip s ++ r.
Proof.
  unfold rstrip. destruct (lstrip_suffix (rev s)) as [l H].
  exists (rev l). rewrite <- rev_app_distr, <- H. now rewrite rev_involutive.
Qed.

Lemma strip_infix (s : pystr) : exists l r, s = l ++ strip s ++ r.
Proof.
  unfold strip. destruct (lstrip_suffix s) as [l Hl].
  destruct (rstrip_prefix (lstrip s)) as [r Hr].
  exists l, r. now rewrite <- Hr.
Qed.

Lemma absent_strip (sep s : pystr) : occurs sep s = false -> occurs sep (strip s) = false.
Proof.
  intros H. destruct (strip_infix s) as (l & r & E). rewrite E in H.
  apply absent_app in H as [_ H]. now apply absent_app in H as [H _].
Qed.

Lemma absent_skipn (sep : pystr) (n : nat) (s : pystr) :
  occurs sep s = false -> occurs sep (skipn n s) = false.
Proof.
  intros H. rewrite <- (firstn_skipn n s) in H. now apply absent_app in H as [_ H].
Qed.

Lemma lstrip_fixed (s : pystr) :
  match s with [] => True | c :: _ => is_space c = false end -> lstrip s = s.
Proof. destruct s as [|c s]; simpl; [reflexivity|]. now intros ->. Qed.

Lemma lstrip_head (s : pystr) :
  match lstrip s with [] => True | c :: _ => is_space c = false end.
Proof.
  induction s as [|c s IH]; simpl; [exact I|].
  destruct (is_space c) eqn:E; [exact IH|exact E].
Qed.

Lemma lstrip_idem (s : pystr) : lstrip (lstrip s) = lstrip s.
Proof. apply lstrip_fixed, lstrip_head. Qed.

Lemma rstrip_idem (s : pystr) : rstrip (rstrip s) = rstrip s.
Proof. unfold rstrip. now rewrite rev_involutive, lstrip_idem. Qed.

(** Stripping on the right keeps a first character that is not a space. *)
Lemma rstrip_head (s : pystr) :
  match s with [] => True | c :: _ => is_space c = false end ->
  match rstrip s with [] => True | c :: _ => is_space c = false end.
Proof.
  intros H. destruct (rstrip_prefix s) as [r E].
  destruct (rstrip s) as [|c t]; [exact I|].
  rewrite E in H. exact H.
Qed.

Lemma strip_idem (s : pystr) : strip (strip s) = strip s.
Proof.
  unfold strip.
  rewrite (lstrip_fixed (rstrip (lstrip s))).
  - apply rstrip_idem.
  - apply rstrip_head, lstrip_head.
Qed.

(** ** Cutting at a separator *)

Lemma find_sep_eq (sep s : pystr) :
  find_sep sep s =
  if startswith s sep then Some ([], skipn (length sep) s)
  else match s with
       | [] => None
       | c :: r =>
           match find_sep sep r with
           | Some (b, a) => Some (c :: b, a)
           | None => None
           end
       end.
Proof. now destruct s. Qed.

Lemma occurs_eq (sep s : pystr) :
  occurs sep s = startswith s sep || match s with [] => false | _ :: r => occurs sep r end.
Proof. now destruct s. Qed.

Lemma find_sep_none (sep s : pystr) : find_sep sep s = None -> occurs sep s = false.
Proof.
  induction s as [|c s IH]; rewrite find_sep_eq, occurs_eq; intros H;
    destruct (startswith _ sep); try discriminate; [reflexivity|].
  destruct (find_sep sep s) as [[b a]|]; [discriminate|]. now apply IH.
Qed.

(** The text before the first occurrence is followed by the separator, and
    the text after it is what is left. *)
Lemma find_sep_some (sep s b a : pystr) :
  find_sep sep s = Some (b, a) -> s = b ++ sep ++ a.
Proof.
  revert b; induction s as [|c s IH]; intros b; rewrite find_sep_eq;
    destruct (startswith _ sep) eqn:E; intros H; try discriminate.
  - inversion H; subst. now apply startswith_split.
  - inversion H; subst. now apply startswith_split.
  - destruct (find_sep sep s) as [[b' a']|] eqn:F; [|discriminate].
    inversion H; subst. simpl. f_equal. now apply IH.
Qed.

Lemma startswith_nil (p : pystr) : startswith [] p = true -> p = [].
Proof. destruct p; [reflexivity|discriminate]. Qed.

(** A non-empty separator does not occur before its first occurrence. *)
Lemma find_sep_before (sep s b a : pystr) :
  sep <> [] -> find_sep sep s = Some (b, a) -> occurs sep b = false.
Proof.
  intros Hne. revert b; induction s as [|c s IH]; intros b; rewrite find_sep_eq;
    destruct (startswith _ sep) eqn:E; intros H; try discriminate.
  - inversion H; subst. destruct sep; [congruence|reflexivity].
  - inversion H; subst. destruct sep; [congruence|reflexivity].
  - destruct (find_sep sep s) as [[b' a']|] eqn:F; [|discriminate].
    inversion H; subst. rewrite occurs_eq.
    rewrite (IH b' eq_refl), orb_false_r.
    destruct (startswith (c :: b') sep) eqn:E'; [|reflexivity].
    rewrite (find_sep_some _ _ F) in E.
    change (c :: b' ++ sep ++ a) with ((c :: b') ++ sep ++ a) in E.
    now rewrite (startswith_app_l (c :: b') (sep ++ a) sep E') in E.
Qed.

Lemma find_sep_start (sep s : pystr) :
  startswith s sep = true -> find_sep sep s = Some ([], skipn (length sep) s).
Proof. intros H. rewrite find_sep_eq. now rewrite H. Qed.

(** The budget of [split] is enough: a larger one gives the same pieces. *)
Lemma split_upto_enough (sep : pystr) (n m : nat) (s : pystr) :
  sep <> [] -> length s <= n -> length s <= m -> split_upto n sep s = split_upto m sep s.
Proof.
  intros Hne. revert m s; induction n as [|n IH]; intros m s Hn Hm.
  - destruct s; [|simpl in Hn; lia].
    destruct m; cbn [split_upto]; [reflexivity|].
    rewrite find_sep_eq. destruct sep; [congruence|reflexivity].
  - destruct m as [|m].
    + destruct s; [|simpl in Hm; lia]. cbn [split_upto].
      rewrite find_sep_eq. destruct sep; [congruence|reflexivity].
    + cbn [split_upto]. destruct (find_sep sep s) as [[b a]|] eqn:F; [|reflexivity].
      f_equal. pose proof (find_sep_some _ _ F) as E.
      assert (length a < length s).
      { rewrite E, !length_app. destruct sep; [congruence|simpl; lia]. }
      apply IH; lia.
Qed.

(** The second piece of a text that starts with the separator: it exists and
    the separator does not occur in it. *)
Lemma split_second (sep s : pystr) :
  sep <> [] -> startswith s sep = true ->
  exists piece, index (split sep s) 1 = Ok piece /\ occurs sep piece = false.
Proof.
  intros Hne H. unfold split.
  destruct s as [|c s]; [apply startswith_nil in H; congruence|].
  cbn [length split_upto]. rewrite (find_sep_start _ _ H).
  set (a := skipn (length sep) (c :: s)).
  destruct (length s) as [|n] eqn:L.
  - cbn [split_upto]. exists a. split; [reflexivity|].
    unfold a. destruct s; [|discriminate]. destruct sep as [|x [|y sep]]; try congruence.
    + reflexivity.
    + simpl in H. now rewrite andb_false_r in H.
  - cbn [split_upto]. destruct (find_sep sep a) as [[b a']|] eqn:F.
    + exists b. split; [reflexivity|]. eapply find_sep_before; eauto.
    + exists a. split; [reflexivity|]. now apply find_sep_none.
Qed.

(* ================================================================== *)
(** * The cleaning step *)
(* ================================================================== *)

Lemma fence_nonempty : fence <> [].
Proof. discriminate. Qed.

(** Cleaning never raises, and the fence does not open its result. *)
Lemma clean_response_shape (content : pystr) :
  exists t, clean_response content = Ok t /\ strip t = t /\ startswith t fence = false.
Proof.
  unfold clean_response, unfence.
  destruct (startswith (strip content) fence) eqn:E.
  - destruct (split_second _ fence_nonempty E) as (piece & -> & Hp).
    cbn [bind].
    assert (forall u, occurs fence u = false ->
              strip (strip u) = strip u /\ startswith (strip u) fence = false) as K.
    { intros u Hu. split; [apply strip_idem|].
      destruct (startswith (strip u) fence) eqn:S; [|reflexivity].
      pose proof (absent_strip _ _ Hu) as A.
      now rewrite (startswith_occurs _ _ S) in A. }
    destruct (startswith piece (lit "json")).
    + eexists; split; [reflexivity|]. apply K. now apply absent_skipn.
    + eexists; split; [reflexivity|]. now apply K.
  - cbn [bind]. eexists; split; [reflexivity|]. split.
    + rewrite !strip_idem. reflexivity.
    + now rewrite strip_idem.
Qed.

(** C4.  Cleaning is idempotent: cleaning any text gives a text (it never
    raises), and cleaning that text again gives it back unchanged. *)
Theorem clean_response_idempotent (content : pystr) :
  exists t, clean_response content = Ok t /\ clean_response t = Ok t.
Proof.
  destruct (clean_response_shape content) as (t & Ht & Hs & Hf).
  exists t. split; [exact Ht|].
  unfold clean_response, unfence. rewrite Hs, Hf. cbn [bind]. now rewrite Hs.
Qed.

(** ** A fenced payload *)

Lemma rstrip_snoc_space (s : pystr) (c : cp) :
  is_space c = true -> rstrip (s ++ [c]) = rstrip s.
Proof.
  intros H. unfold rstrip. rewrite rev_app_distr. simpl. now rewrite H.
Qed.

Lemma strip_snoc_space (s : pystr) (c : cp) :
  is_space c = true -> strip (s ++ [c]) = strip s.
Proof.
  intros H. unfold strip. induction s as [|x s IH]; simpl.
  - now rewrite H.
  - destruct (is_space x); [exact IH|].
    now apply (rstrip_snoc_space (x :: s)).
Qed.

Lemma strip_cons_space (s : pystr) (c : cp) :
  is_space c = true -> strip (c :: s) = strip s.
Proof. intros H. unfold strip. simpl. now rewrite H. Qed.

Lemma rstrip_snoc_keep (s : pystr) (c : cp) :
  is_space c = false -> rstrip (s ++ [c]) = s ++ [c].
Proof.
  intros H. unfold rstrip. rewrite rev_app_distr. simpl. rewrite H.
  simpl. now rewrite rev_involutive.
Qed.

Lemma startswith_cons (b : cp) (s : pystr) (a : cp) (p : pystr) :
  startswith (b :: s) (a :: p) = N.eqb a b && startswith s p.
Proof. reflexivity. Qed.

Lemma fence_chars : fence = [96%N; 96%N; 96%N].
Proof. reflexivity. Qed.

(** A text that starts with a fence once something is put after it either
    starts with one already or ends in a backtick. *)
Lemma fence_straddles (u : pystr) (x : cp) (rest : pystr) :
  startswith ((u ++ [x]) ++ rest) fence = true ->
  startswith (u ++ [x]) fence = true \/ x = 96%N.
Proof.
  rewrite fence_chars. intros H.
  destruct u as [|c [|d [|e u]]]; cbn [app] in *;
    rewrite ?startswith_cons in H;
    repeat (apply andb_prop in H as [?%N.eqb_eq H]); subst; auto.
  left. rewrite !startswith_cons, !N.eqb_refl. cbn [andb]. apply startswith_empty.
Qed.

(** A fence that closes a text whose last character is not a backtick is
    the first one after it. *)
Lemma find_fence_after (b : pystr) (x : cp) (rest : pystr) :
  occurs fence (b ++ [x]) = false -> x <> 96%N ->
  find_sep fence ((b ++ [x]) ++ fence ++ rest) = Some (b ++ [x], rest).
Proof.
  intros Hb Hx.
  assert (forall u, occurs fence (u ++ [x]) = false ->
            startswith ((u ++ [x]) ++ fence ++ rest) fence = false) as K.
  { intros u Hu. destruct (startswith ((u ++ [x]) ++ fence ++ rest) fence) eqn:E;
      [|reflexivity].
    apply fence_straddles in E as [E|E]; [|congruence].
    now rewrite (startswith_occurs _ _ E) in Hu. }
  induction b as [|c b IH].
  - rewrite find_sep_eq, (K [] Hb). cbn [app].
    now rewrite (find_sep_start fence (fence ++ rest) (startswith_app _ _)).
  - rewrite find_sep_eq, (K (c :: b) Hb). cbn [app].
    assert (occurs fence (b ++ [x]) = false) as Hb'.
    { apply (absent_app fence [c] (b ++ [x])). exact Hb. }
    cbn [app] in IH. now rewrite (IH Hb').
Qed.

Lemma split_upto_second (sep : pystr) (n : nat) (s b a b' a' : pystr) :
  2 <= n -> find_sep sep s = Some (b, a) -> find_sep sep a = Some (b', a') ->
  index (split_upto n sep s) 1 = Ok b'.
Proof.
  intros Hn F1 F2. destruct n as [|[|n]]; try lia.
  cbn [split_upto]. now rewrite F1, F2.
Qed.

(** The interior of a fenced text whose last character is not a backtick. *)
Lemma split_fenced (u : pystr) (x : cp) :
  occurs fence (u ++ [x]) = false -> x <> 96%N ->
  index (split fence (fence ++ (u ++ [x]) ++ fence)) 1 = Ok (u ++ [x]).
Proof.
  intros Hu Hx. unfold split.
  eapply split_upto_second.
  - rewrite length_app. rewrite fence_chars. simpl. lia.
  - apply find_sep_start, startswith_app.
  - change (skipn (length fence) (fence ++ (u ++ [x]) ++ fence))
      with ((u ++ [x]) ++ fence).
    rewrite <- (app_nil_r fence) at 2. now apply find_fence_after.
Qed.

Lemma strip_keeps_fenced (body : pystr) :
  strip (fence ++ body ++ fence) = fence ++ body ++ fence.
Proof.
  unfold strip. rewrite lstrip_fixed; [|reflexivity].
  assert (fence ++ body ++ fence = (fence ++ body ++ [96%N; 96%N]) ++ [96%N]) as ->.
  { rewrite <- !app_assoc. reflexivity. }
  now apply rstrip_snoc_keep.
Qed.

(** A new line at the end of a text adds no fence to it. *)
Lemma absent_snoc_newline (u : pystr) :
  occurs fence u = false -> occurs fence (u ++ newline) = false.
Proof.
  intros Hu. destruct (occurs fence (u ++ newline)) eqn:O; [|reflexivity].
  exfalso. induction u as [|c u IH]; [discriminate|].
  rewrite occurs_eq in O, Hu. cbn [app] in O.
  apply orb_false_elim in Hu as [Hs Hu].
  apply orb_prop in O as [O|O]; [|now apply IH].
  rewrite fence_chars in *. unfold newline in O.
  destruct u as [|d [|e u]]; cbn [app] in O;
    rewrite ?startswith_cons, ?startswith_empty in O, Hs.
  - cbn [N.eqb Pos.eqb] in O. now rewrite !andb_false_r in O.
  - cbn [N.eqb Pos.eqb] in O. now rewrite !andb_false_r in O.
  - congruence.
Qed.

(** Putting a tag and a new line before a text adds no fence to it. *)
Lemma absent_after_tag (payload : pystr) :
  occurs fence payload = false ->
  occurs fence (lit "json" ++ newline ++ payload) = false /\
  occurs fence (newline ++ payload) = false.
Proof.
  intros Hp. change (lit "json" ++ newline ++ payload)
    with (106%N :: 115%N :: 111%N :: 110%N :: 10%N :: payload).
  change (newline ++ payload) with (10%N :: payload).
  rewrite fence_chars in *.
  repeat rewrite (occurs_eq _ (_ :: _)). rewrite !startswith_cons.
  cbn [N.eqb Pos.eqb andb orb]. auto.
Qed.

(** The text cleaned out of a fenced payload is the one cleaned out of the
    payload alone, with the [json] tag or without it, as long as the
    payload holds no fence of its own. *)
Lemma clean_fenced (payload : pystr) :
  occurs fence payload = false ->
  clean_response (fence ++ lit "json" ++ newline ++ payload ++ newline ++ fence)
    = clean_response payload /\
  clean_response (fence ++ newline ++ payload ++ newline ++ fence)
    = clean_response payload.
Proof.
  intros Hp.
  assert (clean_response payload = Ok (strip payload)) as ->.
  { unfold clean_response, unfence.
    destruct (startswith (strip payload) fence) eqn:S.
    - pose proof (absent_strip _ _ Hp) as A.
      now rewrite (startswith_occurs _ _ S) in A.
    - cbn [bind]. now rewrite strip_idem. }
  destruct (@absent_after_tag _ Hp) as [Hj Hn].
  split.
  - assert (fence ++ lit "json" ++ newline ++ payload ++ newline ++ fence
            = fence ++ ((lit "json" ++ newline ++ payload) ++ [10%N]) ++ fence) as ->.
    { rewrite <- !app_assoc. reflexivity. }
    unfold clean_response, unfence. rewrite strip_keeps_fenced.
    rewrite (startswith_app fence _).
    rewrite split_fenced; [|now apply absent_snoc_newline|discriminate].
    cbn [bind]. rewrite <- !app_assoc.
    rewrite (startswith_app (lit "json") _).
    change (skipn 4 (lit "json" ++ newline ++ payload ++ [10%N]))
      with (10%N :: payload ++ [10%N]).
    cbn [bind]. rewrite strip_cons_space by reflexivity.
    now rewrite strip_snoc_space.
  - assert (fence ++ newline ++ payload ++ newline ++ fence
            = fence ++ ((newline ++ payload) ++ [10%N]) ++ fence) as ->.
    { rewrite <- !app_assoc. reflexivity. }
    unfold clean_response, unfence. rewrite strip_keeps_fenced.
    rewrite (startswith_app fence _).
    rewrite split_fenced; [|now apply absent_snoc_newline|discriminate].
    cbn [bind]. rewrite <- !app_assoc.
    change (startswith (newline ++ payload ++ [10%N]) (lit "json")) with false.
    change (newline ++ payload ++ [10%N]) with (10%N :: payload ++ [10%N]).
    cbn [bind]. rewrite strip_cons_space by reflexivity.
    now rewrite strip_snoc_space.
Qed.

(** The decoded value of a fenced payload is that of the payload alone. *)
Lemma parse_fenced `{PyRuntime} (payload : pystr) :
  occurs fence payload = false ->
  parse_response (fence ++ lit "json" ++ newline ++ payload ++ newline ++ fence)
    = parse_response payload /\
  parse_response (fence ++ newline ++ payload ++ newline ++ fence)
    = parse_response payload.
Proof.
  intros Hp. unfold parse_response.
  destruct (@clean_fenced payload Hp) as [-> ->]. auto.
Qed.

(* ================================================================== *)
(** * The decoder: what it consumes and the budget it needs *)
(* ================================================================== *)

Lemma skip_ws_length (s : pystr) : length (skip_ws s) <= length s.
Proof.
  induction s as [|c s IH]; simpl; [lia|].
  destruct (is_ws c); simpl; lia.
Qed.

Lemma skip_ws_cons_length (s : pystr) (c : cp) (r : pystr) :
  skip_ws s = c :: r -> length r < length s.
Proof. intros H. pose proof (skip_ws_length s) as L. rewrite H in L. simpl in L. lia. Qed.

Lemma skipn_length_lt (n : nat) (s : pystr) (p : pystr) :
  startswith s p = true -> p <> [] -> n = length p -> length (skipn n s) < length s.
Proof.
  intros H Hp ->. rewrite (startswith_split _ _ H) at 2.
  rewrite length_app. destruct p; [congruence|simpl; lia].
Qed.

(** [scanstring] reads at least the closing quote. *)
Lemma scanstring_length (s : pystr) :
  forall acc str rest, scanstring s acc = Some (str, rest) -> length rest < length s.
Proof.
  remember (length s) as n eqn:Hn. revert s Hn.
  induction n as [n IH] using lt_wf_ind. intros s Hn acc str rest H. subst n.
  destruct s as [|c r]; [discriminate|]. cbn [scanstring] in H.
  assert (forall t a, length t < length (c :: r) ->
            scanstring t a = Some (str, rest) -> length rest < length t) as IH'.
  { intros t a Ht. now apply (IH (length t) Ht t eq_refl a). }
  clear IH.
  destruct (c =? 34)%N.
  { inversion H; subst. simpl. lia. }
  destruct (c =? 92)%N.
  - destruct r as [|e r1]; [discriminate|].
    destruct (e =? 117)%N.
    + destruct r1 as [|h1 [|h2 [|h3 [|h4 r2]]]]; try discriminate.
      destruct (hex4 h1 h2 h3 h4) as [u|]; [|discriminate].
      assert (scanstring r2 (u :: acc) = Some (str, rest) -> length rest < length (c :: e :: h1 :: h2 :: h3 :: h4 :: r2)) as K.
      { intros K. apply IH' in K; simpl in *; lia. }
      destruct (is_high_surrogate u); [|now apply K].
      destruct r2 as [|b [|u' [|g1 [|g2 [|g3 [|g4 r3]]]]]]; try (now apply K).
      destruct ((b =? 92) && (u' =? 117))%N; [|now apply K].
      destruct (hex4 g1 g2 g3 g4) as [u2|]; [|discriminate].
      destruct (is_low_surrogate u2); [|now apply K].
      apply IH' in H; simpl in *; lia.
    + destruct (unescape e); [|discriminate].
      apply IH' in H; simpl in *; lia.
  - destruct (c <=? 31)%N; [discriminate|].
    apply IH' in H; simpl in *; lia.
Qed.

Lemma span_digits_app (s : pystr) : s = fst (span_digits s) ++ snd (span_digits s).
Proof.
  induction s as [|c s IH]; [reflexivity|]. simpl.
  destruct (is_digit c); [|reflexivity].
  destruct (span_digits s) as [d t]. simpl in *. now f_equal.
Qed.

Lemma span_digits_length (s : pystr) : length (snd (span_digits s)) <= length s.
Proof.
  rewrite (span_digits_app s) at 2. rewrite length_app. lia.
Qed.

(** [_match_number] reads at least one digit. *)
Lemma match_number_length (s : pystr) (v : value) (rest : pystr) :
  match_number s = Some (v, rest) -> length rest < length s.
Proof.
  unfold match_number.
  set (p := match s with
            | [] => (false, s)
            | c :: r => if (c =? 45)%N then (true, r) else (false, s)
            end).
  assert (length (snd p) <= length s) as Hp.
  { unfold p. destruct s as [|c r]; [simpl; lia|].
    destruct (c =? 45)%N; simpl; lia. }
  destruct p as [neg s1]. simpl in Hp.
  destruct s1 as [|c r]; [discriminate|].
  set (ip := if ((49 <=? c) && (c <=? 57))%N
             then Some (let (d, t) := span_digits r in (c :: d, t))
             else if (c =? 48)%N then Some ([c], r) else None).
  assert (match ip with Some (_, s2) => length s2 <= length r | None => True end) as Hi.
  { unfold ip. destruct ((49 <=? c) && (c <=? 57))%N.
    - pose proof (span_digits_length r). destruct (span_digits r); assumption.
    - destruct (c =? 48)%N; [lia|exact I]. }
  destruct ip as [[digits s2]|]; [|discriminate].
  set (fp := match s2 with
             | dot :: d :: r' =>
                 if ((dot =? 46)%N && is_digit d)
                 then let (ds, t) := span_digits r' in (dot :: d :: ds, t)
                 else ([], s2)
             | _ => ([], s2)
             end).
  assert (length (snd fp) <= length s2) as Hf.
  { unfold fp. destruct s2 as [|dot [|d r']]; try (simpl; lia).
    destruct ((dot =? 46)%N && is_digit d); [|simpl; lia].
    pose proof (span_digits_length r'). destruct (span_digits r'); simpl in *; lia. }
  destruct fp as [frac s3]. simpl in Hf.
  set (ep := match s3 with
             | e :: r' =>
                 if ((e =? 101) || (e =? 69))%N then
                   let (sign, r'') :=
                     match r' with
                     | sg :: t =>
                         if ((sg =? 45) || (sg =? 43))%N then ([sg], t) else ([], r')
                     | [] => ([], r')
                     end in
                   let (ds, t) := span_digits r'' in
                   match ds with
                   | [] => ([], s3)
                   | _ :: _ => (e :: sign ++ ds, t)
                   end
                 else ([], s3)
             | [] => ([], s3)
             end).
  assert (length (snd ep) <= length s3) as He.
  { unfold ep. destruct s3 as [|e r']; [simpl; lia|].
    destruct ((e =? 101) || (e =? 69))%N; [|simpl; lia].
    set (sp := match r' with
               | sg :: t => if ((sg =? 45) || (sg =? 43))%N then ([sg], t) else ([], r')
               | [] => ([], r')
               end).
    assert (length (snd sp) <= length r') as Hs.
    { unfold sp. destruct r' as [|sg t]; [simpl; lia|].
      destruct ((sg =? 45) || (sg =? 43))%N; simpl; lia. }
    destruct sp as [sign r'']. simpl in Hs.
    pose proof (span_digits_length r''). destruct (span_digits r'') as [ds t].
    destruct ds; simpl in *; lia. }
  destruct ep as [exp s4]. simpl in He.
  intros H. assert (rest = s4) as ->.
  { destruct frac, exp; now inversion H. }
  simpl in *. lia.
Qed.

Section decoder.
Context `{PyRuntime}.

(** Every scanning function returns a text shorter than the one it got. *)
Lemma scan_consumes (fuel : nat) :
  (forall d s v rest, scan_once fuel d s = Found v rest -> length rest < length s) /\
  (forall d s acc v rest,
     parse_members fuel d s acc = Found v rest -> length rest < length s) /\
  (forall d s acc v rest,
     parse_elements fuel d s acc = Found v rest -> length rest < length s).
Proof.
  induction fuel as [|f (IHs & IHm & IHe)]; [repeat split; discriminate|].
  repeat split.
  - intros d s v rest Hf. destruct s as [|c r]; [discriminate Hf|].
    cbn [scan_once] in Hf.
    destruct (c =? 34)%N.
    { destruct (scanstring r []) as [[str rest']|] eqn:S; [|discriminate Hf].
      inversion Hf; subst. apply scanstring_length in S. simpl. lia. }
    destruct (c =? 123)%N.
    { destruct d as [|d]; [discriminate Hf|].
      destruct (skip_ws r) as [|c' r'] eqn:W; [discriminate Hf|].
      apply skip_ws_cons_length in W as L.
      destruct (c' =? 125)%N.
      - inversion Hf; subst. simpl. lia.
      - apply IHm in Hf. simpl in *. lia. }
    destruct (c =? 91)%N.
    { destruct d as [|d]; [discriminate Hf|].
      destruct (skip_ws r) as [|c' r'] eqn:W; [discriminate Hf|].
      apply skip_ws_cons_length in W as L.
      destruct (c' =? 93)%N.
      - inversion Hf; subst. simpl. lia.
      - apply IHe in Hf. simpl in *. lia. }
    repeat match type of Hf with
           | (if startswith ?s ?p then _ else _) = _ =>
               let E := fresh "E" in
               destruct (startswith s p) eqn:E;
               [injection Hf as _ <-;
                exact (@skipn_length_lt (length p) (c :: r) p E
                         ltac:(vm_compute; discriminate) eq_refl)|clear E]
           end.
    destruct (match_number (c :: r)) as [[v' rest']|] eqn:M; [|discriminate Hf].
    apply match_number_length in M.
    destruct v'; try (inversion Hf; subst; exact M).
    destruct (int_too_long (literal_digits (c :: r) rest')); [discriminate Hf|].
    inversion Hf; subst; exact M.
  - intros d s acc v rest Hf. destruct s as [|q r]; [discriminate Hf|].
    cbn [parse_members] in Hf.
    destruct (q =? 34)%N; [|discriminate Hf].
    destruct (scanstring r []) as [[key rest0]|] eqn:S; [|discriminate Hf].
    apply scanstring_length in S.
    destruct (skip_ws rest0) as [|colon rest1] eqn:W; [discriminate Hf|].
    apply skip_ws_cons_length in W.
    destruct (colon =? 58)%N; [|discriminate Hf].
    destruct (scan_once f d (skip_ws rest1)) as [v' rest2| | |] eqn:V;
      try discriminate Hf.
    apply IHs in V. pose proof (skip_ws_length rest1).
    destruct (skip_ws rest2) as [|c rest3] eqn:W2; [discriminate Hf|].
    apply skip_ws_cons_length in W2.
    destruct (c =? 125)%N.
    { inversion Hf; subst. simpl. lia. }
    destruct (c =? 44)%N; [|discriminate Hf].
    apply IHm in Hf. pose proof (skip_ws_length rest3). simpl. lia.
  - intros d s acc v rest Hf. cbn [parse_elements] in Hf.
    destruct (scan_once f d s) as [v' rest0| | |] eqn:V; try discriminate Hf.
    apply IHs in V.
    destruct (skip_ws rest0) as [|c rest1] eqn:W; [discriminate Hf|].
    apply skip_ws_cons_length in W.
    destruct (c =? 93)%N.
    { inversion Hf; subst. lia. }
    destruct (c =? 44)%N; [|discriminate Hf].
    apply IHe in Hf. pose proof (skip_ws_length rest1). lia.
Qed.

(** With two calls allowed per character the budget is never used up. *)
Lemma scan_budget (fuel : nat) :
  (forall d s, 2 * length s + 1 <= fuel -> scan_once fuel d s <> Exhausted) /\
  (forall d s acc, 2 * length s + 2 <= fuel -> parse_members fuel d s acc <> Exhausted) /\
  (forall d s acc, 2 * length s + 2 <= fuel -> parse_elements fuel d s acc <> Exhausted).
Proof.
  induction fuel as [|f (IHs & IHm & IHe)]; [repeat split; intros; lia|].
  destruct (scan_consumes f) as (Cs & Cm & Ce).
  repeat split.
  - intros d s Hf. destruct s as [|c r]; [discriminate|].
    cbn [scan_once]. simpl in Hf.
    destruct (c =? 34)%N.
    { destruct (scanstring r []) as [[str rest']|]; discriminate. }
    destruct (c =? 123)%N.
    { destruct d as [|d]; [discriminate|].
      destruct (skip_ws r) as [|c' r'] eqn:W; [discriminate|].
      apply skip_ws_cons_length in W as L.
      destruct (c' =? 125)%N; [discriminate|].
      apply IHm. simpl. lia. }
    destruct (c =? 91)%N.
    { destruct d as [|d]; [discriminate|].
      destruct (skip_ws r) as [|c' r'] eqn:W; [discriminate|].
      apply skip_ws_cons_length in W as L.
      destruct (c' =? 93)%N; [discriminate|].
      apply IHe. simpl. lia. }
    repeat match goal with
           | |- (if ?b then _ else _) <> _ => destruct b; [discriminate|]
           end.
    destruct (match_number (c :: r)) as [[v' rest']|]; [|discriminate].
    destruct v'; try discriminate.
    destruct (int_too_long (literal_digits (c :: r) rest')); discriminate.
  - intros d s acc Hf. destruct s as [|q r]; [discriminate|].
    cbn [parse_members]. simpl in Hf.
    destruct (q =? 34)%N; [|discriminate].
    destruct (scanstring r []) as [[key rest0]|] eqn:S; [|discriminate].
    apply scanstring_length in S.
    destruct (skip_ws rest0) as [|colon rest1] eqn:W; [discriminate|].
    apply skip_ws_cons_length in W.
    destruct (colon =? 58)%N; [|discriminate].
    pose proof (skip_ws_length rest1).
    destruct (scan_once f d (skip_ws rest1)) as [v' rest2| | |] eqn:V;
      try discriminate.
    + apply Cs in V.
      destruct (skip_ws rest2) as [|c rest3] eqn:W2; [discriminate|].
      apply skip_ws_cons_length in W2.
      destruct (c =? 125)%N; [discriminate|].
      destruct (c =? 44)%N; [|discriminate].
      apply IHm. pose proof (skip_ws_length rest3). lia.
    + exfalso. revert V. apply IHs. lia.
  - intros d s acc Hf. cbn [parse_elements].
    destruct (scan_once f d s) as [v' rest0| | |] eqn:V; try discriminate.
    + apply Cs in V.
      destruct (skip_ws rest0) as [|c rest1] eqn:W; [discriminate|].
      apply skip_ws_cons_length in W.
      destruct (c =? 93)%N; [discriminate|].
      destruct (c =? 44)%N; [|discriminate].
      apply IHe. pose proof (skip_ws_length rest1). lia.
    + exfalso. revert V. apply IHs. lia.
Qed.

(** A result that is not [Exhausted] does not depend on the budget. *)
Lemma scan_more_fuel (fuel : nat) :
  (forall d s, scan_once fuel d s <> Exhausted ->
     scan_once (S fuel) d s = scan_once fuel d s) /\
  (forall d s acc, parse_members fuel d s acc <> Exhausted ->
     parse_members (S fuel) d s acc = parse_members fuel d s acc) /\
  (forall d s acc, parse_elements fuel d s acc <> Exhausted ->
     parse_elements (S fuel) d s acc = parse_elements fuel d s acc).
Proof.
  induction fuel as [|f (IHs & IHm & IHe)];
    [repeat split; intros; exfalso;
     match goal with K : _ <> _ |- _ => now apply K end|].
  repeat split.
  - intros d s Hf. destruct s as [|c r]; [reflexivity|].
    cbn [scan_once] in Hf. cbn [scan_once].
    destruct (c =? 34)%N; [reflexivity|].
    destruct (c =? 123)%N.
    { destruct d as [|d]; [reflexivity|].
      destruct (skip_ws r) as [|c' r']; [reflexivity|].
      destruct (c' =? 125)%N; [reflexivity|]. now apply IHm. }
    destruct (c =? 91)%N.
    { destruct d as [|d]; [reflexivity|].
      destruct (skip_ws r) as [|c' r']; [reflexivity|].
      destruct (c' =? 93)%N; [reflexivity|]. now apply IHe. }
    reflexivity.
  - intros d s acc Hf. destruct s as [|q r]; [reflexivity|].
    cbn [parse_members] in Hf. cbn [parse_members].
    destruct (q =? 34)%N; [|reflexivity].
    destruct (scanstring r []) as [[key rest0]|]; [|reflexivity].
    destruct (skip_ws rest0) as [|colon rest1]; [reflexivity|].
    destruct (colon =? 58)%N; [|reflexivity].
    rewrite IHs; [|intros E; now rewrite E in Hf].
    destruct (scan_once f d (skip_ws rest1)) as [v' rest2| | |]; try reflexivity.
    destruct (skip_ws rest2) as [|c rest3]; [reflexivity|].
    destruct (c =? 125)%N; [reflexivity|].
    destruct (c =? 44)%N; [|reflexivity]. now apply IHm.
  - intros d s acc Hf. cbn [parse_elements] in Hf. cbn [parse_elements].
    rewrite IHs; [|intros E; now rewrite E in Hf].
    destruct (scan_once f d s) as [v' rest0| | |]; try reflexivity.
    destruct (skip_ws rest0) as [|c rest1]; [reflexivity|].
    destruct (c =? 93)%N; [reflexivity|].
    destruct (c =? 44)%N; [|reflexivity]. now apply IHe.
Qed.

Lemma scan_once_found_more (f g d : nat) (s : pystr) (v : value) (rest : pystr) :
  scan_once f d s = Found v rest -> f <= g -> scan_once g d s = Found v rest.
Proof.
  intros Hf Hg. induction Hg as [|g Hg IH]; [exact Hf|].
  destruct (scan_more_fuel g) as (M & _ & _). rewrite M; [exact IH|].
  rewrite IH. discriminate.
Qed.



End decoder.

(* ================================================================== *)
(** * Levels: the badge and the colours *)
(* ================================================================== *)

Lemma pystr_eqb_eq (a b : pystr) : pystr_eqb a b = true <-> a = b.
Proof.
  revert b; induction a as [|x a IH]; intros [|y b]; simpl; split; intros H;
    try reflexivity; try discriminate.
  - apply andb_prop in H as [Hx H]. apply N.eqb_eq in Hx. apply IH in H. congruence.
  - inversion H; subst. rewrite N.eqb_refl. now apply IH.
Qed.

Lemma pystr_eqb_refl (a : pystr) : pystr_eqb a a = true.
Proof. now apply pystr_eqb_eq. Qed.





Lemma paragraph_of_markup `{Reportlab} (s : pystr) (style : ParagraphStyle) :
  parses_as_markup s = true -> paragraph (VStr s) style = Ok (Paragraph (VStr s) style).
Proof. intros E. unfold paragraph. now rewrite E. Qed.


(* ================================================================== *)
(** * The prompt *)
(* ================================================================== *)

(** Text without braces is copied. *)
Lemma format_literal (l t : pystr) (kw : list (pystr * pystr)) :
  forallb (fun c => negb ((c =? 123) || (c =? 125))%N) l = true ->
  format_from (l ++ t) None kw = (rest <- format_from t None kw ;; Ok (l ++ rest)).
Proof.
  induction l as [|c l IH]; intros H.
  - cbn [app]. destruct (format_from t None kw); reflexivity.
  - cbn [forallb] in H. apply andb_prop in H as [Hc H].
    apply negb_true_iff, orb_false_elim in Hc as [H1 H2].
    cbn [app format_from]. rewrite H1, H2, (IH H).
    destruct (format_from t None kw); reflexivity.
Qed.

(** Inside a field, the characters of a plain name are gathered up to the
    closing brace. *)
Lemma format_field_from (nm t acc : pystr) (kw : list (pystr * pystr)) :
  forallb (fun c => negb ((c =? 125)%N || is_field_mark c)) nm = true ->
  format_from (nm ++ 125%N :: t) (Some acc) kw
  = (v <- kw_find kw (rev acc ++ nm) ;; rest <- format_from t None kw ;; Ok (v ++ rest)).
Proof.
  revert acc; induction nm as [|c nm IH]; intros acc H.
  - cbn [app format_from]. rewrite N.eqb_refl, app_nil_r. reflexivity.
  - cbn [forallb] in H. apply andb_prop in H as [Hc H].
    apply negb_true_iff, orb_false_elim in Hc as [H1 H2].
    cbn [app format_from]. rewrite H1, H2.
    etransitivity; [exact (IH (c :: acc) H)|].
    cbn [rev]. now rewrite <- app_assoc.
Qed.

(** A field with a plain name is replaced by the argument of that name. *)
Lemma format_field (nm t : pystr) (kw : list (pystr * pystr)) :
  forallb (fun c => negb ((c =? 125)%N || is_field_mark c)) nm = true ->
  format_from (123%N :: nm ++ 125%N :: t) None kw
  = (v <- kw_find kw nm ;; rest <- format_from t None kw ;; Ok (v ++ rest)).
Proof.
  intros H. cbn [format_from]. rewrite N.eqb_refl.
  destruct nm as [|c nm].
  - cbn [app]. change (125 =? 123)%N with false. cbv iota.
    apply (format_field_from [] t [] kw eq_refl).
  - cbn [app]. pose proof H as H'. cbn [forallb] in H'.
    apply andb_prop in H' as [Hc _].
    apply negb_true_iff, orb_false_elim in Hc as [_ Hm].
    unfold is_field_mark in Hm. apply orb_false_elim in Hm as [Hm _].
    apply orb_false_elim in Hm as [Hm _]. apply orb_false_elim in Hm as [Hm _].
    apply orb_false_elim in Hm as [Hm _]. rewrite Hm.
    apply (format_field_from (c :: nm) t [] kw H).
Qed.

(** What follows the last field of the template. *)
Local Notation "'prompt_tail'" :=
  (10%N :: flat_map (fun l => l ++ [10%N]) (skipn 10 EVALUATION_PROMPT_lines))
  (only parsing).

(** The template, cut at its seven fields. *)
Lemma EVALUATION_PROMPT_fields :
  EVALUATION_PROMPT =
    (flat_map (fun l => l ++ [10%N]) (firstn 3 EVALUATION_PROMPT_lines) ++ lit "Name: ")
    ++ (123%N :: lit "name" ++ 125%N ::
    (10%N :: lit "Department: ")
    ++ (123%N :: lit "department" ++ 125%N ::
    (10%N :: lit "Description: ")
    ++ (123%N :: lit "description" ++ 125%N ::
    (10%N :: lit "AI Techniques: ")
    ++ (123%N :: lit "ai_techniques" ++ 125%N ::
    (10%N :: lit "Target Markets: ")
    ++ (123%N :: lit "markets" ++ 125%N ::
    (10%N :: lit "Data Types: ")
    ++ (123%N :: lit "data_types" ++ 125%N ::
    (10%N :: lit "Deployment Stage: ")
    ++ (123%N :: lit "stage" ++ 125%N :: prompt_tail))))))).
Proof. vm_compute. reflexivity. Qed.

(** The rest of the template has no field, and the four category names
    are in what it formats to. *)
Lemma prompt_tail_formats (kw : list (pystr * pystr)) :
  exists tail,
    format_from prompt_tail None kw = Ok tail /\
    occurs (lit "regulatory") tail = true /\
    occurs (lit "bias") tail = true /\
    occurs (lit "privacy") tail = true /\
    occurs (lit "transparency") tail = true.
Proof.
  eexists. split; [vm_compute; reflexivity|].
  repeat split; vm_compute; reflexivity.
Qed.

(** One literal stretch of the template and the field after it, as often
    as there is one. *)
Ltac format_fields kw :=
  repeat (rewrite format_literal by reflexivity;
          rewrite format_field by reflexivity;
          match goal with
          | |- context [kw_find kw ?k] =>
              let v := eval vm_compute in (match kw_find kw k with Ok v => v | _ => [] end) in
              change (kw_find kw k) with (Ok v : res pystr)
          end;
          cbn [bind]).

(** [EVALUATION_PROMPT.format] never raises on the seven fields. *)
Lemma build_prompt_total (use_case_data : use_case) :
  exists prompt, build_prompt use_case_data = Ok prompt.
Proof.
  unfold build_prompt, format. rewrite EVALUATION_PROMPT_fields.
  set (kw := [ (lit "name", name use_case_data); _; _; _; _; _; _ ]).
  destruct (prompt_tail_formats kw) as (tail & Ht & _).
  format_fields kw.
  rewrite Ht. cbn [bind]. eexists. reflexivity.
Qed.

(** C8.  The prompt is always built, and it holds the text of every field
    of the use case, the markets and the data types joined by a comma and a
    space, and the names of the four risk categories.  It is a function of
    the use case alone. *)
Theorem build_prompt_contains (use_case_data : use_case) :
  exists prompt,
    build_prompt use_case_data = Ok prompt /\
    occurs (name use_case_data) prompt = true /\
    occurs (department use_case_data) prompt = true /\
    occurs (description use_case_data) prompt = true /\
    occurs (ai_techniques use_case_data) prompt = true /\
    occurs (join (lit ", ") (markets use_case_data)) prompt = true /\
    occurs (join (lit ", ") (data_types use_case_data)) prompt = true /\
    occurs (stage use_case_data) prompt = true /\
    occurs (lit "regulatory") prompt = true /\
    occurs (lit "bias") prompt = true /\
    occurs (lit "privacy") prompt = true /\
    occurs (lit "transparency") prompt = true.
Proof.
  unfold build_prompt, format. rewrite EVALUATION_PROMPT_fields.
  set (kw := [ (lit "name", name use_case_data); _; _; _; _; _; _ ]).
  destruct (prompt_tail_formats kw) as (tail & Ht & T1 & T2 & T3 & T4).
  format_fields kw.
  rewrite Ht. cbn [bind].
  eexists. split; [reflexivity|].
  repeat split;
    repeat first [ apply occurs_here | assumption | apply occurs_app_r ].
Qed.

(* ================================================================== *)
(** * The report: actions table and risk sections *)
(* ================================================================== *)

Lemma for_each_map {A B : Type} (body : A -> res B) (g : A -> B) (l : list A) :
  Forall (fun a => body a = Ok (g a)) l -> for_each body l = Ok (map g l).
Proof.
  induction 1 as [|a l Ha _ IH]; [reflexivity|].
  cbn [for_each map]. now rewrite Ha, IH.
Qed.

Lemma for_each_length {A B : Type} (body : A -> res B) (l : list A) (out : list B) :
  for_each body l = Ok out -> Forall2 (fun a b => body a = Ok b) l out.
Proof.
  revert out; induction l as [|a l IH]; intros out H; cbn [for_each] in H.
  - injection H as <-. constructor.
  - destruct (body a) as [b|] eqn:E; [|discriminate H]. cbn [bind] in H.
    destruct (for_each body l) as [bs|]; [|discriminate H]. cbn [bind] in H.
    injection H as <-. constructor; auto.
Qed.

(** The row the code builds for an Action is its capped row. *)
Lemma action_row_capped `{PyRuntime} (action : value) :
  is_action action = true -> action_row action = Ok (capped_row action).
Proof.
  destruct action as [| | | | | |d]; try discriminate. cbn [is_action].
  intros Ha. apply andb_prop in Ha as [Ha Hr].
  unfold action_row, capped_row, field_or, field_text, text_if_present, get in *.
  destruct (dict_find d (lit "priority")) as [p|]; cbn [bind];
    (destruct (dict_find d (lit "action")) as [[]|]; try discriminate Ha; cbn [bind slice_to];
     destruct (dict_find d (lit "regulation")) as [[]|]; try discriminate Hr;
     cbn [bind slice_to];
     destruct (dict_find d (lit "owner")); reflexivity).
Qed.

Lemma forallb_firstn {A : Type} (f : A -> bool) (n : nat) (l : list A) :
  forallb f l = true -> forallb f (firstn n l) = true.
Proof.
  revert n; induction l as [|a l IH]; intros [|n] H; try reflexivity.
  cbn [forallb firstn] in *. apply andb_prop in H as [-> H]. now apply IH.
Qed.



Lemma get_field_or (d : dict) (key : pystr) (default : value) :
  get (VDict d) key default = Ok (field_or (VDict d) key default).
Proof. unfold get, field_or. now destruct (dict_find d key). Qed.

(** The section the code builds for a renderable entry. *)
Lemma risk_section_renderable `{PyRuntime} `{Reportlab} (entry : pystr * value) :
  renderable_risk entry = true ->
  exists color,
    level_color (field_or (snd entry) (lit "level") (VStr (lit "UNKNOWN"))) = Ok color /\
    risk_section entry
    = Ok (section_of entry (field_or (snd entry) (lit "level") (VStr (lit "UNKNOWN"))) color).
Proof.
  destruct entry as [risk_name risk_data]. unfold renderable_risk. cbn [fst snd].
  destruct risk_data as [| | | | | |rd]; try discriminate.
  destruct (level_color (field_or (VDict rd) (lit "level") (VStr (lit "UNKNOWN"))))
    as [color|] eqn:C; [|discriminate].
  destruct (field_or (VDict rd) (lit "summary") (VStr [])) as [| | | |summary| |] eqn:S;
    try discriminate.
  intros Hp. apply andb_prop in Hp. destruct Hp as [Hl Hs].
  exists color. split; [reflexivity|].
  unfold risk_section, section_of. cbn [fst snd].
  rewrite get_field_or. cbn [bind]. rewrite C. cbn [bind].
  rewrite (paragraph_of_markup _ body_style Hl). cbn [bind].
  rewrite get_field_or, S. cbn [bind].
  rewrite (paragraph_of_markup _ body_style Hs). reflexivity.
Qed.

(** C2, as the code has it.  The decoded result is the decoded JSON and
    nothing more.  The risk breakdown has one section for each entry that is
    present, in the order of the mapping and under the title of its own
    key, whichever entries are missing: it is produced for entries that can
    be rendered, and whenever it is produced its sections are those of the
    entries, one each.  An entry without a level is labelled UNKNOWN in the
    neutral gray. *)
Theorem risk_sections_follow_entries `{PyRuntime} `{Reportlab} :
  (forall content result,
     parse_response content = Ok result ->
     exists text, clean_response content = Ok text /\ json_loads text = Ok result) /\
  (forall evaluation_result risks,
     get evaluation_result (lit "risks") (VDict []) = Ok (VDict risks) ->
     forallb renderable_risk risks = true ->
     exists sections,
       risk_breakdown evaluation_result
       = Ok (Paragraph (VStr ([9888%N; 65039%N] ++ lit " Risk Assessment")) heading_style
             :: concat sections) /\
       Forall2 (fun entry section =>
                  exists color,
                    level_color (field_or (snd entry) (lit "level") (VStr (lit "UNKNOWN")))
                      = Ok color /\
                    section
                    = section_of entry
                        (field_or (snd entry) (lit "level") (VStr (lit "UNKNOWN"))) color)
         risks sections) /\
  (forall evaluation_result story,
     risk_breakdown evaluation_result = Ok story ->
     exists risks sections,
       get evaluation_result (lit "risks") (VDict []) = Ok (VDict risks) /\
       story
       = Paragraph (VStr ([9888%N; 65039%N] ++ lit " Risk Assessment")) heading_style
         :: concat sections /\
       Forall2 (fun entry section => risk_section entry = Ok section) risks sections) /\
  (forall risk_name rd,
     renderable_risk (risk_name, VDict rd) = true ->
     dict_find rd (lit "level") = None ->
     risk_section (risk_name, VDict rd)
     = Ok (section_of (risk_name, VDict rd) (VStr (lit "UNKNOWN")) (lit "#64748B"))).
Proof.
  split; [|split; [|split]].
  - intros content result Hp. unfold parse_response in Hp.
    destruct (clean_response content) as [text|]; [|discriminate Hp].
    now exists text.
  - intros ev risks Hg Hr. unfold risk_breakdown. rewrite Hg. cbn [bind items].
    assert (exists sections,
              for_each risk_section risks = Ok sections /\
              Forall2 (fun entry section =>
                         exists color,
                           level_color (field_or (snd entry) (lit "level")
                                          (VStr (lit "UNKNOWN"))) = Ok color /\
                           section
                           = section_of entry
                               (field_or (snd entry) (lit "level") (VStr (lit "UNKNOWN")))
                               color)
                risks sections) as (sections & -> & F).
    { clear Hg. induction risks as [|entry risks IH].
      - exists []. split; [reflexivity|constructor].
      - cbn [forallb] in Hr. apply andb_prop in Hr as [He Hr].
        destruct (IH Hr) as (sections & Hs & F).
        destruct (risk_section_renderable entry He) as (color & Hc & Hsec).
        eexists (_ :: sections). cbn [for_each]. rewrite Hsec, Hs. cbn [bind].
        split; [reflexivity|]. constructor; [|exact F]. now exists color. }
    exists sections. split; [reflexivity|exact F].
  - intros ev story Hs. unfold risk_breakdown in Hs.
    destruct (get ev (lit "risks") (VDict [])) as [risks|] eqn:G; [|discriminate Hs].
    cbn [bind] in Hs.
    destruct risks as [| | | | | |risks]; try discriminate Hs. cbn [items bind] in Hs.
    destruct (for_each risk_section risks) as [sections|] eqn:F; [|discriminate Hs].
    cbn [bind] in Hs. injection Hs as <-.
    exists risks, sections. repeat split. now apply for_each_length.
  - intros risk_name rd Hr Hl.
    destruct (risk_section_renderable _ Hr) as (color & C & ->).
    cbn [snd] in *. unfold field_or in C at 1. rewrite Hl in C.
    cbn [level_color str_find] in C.
    assert (E : field_or (VDict rd) (lit "level") (VStr (lit "UNKNOWN"))
                = VStr (lit "UNKNOWN")) by (unfold field_or; now rewrite Hl).
    rewrite E in *. vm_compute in C. injection C as <-. reflexivity.
Qed.

(** C2, as the specification has it, fails: the report of scenario D has
    its Privacy Risk section and no paragraph that says Transparency
    Risk. *)
Lemma no_transparency_section :
  exists result risks story,
    parse_response (H := ascii_runtime) no_transparency_response = Ok result /\
    getitem result (lit "risks") = Ok (VDict risks) /\
    dict_find risks (lit "transparency") = None /\
    generate_pdf_report (H := ascii_runtime) (H0 := plain_reportlab)
      (lit "November 04, 2026 at 09:00 AM") resume_screener result = Ok story /\
    existsb (mentions (lit "Privacy Risk")) story = true /\
    existsb (mentions (lit "Transparency Risk")) story = false.
Proof.
  do 3 eexists.
  split; [vm_compute; reflexivity|].
  split; [vm_compute; reflexivity|].
  split; [vm_compute; reflexivity|].
  split; [vm_compute; reflexivity|].
  split; vm_compute; reflexivity.
Qed.

(* ================================================================== *)
(** * Decoding the answer: what is returned and what is rejected *)
(* ================================================================== *)

(** C1, as the code has it.  The decoded value is returned as it is and
    nothing is reported, whatever its level and score fields hold: the
    answer is checked for being JSON and for nothing else. *)
Theorem evaluate_use_case_returns_decoded `{PyRuntime}
    (completion : pystr -> pystr -> res value) (use_case_data : use_case)
    (api_key content : pystr) (result : value) :
  (forall prompt, completion api_key prompt = Ok (VStr content)) ->
  parse_response content = Ok result ->
  evaluate_use_case completion use_case_data api_key = (result, []).
Proof.
  intros Hc Hp. unfold evaluate_use_case.
  destruct (build_prompt_total use_case_data) as (prompt & ->).
  cbn [bind]. rewrite Hc. cbn [bind]. now rewrite Hp.
Qed.

(** An answer with the level EXTREME and the score 150 is returned. *)
Lemma evaluate_use_case_returns_decoded_witness :
  exists result,
    parse_response (H := ascii_runtime) out_of_schema_response = Ok result /\
    schema_violation result = true /\
    evaluate_use_case (H := ascii_runtime)
      (fun _ _ => Ok (VStr out_of_schema_response)) resume_screener
      (lit "gsk_key") = (result, []).
Proof.
  eexists. split; [vm_compute; reflexivity|]. split; [reflexivity|].
  apply (@evaluate_use_case_returns_decoded ascii_runtime
           (fun _ _ => Ok (VStr out_of_schema_response)) resume_screener
           (lit "gsk_key") out_of_schema_response).
  - intros prompt. reflexivity.
  - vm_compute. reflexivity.
Defined.

(** C1, as the specification has it, fails: an answer that violates the
    schema is decoded and returned. *)
Lemma schema_violation_returned :
  exists result,
    parse_response (H := ascii_runtime) out_of_schema_response = Ok result /\
    schema_violation result = true /\
    evaluate_use_case (H := ascii_runtime)
      (fun _ _ => Ok (VStr out_of_schema_response)) resume_screener
      (lit "gsk_key") = (result, []).
Proof.
  eexists. split; [vm_compute; reflexivity|].
  split; vm_compute; reflexivity.
Qed.

(** No download button is among the calls of the Evaluate button. *)
Lemma on_evaluate_no_download `{PyRuntime} (completion : pystr -> pystr -> res value)
    (w : widgets) (s : session_state) :
  filter (fun c => match c with st_download_button _ _ _ _ => true | _ => false end)
    (snd (on_evaluate completion w s)) = [] /\
  (forall e, In e (snd (on_evaluate completion w s)) ->
     match e with st_download_button _ _ _ _ => False | _ => True end).
Proof.
  assert (forall l, (forall e, In e l ->
             match e with st_download_button _ _ _ _ => False | _ => True end) ->
            filter (fun c => match c with st_download_button _ _ _ _ => true | _ => false end)
              l = []) as F.
  { induction l as [|e l IH]; intros Hl; [reflexivity|]. cbn [filter].
    pose proof (Hl e (or_introl eq_refl)) as He.
    destruct e; try contradiction; apply IH; intros e' He'; apply Hl; now right. }
  assert (forall e, In e (snd (on_evaluate completion w s)) ->
             match e with st_download_button _ _ _ _ => False | _ => True end) as K.
  { unfold on_evaluate.
    repeat match goal with
           | |- context [if ?b then _ else _] =>
               destruct b; [cbn [snd]; intros e [<-|[]]; exact I|]
           end.
    match goal with
    | |- context [evaluate_use_case ?c ?u ?k] =>
        assert (forall e, In e (snd (evaluate_use_case c u k)) ->
                  match e with st_download_button _ _ _ _ => False | _ => True end) as E;
        [|destruct (evaluate_use_case c u k) as [result told]]
    end.
    { unfold evaluate_use_case.
      match goal with |- context [match ?b with Ok _ => _ | Raise _ => _ end] =>
        destruct b as [r|[]] end; cbn [snd]; intros e He;
        try contradiction; destruct He as [<-|[]]; exact I. }
    cbn [snd] in E. destruct (truthy result); cbn [snd]; [|exact E].
    intros e He. apply in_app_or in He as [He|He]; [now apply E|].
    destruct He as [<-|[<-|[]]]; exact I. }
  split; [now apply F|exact K].
Qed.

(** C5, as the code has it.  When [json.loads] raises on the cleaned
    answer, [evaluate_use_case] returns [None] after reporting one error,
    never a partial record: the parse failure for a [JSONDecodeError], the
    API error for the [RecursionError] of a text nested too deep and the
    [ValueError] of an integer of too many digits.  The session keeps what
    it held, so the download buttons of the run are those of the evaluation
    stored before, and a fresh session gets no report and no export. *)
Theorem malformed_answer_rejected `{PyRuntime} `{Reportlab}
    (completion : pystr -> pystr -> res value) (now : clock) (w : widgets)
    (s : session_state) (content text : pystr) (e : exn) :
  (forall api_key prompt, completion api_key prompt = Ok (VStr content)) ->
  clean_response content = Ok text ->
  json_loads text = Raise e ->
  parse_response content = Raise e /\
  (forall use_case_data api_key,
     evaluate_use_case completion use_case_data api_key
     = (VNone,
        [match e with
         | JSONDecodeError =>
             st_error (lit "Failed to parse AI response. Please try again.")
         | _ => st_error_exception (lit "Error calling Groq API: ") e
         end])) /\
  fst (on_evaluate completion w s) = s /\
  state (main completion now w initial_state) = initial_state /\
  downloads (main completion now w initial_state) = [] /\
  (clear_btn w = false ->
   downloads (main completion now w s) = downloads (results_tab now w s)).
Proof.
  intros Hc Ht Hj.
  assert (parse_response content = Raise e) as Hp.
  { unfold parse_response. rewrite Ht. cbn [bind]. exact Hj. }
  assert (forall use_case_data api_key,
            evaluate_use_case completion use_case_data api_key
            = (VNone,
               [match e with
                | JSONDecodeError =>
                    st_error (lit "Failed to parse AI response. Please try again.")
                | _ => st_error_exception (lit "Error calling Groq API: ") e
                end])) as He.
  { intros u k. unfold evaluate_use_case.
    destruct (build_prompt_total u) as (prompt & ->).
    cbn [bind]. rewrite Hc. cbn [bind]. rewrite Hp. now destruct e. }
  assert (forall s', fst (on_evaluate completion w s') = s') as Ho.
  { intros s'. unfold on_evaluate.
    repeat match goal with
           | |- context [if ?b then _ else _] => destruct b; [reflexivity|]
           end.
    rewrite He. reflexivity. }
  assert (forall s', clear_btn w = false ->
            downloads (main completion now w s') = downloads (results_tab now w s')
            /\ state (main completion now w s') = state (results_tab now w s')) as Hm.
  { intros s' Hclear. unfold main. rewrite Hclear.
    destruct (evaluate_btn w).
    - pose proof (Ho s') as Hs. destruct (on_evaluate_no_download completion w s') as [Hd _].
      destruct (on_evaluate completion w s') as [s1 told]. cbn [fst snd] in *. subst s1.
      unfold downloads. cbn [calls state]. rewrite filter_app, Hd. split; reflexivity.
    - unfold downloads. cbn [calls state app]. split; reflexivity. }
  repeat split; auto.
  - case_eq (clear_btn w); intros Hclear; [unfold main; now rewrite Hclear|].
    now rewrite (proj2 (Hm initial_state Hclear)).
  - case_eq (clear_btn w); intros Hclear; [unfold main; now rewrite Hclear|].
    now rewrite (proj1 (Hm initial_state Hclear)).
  - intros Hclear. apply Hm, Hclear.
Qed.

(** Scenario C: the answer [not json at all]. *)
Lemma malformed_answer_rejected_witness :
  parse_response (H := ascii_runtime) not_json_response = Raise JSONDecodeError /\
  evaluate_use_case (H := ascii_runtime) (fun _ _ => Ok (VStr not_json_response))
    resume_screener (lit "gsk_key")
  = (VNone, [st_error (lit "Failed to parse AI response. Please try again.")]) /\
  downloads
    (main (H := ascii_runtime) (H0 := plain_reportlab)
       (fun _ _ => Ok (VStr not_json_response))
       {| generated := lit "November 04, 2026 at 09:00 AM";
          pdf_yyyymmdd := lit "20261104";
          isoformat := lit "2026-11-04T09:00:00";
          json_yyyymmdd := lit "20261104" |}
       resume_form initial_state) = [].
Proof.
  destruct (@malformed_answer_rejected ascii_runtime plain_reportlab
              (fun _ _ => Ok (VStr not_json_response))
              {| generated := lit "November 04, 2026 at 09:00 AM";
                 pdf_yyyymmdd := lit "20261104";
                 isoformat := lit "2026-11-04T09:00:00";
                 json_yyyymmdd := lit "20261104" |}
              resume_form initial_state
              not_json_response not_json_response JSONDecodeError
              (fun _ _ => eq_refl) eq_refl eq_refl)
    as (M1 & M2 & _ & _ & M3 & _).
  split; [exact M1|]. split; [exact (M2 resume_screener (lit "gsk_key"))|exact M3].
Defined.

(** C5, as the specification has it, fails: the answer [NaN] is no JSON,
    begins no JSON value, and yet [json.loads] takes it; it is returned
    without any error and stored with the use case of the form. *)
Lemma not_json_accepted :
  exists result,
    begins_no_json nan_response = true /\
    clean_response nan_response = Ok nan_response /\
    parse_response (H := ascii_runtime) nan_response = Ok result /\
    evaluate_use_case (H := ascii_runtime) (fun _ _ => Ok (VStr nan_response))
      resume_screener (lit "gsk_key") = (result, []) /\
    on_evaluate (H := ascii_runtime) (fun _ _ => Ok (VStr nan_response))
      resume_form initial_state
    = ({| evaluation_result := result;
          use_case_data := Some (use_case_of_form resume_form) |},
       [ st_success ([9989%N]
                     ++ lit " Evaluation complete! View results in the Results tab.");
         st_balloons ]).
Proof.
  eexists. split; [reflexivity|]. split; [reflexivity|].
  split; [vm_compute; reflexivity|].
  split; vm_compute; reflexivity.
Qed.


(* ================================================================== *)
(** * A fence inside the payload *)
(* ================================================================== *)

(** C3 at a payload that holds a fence in one of its strings: alone it is
    decoded, fenced it is cut at the inner fence and rejected. *)
Theorem fenced_payload_with_fence_rejected :
  (exists result, parse_response (H := ascii_runtime) payload_with_fence = Ok result) /\
  parse_response (H := ascii_runtime)
    (fence ++ lit "json" ++ newline ++ payload_with_fence ++ newline ++ fence)
  = Raise JSONDecodeError /\
  clean_response (fence ++ lit "json" ++ newline ++ payload_with_fence ++ newline ++ fence)
  = Ok (lit "{" ++ q "executive_summary" ++ lit ": " ++ dq ++ lit "Fence code with").
Proof.
  split; [eexists; vm_compute; reflexivity|].
  split; vm_compute; reflexivity.
Qed.

(* ================================================================== *)
(** * The export: what json.dumps writes, json.loads reads back *)
(* ================================================================== *)

(** ** Escapes *)

Lemma hex_val_digit (n : N) : (n < 16)%N -> hex_val (hex_digit n) = Some n.
Proof.
  intros H. unfold hex_val, hex_digit, is_digit.
  destruct (N.ltb_spec n 10).
  - replace ((48 <=? 48 + n) && (48 + n <=? 57))%N with true.
    + f_equal. lia.
    + symmetry. apply andb_true_intro. split; apply N.leb_le; lia.
  - replace ((48 <=? 87 + n) && (87 + n <=? 57))%N with false.
    + replace ((97 <=? 87 + n) && (87 + n <=? 102))%N with true.
      * f_equal. lia.
      * symmetry. apply andb_true_intro. split; apply N.leb_le; lia.
    + symmetry. apply andb_false_intro2. apply N.leb_gt. lia.
Qed.

Lemma hex4_u_escape (n : N) :
  (n < 65536)%N ->
  hex4 (hex_digit (n / 4096)) (hex_digit ((n / 256) mod 16))
       (hex_digit ((n / 16) mod 16)) (hex_digit (n mod 16)) = Some n.
Proof.
  intros H. unfold hex4.
  assert (n / 4096 < 16)%N by (apply N.Div0.div_lt_upper_bound; lia).
  assert ((n / 256) mod 16 < 16)%N by (apply N.mod_lt; lia).
  assert ((n / 16) mod 16 < 16)%N by (apply N.mod_lt; lia).
  assert (n mod 16 < 16)%N by (apply N.mod_lt; lia).
  rewrite !hex_val_digit by assumption. f_equal.
  pose proof (N.div_mod n 16 ltac:(lia)).
  pose proof (N.div_mod (n / 16) 16 ltac:(lia)).
  pose proof (N.div_mod (n / 256) 16 ltac:(lia)).
  assert (n / 16 / 16 = n / 256)%N by (rewrite N.Div0.div_div; reflexivity).
  assert (n / 256 / 16 = n / 4096)%N by (rewrite N.Div0.div_div; reflexivity).
  assert ((n / 4096) mod 16 = n / 4096)%N by (apply N.mod_small; assumption).
  lia.
Qed.

Lemma lor_low (a y : N) : (y < 1024)%N -> N.lor (a * 1024) y = (a * 1024 + y)%N.
Proof.
  intros H.
  assert (L : N.land (a * 1024) y = 0%N).
  { apply N.bits_inj_0. intros i. rewrite N.land_spec.
    destruct (N.ltb_spec i 10) as [Hi|Hi].
    - change 1024%N with (2 ^ 10)%N. now rewrite N.mul_pow2_bits_low.
    - destruct (N.eq_dec y 0) as [->|Hy]; [now rewrite N.bits_0, andb_false_r|].
      rewrite (N.bits_above_log2 y i), andb_false_r; [reflexivity|].
      apply N.lt_le_trans with 10%N; [|exact Hi].
      apply N.log2_lt_pow2; [lia|exact H]. }
  rewrite <- N.lxor_lor by exact L. symmetry. now apply N.add_nocarry_lxor.
Qed.

Lemma land_low (a : N) : N.land a 1023 = (a mod 1024)%N.
Proof. exact (N.land_ones a 10). Qed.

(** The two halves [json.dumps] writes for a character outside the basic
    plane. *)
Lemma high_half (n : N) :
  (n < 1048576)%N ->
  N.lor 55296 (N.land (N.shiftr n 10) 1023) = (55296 + n / 1024)%N.
Proof.
  intros H. rewrite land_low, N.shiftr_div_pow2. change (2 ^ 10)%N with 1024%N.
  assert (n / 1024 < 1024)%N by (apply N.Div0.div_lt_upper_bound; lia).
  rewrite N.mod_small by assumption.
  exact (lor_low 54 H0).
Qed.

Lemma low_half (n : N) :
  N.lor 56320 (N.land n 1023) = (56320 + n mod 1024)%N.
Proof.
  rewrite land_low.
  assert (n mod 1024 < 1024)%N by (apply N.mod_lt; lia).
  exact (lor_low 55 H).
Qed.

Lemma join_halves (n : N) :
  (n < 1048576)%N ->
  join_surrogates (55296 + n / 1024)%N (56320 + n mod 1024)%N = (65536 + n)%N.
Proof.
  intros H. unfold join_surrogates. rewrite !land_low, N.shiftl_mul_pow2.
  change (2 ^ 10)%N with 1024%N.
  assert (A : (n / 1024 < 1024)%N) by (apply N.Div0.div_lt_upper_bound; lia).
  assert (B : (n mod 1024 < 1024)%N) by (apply N.mod_lt; lia).
  replace ((55296 + n / 1024) mod 1024)%N with (n / 1024)%N.
  - replace ((56320 + n mod 1024) mod 1024)%N with (n mod 1024)%N.
    + rewrite lor_low by exact B. pose proof (N.div_mod n 1024 ltac:(lia)). lia.
    + symmetry. replace (56320 + n mod 1024)%N with (n mod 1024 + 55 * 1024)%N by lia.
      rewrite N.Div0.mod_add. now apply N.mod_small.
  - symmetry. replace (55296 + n / 1024)%N with (n / 1024 + 54 * 1024)%N by lia.
    rewrite N.Div0.mod_add. now apply N.mod_small.
Qed.

(** ** Strings *)

Lemma scanstring_u (h1 h2 h3 h4 : cp) (r2 acc : pystr) (u : N) :
  hex4 h1 h2 h3 h4 = Some u -> is_high_surrogate u = false ->
  scanstring (92 :: 117 :: h1 :: h2 :: h3 :: h4 :: r2)%N acc = scanstring r2 (u :: acc).
Proof.
  intros Hh Hs. cbn [scanstring].
  change (92 =? 34)%N with false. change (92 =? 92)%N with true.
  change (117 =? 117)%N with true. cbv iota.
  rewrite Hh, Hs. reflexivity.
Qed.

Lemma scanstring_pair (h1 h2 h3 h4 g1 g2 g3 g4 : cp) (r3 acc : pystr) (hi lo : N) :
  hex4 h1 h2 h3 h4 = Some hi -> is_high_surrogate hi = true ->
  hex4 g1 g2 g3 g4 = Some lo -> is_low_surrogate lo = true ->
  scanstring (92 :: 117 :: h1 :: h2 :: h3 :: h4 :: 92 :: 117 :: g1 :: g2 :: g3 :: g4 :: r3)%N acc
  = scanstring r3 (join_surrogates hi lo :: acc).
Proof.
  intros Hh Hs Hg Hl. cbn [scanstring].
  change (92 =? 34)%N with false. change (92 =? 92)%N with true.
  change (117 =? 117)%N with true. cbv iota.
  rewrite Hh, Hs. cbn [andb]. cbv iota. rewrite Hg, Hl. reflexivity.
Qed.

Lemma scanstring_escaped (e c' : cp) (r acc : pystr) :
  (e =? 117)%N = false -> unescape e = Some c' ->
  scanstring (92%N :: e :: r) acc = scanstring r (c' :: acc).
Proof.
  intros He Hu. cbn [scanstring].
  change (92 =? 34)%N with false. change (92 =? 92)%N with true. cbv iota.
  rewrite He, Hu. reflexivity.
Qed.

Lemma scanstring_plain (c : cp) (r acc : pystr) :
  (c =? 34)%N = false -> (c =? 92)%N = false -> (c <=? 31)%N = false ->
  scanstring (c :: r) acc = scanstring r (c :: acc).
Proof. intros H1 H2 H3. cbn [scanstring]. rewrite H1, H2, H3. reflexivity. Qed.

(** What [scanstring] reads for one escaped character is the character. *)
Lemma scanstring_escape_char (c : cp) (rest acc : pystr) :
  is_scalar c = true ->
  scanstring (escape_char c ++ rest) acc = scanstring rest (c :: acc).
Proof.
  intros Hc. unfold escape_char.
  destruct (c =? 92)%N eqn:E92.
  { apply N.eqb_eq in E92. subst c. now apply scanstring_escaped. }
  destruct (c =? 34)%N eqn:E34.
  { apply N.eqb_eq in E34. subst c. now apply scanstring_escaped. }
  destruct (c =? 8)%N eqn:E8.
  { apply N.eqb_eq in E8. subst c. now apply scanstring_escaped. }
  destruct (c =? 12)%N eqn:E12.
  { apply N.eqb_eq in E12. subst c. now apply scanstring_escaped. }
  destruct (c =? 10)%N eqn:E10.
  { apply N.eqb_eq in E10. subst c. now apply scanstring_escaped. }
  destruct (c =? 13)%N eqn:E13.
  { apply N.eqb_eq in E13. subst c. now apply scanstring_escaped. }
  destruct (c =? 9)%N eqn:E9.
  { apply N.eqb_eq in E9. subst c. now apply scanstring_escaped. }
  destruct ((32 <=? c) && (c <=? 126))%N eqn:Eprint.
  { apply andb_prop in Eprint. destruct Eprint as [L _]. apply N.leb_le in L.
    apply scanstring_plain; [exact E34|exact E92|]. apply N.leb_gt. lia. }
  unfold is_scalar in Hc.
  destruct (c <? 65536)%N eqn:Ebmp.
  - apply N.ltb_lt in Ebmp. unfold u_escape. cbn [app].
    apply scanstring_u; [now apply hex4_u_escape|].
    unfold is_high_surrogate.
    apply orb_prop in Hc. destruct Hc as [Hc|Hc].
    + apply N.ltb_lt in Hc. apply andb_false_intro1. apply N.leb_gt. exact Hc.
    + apply andb_prop in Hc. destruct Hc as [Hc _]. apply N.leb_le in Hc.
      apply andb_false_intro2. apply N.leb_gt. lia.
  - apply N.ltb_ge in Ebmp.
    assert (Hn : (c - 65536 < 1048576)%N).
    { apply orb_prop in Hc. destruct Hc as [Hc|Hc].
      - apply N.ltb_lt in Hc. lia.
      - apply andb_prop in Hc. destruct Hc as [_ Hc]. apply N.ltb_lt in Hc. lia. }
    cbv zeta. rewrite (high_half Hn), low_half.
    assert (A : ((c - 65536) / 1024 < 1024)%N)
      by (apply N.Div0.div_lt_upper_bound; lia).
    assert (B : ((c - 65536) mod 1024 < 1024)%N) by (apply N.mod_lt; lia).
    pose proof (N.le_0_l ((c - 65536) / 1024)) as A0.
    pose proof (N.le_0_l ((c - 65536) mod 1024)) as B0.
    unfold u_escape. cbn [app].
    rewrite (@scanstring_pair _ _ _ _ _ _ _ _ rest acc
               (55296 + (c - 65536) / 1024)%N (56320 + (c - 65536) mod 1024)%N).
    + rewrite (join_halves Hn). f_equal. f_equal. lia.
    + apply hex4_u_escape. lia.
    + unfold is_high_surrogate. apply andb_true_intro. split; apply N.leb_le; lia.
    + apply hex4_u_escape. lia.
    + unfold is_low_surrogate. apply andb_true_intro. split; apply N.leb_le; lia.
Qed.

Lemma scanstring_escaped_text (s rest acc : pystr) :
  is_text s = true ->
  scanstring (flat_map escape_char s ++ 34%N :: rest) acc = Some (rev acc ++ s, rest).
Proof.
  revert acc. induction s as [|c s IH]; intros acc Hs.
  - cbn [flat_map app scanstring]. change (34 =? 34)%N with true. cbv iota.
    now rewrite app_nil_r.
  - unfold is_text in Hs. cbn [forallb] in Hs. apply andb_prop in Hs.
    destruct Hs as [Hc Hs].
    cbn [flat_map]. rewrite <- app_assoc, (@scanstring_escape_char c _ _ Hc).
    rewrite (IH (c :: acc) Hs). cbn [rev]. now rewrite <- app_assoc.
Qed.

(** [json.loads] reads an encoded string back. *)
Lemma scan_string `{PyRuntime} (s rest : pystr) (f d : nat) :
  is_text s = true ->
  scan_once (S f) d (encode_basestring_ascii s ++ rest) = Found (VStr s) rest.
Proof.
  intros Hs. unfold encode_basestring_ascii, dq.
  cbn [app scan_once]. change (34 =? 34)%N with true. cbv iota.
  rewrite <- app_assoc. cbn [app].
  match goal with
  | |- context [scanstring ?a ?b] =>
      replace (scanstring a b) with (Some (s, rest))
        by (symmetry; exact (@scanstring_escaped_text s rest [] Hs))
  end.
  reflexivity.
Qed.

(** ** Integers *)

Lemma size_nat_bound (n : N) : (n < 2 ^ N.of_nat (N.size_nat n))%N.
Proof.
  destruct n as [|p]; [reflexivity|]. cbn [N.size_nat].
  induction p as [p IH|p IH|].
  - cbn [Pos.size_nat]. rewrite Nat2N.inj_succ, N.pow_succ_r'.
    change (N.pos p~1) with (2 * N.pos p + 1)%N. lia.
  - cbn [Pos.size_nat]. rewrite Nat2N.inj_succ, N.pow_succ_r'.
    change (N.pos p~0) with (2 * N.pos p)%N. lia.
  - reflexivity.
Qed.

Lemma digits_value_snoc (ds : pystr) (d : cp) :
  digits_value (ds ++ [d]) = (digits_value ds * 10 + (d - 48))%N.
Proof. unfold digits_value. now rewrite fold_left_app. Qed.

Lemma dec_digits_S (f : nat) (n : N) (acc : pystr) :
  dec_digits (S f) n acc =
  if (n <? 10)%N then (48 + n mod 10)%N :: acc
  else dec_digits f (n / 10)%N ((48 + n mod 10)%N :: acc).
Proof. reflexivity. Qed.

(** The digits [str] writes: all decimal, no leading zero, and of the
    right value. *)
Lemma dec_digits_spec (f : nat) (n : N) :
  (n < 2 ^ N.of_nat f)%N ->
  exists d ds,
    (forall acc, dec_digits (S f) n acc = d :: ds ++ acc) /\
    forallb is_digit ds = true /\
    digits_value (d :: ds) = n /\
    (48 <= d <= 57)%N /\ (n <> 0%N -> 49 <= d)%N.
Proof.
  revert n. induction f as [|f IH]; intros n Hn.
  - assert (n = 0%N) by (change (2 ^ N.of_nat 0)%N with 1%N in Hn; lia). subst n.
    exists 48%N, []. repeat split; try reflexivity; try lia.
  - pose proof (N.mod_lt n 10 ltac:(lia)) as Hm.
    pose proof (N.le_0_l (n mod 10)) as Hm0.
    destruct (N.ltb_spec n 10) as [Hs|Hs].
    + exists (48 + n mod 10)%N, []. rewrite (N.mod_small n 10 Hs).
      repeat split; try lia.
      * intros acc. rewrite dec_digits_S, (N.mod_small n 10 Hs).
        apply N.ltb_lt in Hs. now rewrite Hs.
      * unfold digits_value. cbn [fold_left]. lia.
    + assert (Hq : (n / 10 < 2 ^ N.of_nat f)%N).
      { rewrite Nat2N.inj_succ, N.pow_succ_r' in Hn.
        apply N.Div0.div_lt_upper_bound. lia. }
      destruct (IH _ Hq) as (d & ds & Hacc & Hds & Hv & Hd & Hd1).
      exists d, (ds ++ [(48 + n mod 10)%N]).
      assert (Hq0 : (n / 10)%N <> 0%N).
      { intros E. apply N.div_small_iff in E; lia. }
      repeat split; try lia.
      * intros acc. rewrite dec_digits_S. apply N.ltb_ge in Hs. rewrite Hs.
        rewrite Hacc, <- app_assoc. reflexivity.
      * rewrite forallb_app, Hds. cbn [forallb andb]. unfold is_digit.
        rewrite andb_true_r. apply andb_true_intro.
        split; apply N.leb_le; lia.
      * change (d :: ds ++ [(48 + n mod 10)%N]) with ((d :: ds) ++ [(48 + n mod 10)%N]).
        rewrite digits_value_snoc, Hv.
        pose proof (N.div_mod n 10 ltac:(lia)). lia.
Qed.

Lemma str_N_spec (n : N) :
  exists d ds,
    str_N n = d :: ds /\ forallb is_digit ds = true /\
    digits_value (d :: ds) = n /\
    (48 <= d <= 57)%N /\ (n <> 0%N -> 49 <= d)%N.
Proof.
  destruct (@dec_digits_spec _ _ (size_nat_bound n)) as (d & ds & Hacc & H).
  exists d, ds. split; [|exact H]. unfold str_N. rewrite Hacc. f_equal. apply app_nil_r.
Qed.

Lemma closes_not_digit (c : cp) (r : pystr) :
  closes (c :: r) = true -> c = 44%N \/ c = 10%N.
Proof.
  cbn [closes]. intros H. apply orb_prop in H.
  destruct H as [H|H]; apply N.eqb_eq in H; auto.
Qed.

Lemma span_digits_exact (ds rest : pystr) :
  forallb is_digit ds = true -> closes rest = true ->
  span_digits (ds ++ rest) = (ds, rest).
Proof.
  intros Hds Hr. induction ds as [|d ds IH].
  - destruct rest as [|c r]; [reflexivity|].
    cbn [app span_digits].
    destruct (closes_not_digit _ _ Hr) as [->| ->]; reflexivity.
  - cbn [forallb] in Hds. apply andb_prop in Hds. destruct Hds as [Hd Hds].
    cbn [app span_digits]. rewrite Hd, (IH Hds). reflexivity.
Qed.

Lemma match_number_digits (neg : bool) (d : cp) (ds rest : pystr) :
  (48 <= d <= 57)%N -> (d = 48%N -> ds = []) ->
  forallb is_digit ds = true -> closes rest = true ->
  match_number ((if neg then [45%N] else []) ++ d :: ds ++ rest) =
  Some (VInt (if neg then (- Z.of_N (digits_value (d :: ds)))%Z
              else Z.of_N (digits_value (d :: ds))), rest).
Proof.
  intros Hd H0 Hds Hr.
  assert (Hint : (if ((49 <=? d) && (d <=? 57))%N
                  then Some (let (d', t) := span_digits (ds ++ rest) in (d :: d', t))
                  else if (d =? 48)%N then Some ([d], ds ++ rest) else None)
                 = Some (d :: ds, rest)).
  { destruct (N.eq_dec d 48) as [E|E].
    - rewrite (H0 E). subst d. reflexivity.
    - replace ((49 <=? d) && (d <=? 57))%N with true.
      + now rewrite (@span_digits_exact ds rest Hds Hr).
      + symmetry. apply andb_true_intro. split; apply N.leb_le; lia. }
  unfold match_number.
  destruct neg; cbn [app].
  - change (45 =? 45)%N with true. cbv iota. rewrite Hint.
    destruct rest as [|c r]; [reflexivity|].
    destruct (closes_not_digit _ _ Hr) as [->| ->]; destruct r; reflexivity.
  - replace (d =? 45)%N with false by (symmetry; apply N.eqb_neq; lia).
    cbv iota. rewrite Hint.
    destruct rest as [|c r]; [reflexivity|].
    destruct (closes_not_digit _ _ Hr) as [->| ->]; destruct r; reflexivity.
Qed.

Lemma match_number_int (z : Z) (rest : pystr) :
  closes rest = true -> match_number (str_int z ++ rest) = Some (VInt z, rest).
Proof.
  intros Hr. destruct z as [|p|p]; unfold str_int.
  - exact (@match_number_digits false 48%N [] rest ltac:(lia) (fun _ => eq_refl)
             eq_refl Hr).
  - destruct (str_N_spec (N.pos p)) as (d & ds & E & Hds & Hv & Hd & Hd1).
    rewrite E.
    assert (H1 : (49 <= d)%N) by (apply Hd1; discriminate).
    etransitivity;
      [exact (@match_number_digits false d ds rest Hd ltac:(lia) Hds Hr)|].
    cbv iota. now rewrite Hv.
  - destruct (str_N_spec (N.pos p)) as (d & ds & E & Hds & Hv & Hd & Hd1).
    rewrite E.
    assert (H1 : (49 <= d)%N) by (apply Hd1; discriminate).
    etransitivity;
      [exact (@match_number_digits true d ds rest Hd ltac:(lia) Hds Hr)|].
    cbv iota. now rewrite Hv.
Qed.

Lemma startswith_head_ne (c : cp) (t : pystr) (a : cp) (p : pystr) :
  a <> c -> startswith (c :: t) (a :: p) = false.
Proof. intros H. cbn [startswith]. apply N.eqb_neq in H. now rewrite H. Qed.

(** A text that starts as an integer goes to [_match_number]. *)
Lemma scan_once_number `{PyRuntime} (f d : nat) (c : cp) (t : pystr) :
  is_digit c = true \/ (c = 45%N /\ exists c' t', t = c' :: t' /\ is_digit c' = true) ->
  scan_once (S f) d (c :: t) =
  match match_number (c :: t) with
  | Some (VInt z, rest) =>
      if int_too_long (literal_digits (c :: t) rest) then Fail ValueError
      else Found (VInt z) rest
  | Some (v, rest) => Found v rest
  | None => Stop
  end.
Proof.
  intros Hd.
  assert (Hc : c <> 34%N /\ c <> 123%N /\ c <> 91%N /\ c <> 110%N /\ c <> 116%N
               /\ c <> 102%N /\ c <> 78%N /\ c <> 73%N).
  { destruct Hd as [Hd|[-> _]]; [|repeat split; discriminate].
    unfold is_digit in Hd. apply andb_prop in Hd. destruct Hd as [A B].
    apply N.leb_le in A, B. repeat split; lia. }
  destruct Hc as (H34 & H123 & H91 & H110 & H116 & H102 & H78 & H73).
  cbn [scan_once].
  apply N.eqb_neq in H34, H123, H91. rewrite H34, H123, H91.
  replace (startswith (c :: t) (lit "null")) with false
    by (symmetry; apply startswith_head_ne; intros E; cbv in E; congruence).
  replace (startswith (c :: t) (lit "true")) with false
    by (symmetry; apply startswith_head_ne; intros E; cbv in E; congruence).
  replace (startswith (c :: t) (lit "false")) with false
    by (symmetry; apply startswith_head_ne; intros E; cbv in E; congruence).
  replace (startswith (c :: t) (lit "NaN")) with false
    by (symmetry; apply startswith_head_ne; intros E; cbv in E; congruence).
  replace (startswith (c :: t) (lit "Infinity")) with false
    by (symmetry; apply startswith_head_ne; intros E; cbv in E; congruence).
  replace (startswith (c :: t) (lit "-Infinity")) with false; [reflexivity|].
  symmetry. destruct Hd as [Hd|(-> & c' & t' & -> & Hd)].
  - apply startswith_head_ne. unfold is_digit in Hd. apply andb_prop in Hd.
    destruct Hd as [A B]. apply N.leb_le in A, B. intros E. cbv in E. lia.
  - change (lit "-Infinity") with (45%N :: 73%N :: lit "nfinity").
    rewrite startswith_cons, startswith_head_ne; [reflexivity|].
    unfold is_digit in Hd. apply andb_prop in Hd.
    destruct Hd as [A B]. apply N.leb_le in A, B. lia.
Qed.

Lemma str_int_head (z : Z) :
  exists c t, str_int z = c :: t /\
    (is_digit c = true \/ (c = 45%N /\ exists d t', t = d :: t' /\ is_digit d = true)).
Proof.
  assert (D : forall d, (48 <= d <= 57)%N -> is_digit d = true).
  { intros d Hd. unfold is_digit. apply andb_true_intro. split; apply N.leb_le; lia. }
  destruct z as [|p|p]; unfold str_int.
  - exists 48%N, []. split; [reflexivity|]. left. reflexivity.
  - destruct (str_N_spec (N.pos p)) as (d & ds & E & _ & _ & Hd & _).
    exists d, ds. split; [exact E|]. left. now apply D.
  - destruct (str_N_spec (N.pos p)) as (d & ds & E & _ & _ & Hd & _).
    exists 45%N, (d :: ds). split; [now rewrite E|]. right.
    split; [reflexivity|]. exists d, ds. split; [reflexivity|]. now apply D.
Qed.

(** The digits the decoder counts in an encoded integer are those of its
    absolute value. *)
Lemma literal_digits_str_int (z : Z) (rest : pystr) :
  literal_digits (str_int z ++ rest) rest = length (str_N (Z.abs_N z)).
Proof.
  unfold literal_digits.
  destruct z as [|p|p]; unfold str_int; cbn [Z.abs_N].
  - change (str_N 0) with [48%N]. cbn [app length]. change (48 =? 45)%N with false.
    cbv iota. lia.
  - destruct (str_N_spec (N.pos p)) as (c & ds & E & _ & _ & Hc & _).
    rewrite E. cbn [app]. replace (c =? 45)%N with false
      by (symmetry; apply N.eqb_neq; lia).
    cbv iota. cbn [length]. rewrite length_app. lia.
  - cbn [app]. change (45 =? 45)%N with true. cbv iota. cbn [length].
    rewrite length_app. lia.
Qed.

(** [json.loads] reads an encoded integer back, if it has no more digits
    than the conversion allows. *)
Lemma scan_int `{PyRuntime} (z : Z) (rest : pystr) (f d : nat) :
  int_too_long (length (str_N (Z.abs_N z))) = false ->
  closes rest = true -> scan_once (S f) d (str_int z ++ rest) = Found (VInt z) rest.
Proof.
  intros Hz Hr. pose proof (@match_number_int z rest Hr) as M.
  pose proof (literal_digits_str_int z rest) as L.
  destruct (str_int_head z) as (c & t & E & Hd). rewrite E in *.
  cbn [app] in *.
  rewrite scan_once_number.
  - rewrite M, L, Hz. reflexivity.
  - destruct Hd as [Hd|(-> & c' & t' & -> & Hd)]; [now left|right].
    split; [reflexivity|]. exists c', (t' ++ rest). now split.
Qed.

(** ** Values *)

Lemma value_induction (P : value -> Prop) :
  P VNone -> (forall b, P (VBool b)) -> (forall z, P (VInt z)) ->
  (forall l, P (VFloat l)) -> (forall s, P (VStr s)) ->
  (forall l, Forall P l -> P (VList l)) ->
  (forall d, Forall (fun kv : pystr * value => P (snd kv)) d -> P (VDict d)) ->
  forall v, P v.
Proof.
  intros HN HB HI HF HS HL HD. fix IH 1. intros [ |b|z|l|s|l|d].
  - exact HN.
  - apply HB.
  - apply HI.
  - apply HF.
  - apply HS.
  - apply HL. induction l as [|x l IHl]; constructor; [apply IH|exact IHl].
  - apply HD. induction d as [|[k x] d IHd]; constructor; [apply IH|exact IHd].
Qed.

Lemma skip_ws_spaces (n : nat) (s : pystr) : skip_ws (repeat 32%N n ++ s) = skip_ws s.
Proof. induction n as [|n IH]; [reflexivity|exact IH]. Qed.

Lemma skip_ws_newline_indent (level : nat) (s : pystr) :
  skip_ws (newline_indent level ++ s) = skip_ws s.
Proof. unfold newline_indent. exact (skip_ws_spaces (2 * level) s). Qed.

Lemma skip_ws_head (c : cp) (t : pystr) : is_ws c = false -> skip_ws (c :: t) = c :: t.
Proof. intros H. cbn [skip_ws]. now rewrite H. Qed.

Lemma dict_set_fresh (acc : dict) (k : pystr) (x : value) (later : list pystr) :
  distinct (map fst acc ++ k :: later) = true -> dict_set acc k x = acc ++ [(k, x)].
Proof.
  induction acc as [|[k' v'] acc IH]; intros Hd; [reflexivity|].
  cbn [map fst app distinct] in Hd. apply andb_prop in Hd. destruct Hd as [Hk Hd].
  apply negb_true_iff in Hk. rewrite existsb_app in Hk.
  apply orb_false_elim in Hk. destruct Hk as [_ Hk].
  cbn [existsb] in Hk. apply orb_false_elim in Hk. destruct Hk as [Hk _].
  cbn [dict_set app]. rewrite Hk, (IH Hd). reflexivity.
Qed.

Section encoded.
Context `{PyRuntime}.

(** An encoded value starts with a character of its own: ASCII, no white
    space, no closing bracket. *)
Lemma encode_head (level : nat) (v : value) :
  writable v = true ->
  exists c t, encode level v = c :: t /\ is_ws c = false /\ (c =? 93)%N = false
              /\ (c <? 128)%N = true.
Proof.
  intros Hv. destruct v as [ |[|]|z|l|s|[|x xs]|[|[k x] xs]].
  - exists 110%N, (lit "ull"). repeat split.
  - exists 116%N, (lit "rue"). repeat split.
  - exists 102%N, (lit "alse"). repeat split.
  - destruct (str_int_head z) as (c & t & E & Hc). exists c, t.
    split; [exact E|].
    assert (Hr : (48 <= c <= 57)%N \/ c = 45%N).
    { destruct Hc as [Hc|[-> _]]; [left|now right].
      unfold is_digit in Hc. apply andb_prop in Hc. destruct Hc as [A B].
      apply N.leb_le in A, B. lia. }
    split; [|split].
    + unfold is_ws. repeat (apply orb_false_intro); apply N.eqb_neq; lia.
    + apply N.eqb_neq; lia.
    + apply N.ltb_lt; lia.
  - discriminate Hv.
  - exists 34%N, (flat_map escape_char s ++ dq). repeat split.
  - exists 91%N, (lit "]"). repeat split.
  - eexists 91%N, _. repeat split.
  - exists 123%N, (lit "}"). repeat split.
  - eexists 123%N, _. repeat split.
Qed.

Lemma skip_ws_encode (level : nat) (v : value) (rest : pystr) :
  writable v = true -> skip_ws (encode level v ++ rest) = encode level v ++ rest.
Proof.
  intros Hv. destruct (encode_head level v Hv) as (c & t & E & Hc & _).
  rewrite E. cbn [app]. now apply skip_ws_head.
Qed.

(** The elements of a list are nested one level less deep than the list. *)
Lemma nesting_list (l : list value) (d : nat) :
  nesting (VList l) <= S d -> Forall (fun x => nesting x <= d) l.
Proof.
  cbn [nesting]. intros Hl. apply le_S_n in Hl.
  induction l as [|x l IH]; constructor; cbn [fold_right] in Hl.
  - lia.
  - apply IH. lia.
Qed.

Lemma nesting_dict (l : list (pystr * value)) (d : nat) :
  nesting (VDict l) <= S d -> Forall (fun kv => nesting (snd kv) <= d) l.
Proof.
  cbn [nesting]. intros Hl. apply le_S_n in Hl.
  induction l as [|[k x] l IH]; constructor; cbn [fold_right snd] in *.
  - lia.
  - apply IH. lia.
Qed.

(** The elements of an encoded list, from the first one on. *)
Lemma parse_encoded_elements (level d : nat) (rest : pystr) (xs : list value) :
  Forall (reads_back d) xs -> forallb writable xs = true ->
  forall x acc, reads_back d x -> writable x = true ->
  exists f, forall g, f <= g ->
    parse_elements g d
      (encode (S level) x
       ++ flat_map (fun y => lit "," ++ newline_indent (S level) ++ encode (S level) y) xs
       ++ newline_indent level ++ lit "]" ++ rest) acc
    = Found (VList (acc ++ x :: xs)) rest.
Proof.
  induction xs as [|y ys IH]; intros HP Hxs x acc Px Hx.
  - destruct (Px (S level) (newline_indent level ++ lit "]" ++ rest) eq_refl)
      as (f & Hf).
    exists (S f). intros [|g] Hg; [lia|].
    cbn [flat_map app parse_elements]. rewrite Hf by lia.
    rewrite skip_ws_newline_indent.
    change (lit "]" ++ rest) with (93%N :: rest).
    rewrite skip_ws_head by reflexivity.
    change (93 =? 93)%N with true. reflexivity.
  - inversion HP as [|y' ys' Py Pys]; subst.
    cbn [forallb] in Hxs. apply andb_prop in Hxs. destruct Hxs as [Hy Hys].
    destruct (IH Pys Hys y (acc ++ [x]) Py Hy) as (f1 & Hf1).
    destruct (Px (S level)
                (lit "," ++ newline_indent (S level) ++ encode (S level) y
                 ++ flat_map (fun y => lit "," ++ newline_indent (S level)
                                       ++ encode (S level) y) ys
                 ++ newline_indent level ++ lit "]" ++ rest) eq_refl)
      as (f0 & Hf0).
    exists (S (f0 + f1)). intros [|g] Hg; [lia|].
    cbn [flat_map]. rewrite <- !app_assoc.
    cbn [parse_elements]. rewrite Hf0 by lia.
    change (lit "," ++ ?t) with (44%N :: t).
    rewrite skip_ws_head by reflexivity.
    change (44 =? 93)%N with false. change (44 =? 44)%N with true. cbv iota.
    rewrite skip_ws_newline_indent, skip_ws_encode by exact Hy.
    rewrite Hf1 by lia. now rewrite <- app_assoc.
Qed.

Lemma skip_ws_key (k t : pystr) :
  skip_ws (encode_basestring_ascii k ++ t) = encode_basestring_ascii k ++ t.
Proof. reflexivity. Qed.

(** One member of an encoded dict: the key, the colon, the value. *)
Lemma parse_member_step (g level d : nat) (k : pystr) (x : value) (rest2 : pystr)
    (acc : dict) :
  is_text k = true -> writable x = true ->
  scan_once g d (encode (S level) x ++ rest2) = Found x rest2 ->
  parse_members (S g) d
    (encode_basestring_ascii k ++ lit ": " ++ encode (S level) x ++ rest2) acc
  = match skip_ws rest2 with
    | c :: rest3 =>
        if (c =? 125)%N then Found (VDict (dict_set acc k x)) rest3
        else if (c =? 44)%N then parse_members g d (skip_ws rest3) (dict_set acc k x)
        else Stop
    | [] => Stop
    end.
Proof.
  intros Hk Hx Hscan. unfold encode_basestring_ascii, dq.
  rewrite <- !app_assoc. cbn [app parse_members].
  change (34 =? 34)%N with true. cbv iota.
  match goal with
  | |- context [scanstring ?a ?b] =>
      replace (scanstring a b)
        with (Some (k, lit ": " ++ encode (S level) x ++ rest2))
        by (symmetry;
            exact (@scanstring_escaped_text k
                     (lit ": " ++ encode (S level) x ++ rest2) [] Hk))
  end.
  change (lit ": " ++ encode (S level) x ++ rest2)
    with (58%N :: 32%N :: encode (S level) x ++ rest2).
  rewrite (@skip_ws_head 58%N _ eq_refl).
  change (58 =? 58)%N with true. cbv iota.
  change (skip_ws (32%N :: encode (S level) x ++ rest2))
    with (skip_ws (encode (S level) x ++ rest2)).
  rewrite (@skip_ws_encode (S level) x rest2 Hx), Hscan. reflexivity.
Qed.

(** The members of an encoded dict, from the first one on. *)
Lemma parse_encoded_members (level d : nat) (rest : pystr)
    (xs : list (pystr * value)) :
  Forall (fun kv : pystr * value => reads_back d (snd kv)) xs ->
  forallb (fun kv : pystr * value => let (k, x) := kv in
             is_text k && writable x) xs = true ->
  forall k x acc, is_text k = true -> reads_back d x -> writable x = true ->
  distinct (map fst (acc ++ (k, x) :: xs)) = true ->
  exists f, forall g, f <= g ->
    parse_members g d
      (encode_basestring_ascii k ++ lit ": " ++ encode (S level) x
       ++ flat_map (fun kv : pystr * value => let (k', y) := kv in
                      lit "," ++ newline_indent (S level)
                      ++ encode_basestring_ascii k' ++ lit ": " ++ encode (S level) y) xs
       ++ newline_indent level ++ lit "}" ++ rest) acc
    = Found (VDict (acc ++ (k, x) :: xs)) rest.
Proof.
  induction xs as [|[k2 y] ys IH]; intros HP Hxs k x acc Hk Px Hx Hd.
  - destruct (Px (S level) (newline_indent level ++ lit "}" ++ rest) eq_refl)
      as (f & Hf).
    exists (S f). intros [|g] Hg; [lia|].
    cbn [flat_map app].
    rewrite (@parse_member_step g level d k x _ acc Hk Hx (Hf g ltac:(lia))).
    rewrite skip_ws_newline_indent.
    change (lit "}" ++ rest) with (125%N :: rest).
    rewrite (@skip_ws_head 125%N _ eq_refl).
    change (125 =? 125)%N with true. cbv iota.
    rewrite map_app in Hd. cbn [map fst] in Hd.
    now rewrite (@dict_set_fresh acc k x [] Hd).
  - inversion HP as [|kv' ys' Py Pys]; subst. cbn [snd] in Py.
    cbn [forallb] in Hxs. apply andb_prop in Hxs. destruct Hxs as [Hy Hys].
    apply andb_prop in Hy. destruct Hy as [Hk2 Hy].
    assert (Hd' : distinct (map fst ((acc ++ [(k, x)]) ++ (k2, y) :: ys)) = true)
      by (now rewrite <- app_assoc).
    destruct (IH Pys Hys k2 y (acc ++ [(k, x)]) Hk2 Py Hy Hd') as (f1 & Hf1).
    destruct (Px (S level)
                (lit "," ++ newline_indent (S level)
                 ++ encode_basestring_ascii k2 ++ lit ": " ++ encode (S level) y
                 ++ flat_map (fun kv : pystr * value => let (k', y) := kv in
                                lit "," ++ newline_indent (S level)
                                ++ encode_basestring_ascii k' ++ lit ": "
                                ++ encode (S level) y) ys
                 ++ newline_indent level ++ lit "}" ++ rest) eq_refl)
      as (f0 & Hf0).
    exists (S (f0 + f1)). intros [|g] Hg; [lia|].
    cbn [flat_map]. rewrite <- !app_assoc.
    rewrite (@parse_member_step g level d k x _ acc Hk Hx (Hf0 g ltac:(lia))).
    change (lit "," ++ ?t) with (44%N :: t).
    rewrite (@skip_ws_head 44%N _ eq_refl).
    change (44 =? 125)%N with false. change (44 =? 44)%N with true. cbv iota.
    rewrite skip_ws_newline_indent, skip_ws_key.
    rewrite map_app in Hd. cbn [map fst] in Hd.
    rewrite (@dict_set_fresh acc k x (k2 :: map fst ys) Hd).
    etransitivity; [exact (Hf1 g ltac:(lia))|]. now rewrite <- app_assoc.
Qed.

Ltac keyword_no w :=
  match goal with
  | |- context [startswith ?s (lit w)] =>
      replace (startswith s (lit w)) with false by reflexivity
  end.

Ltac keyword_yes w rest :=
  match goal with
  | |- context [startswith ?s (lit w)] =>
      replace (startswith s (lit w)) with true
        by (symmetry; exact (startswith_app (lit w) rest))
  end.

Lemma scan_null (g d : nat) (rest : pystr) :
  scan_once (S g) d (lit "null" ++ rest) = Found VNone rest.
Proof.
  change (lit "null" ++ rest) with (110%N :: 117%N :: 108%N :: 108%N :: rest).
  cbn [scan_once]. change (110 =? 34)%N with false. change (110 =? 123)%N with false.
  change (110 =? 91)%N with false. cbv iota.
  keyword_yes "null"%string rest. reflexivity.
Qed.

Lemma scan_true (g d : nat) (rest : pystr) :
  scan_once (S g) d (lit "true" ++ rest) = Found (VBool true) rest.
Proof.
  change (lit "true" ++ rest) with (116%N :: 114%N :: 117%N :: 101%N :: rest).
  cbn [scan_once]. change (116 =? 34)%N with false. change (116 =? 123)%N with false.
  change (116 =? 91)%N with false. cbv iota.
  keyword_no "null"%string. keyword_yes "true"%string rest. reflexivity.
Qed.

Lemma scan_false (g d : nat) (rest : pystr) :
  scan_once (S g) d (lit "false" ++ rest) = Found (VBool false) rest.
Proof.
  change (lit "false" ++ rest)
    with (102%N :: 97%N :: 108%N :: 115%N :: 101%N :: rest).
  cbn [scan_once]. change (102 =? 34)%N with false. change (102 =? 123)%N with false.
  change (102 =? 91)%N with false. cbv iota.
  keyword_no "null"%string. keyword_no "true"%string.
  keyword_yes "false"%string rest. reflexivity.
Qed.

(** [json.loads] reads every writable value back from what [json.dumps]
    wrote, at any indentation and at any depth that allows the value's own
    nesting. *)
Lemma scan_encoded (v : value) :
  writable v = true -> forall d, nesting v <= d -> reads_back d v.
Proof.
  induction v as [ |b|z|l|s|l IHl|l IHd] using value_induction;
    intros Hv d Hn level rest Hr.
  - exists 1. intros [|g] Hg; [lia|]. apply scan_null.
  - exists 1. intros [|g] Hg; [lia|]. destruct b; [apply scan_true|apply scan_false].
  - exists 1. intros [|g] Hg; [lia|]. cbn [writable] in Hv.
    apply negb_true_iff in Hv. now apply scan_int.
  - discriminate Hv.
  - exists 1. intros [|g] Hg; [lia|]. now apply scan_string.
  - destruct d as [|d]; [cbn [nesting] in Hn; lia|].
    pose proof (nesting_list Hn) as Nl.
    destruct l as [|x xs].
    { exists 1. intros [|g] Hg; [lia|]. cbn [encode]. reflexivity. }
    cbn [writable forallb] in Hv. apply andb_prop in Hv. destruct Hv as [Hx Hxs].
    inversion IHl as [|x' xs' Px Pxs]; subst.
    inversion Nl as [|x' xs' Nx Nxs]; subst.
    assert (Rxs : Forall (reads_back d) xs).
    { rewrite forallb_forall in Hxs. rewrite Forall_forall in *.
      intros y Hy. apply (Pxs y Hy (Hxs y Hy)). now apply Nxs. }
    destruct (@parse_encoded_elements level d rest xs Rxs Hxs x [] (Px Hx d Nx) Hx)
      as (f & Hf).
    exists (S f). intros [|g] Hg; [lia|].
    specialize (Hf g ltac:(lia)).
    cbn [encode]. rewrite <- !app_assoc.
    change (lit "[" ++ ?t) with (91%N :: t).
    cbn [scan_once]. change (91 =? 34)%N with false.
    change (91 =? 123)%N with false. change (91 =? 91)%N with true. cbv iota.
    rewrite skip_ws_newline_indent, skip_ws_encode by exact Hx.
    destruct (encode_head (S level) x Hx) as (c & t & E & _ & Hc & _).
    rewrite E in *. cbn [app] in *. rewrite Hc. exact Hf.
  - destruct d as [|d]; [cbn [nesting] in Hn; lia|].
    pose proof (nesting_dict Hn) as Nl.
    destruct l as [|[k x] xs].
    { exists 1. intros [|g] Hg; [lia|]. cbn [encode]. reflexivity. }
    cbn [writable] in Hv. apply andb_prop in Hv. destruct Hv as [Hd Hxs].
    cbn [forallb] in Hxs. apply andb_prop in Hxs. destruct Hxs as [Hkx Hxs].
    apply andb_prop in Hkx. destruct Hkx as [Hk Hx].
    inversion IHd as [|kv' xs' Px Pxs]; subst. cbn [snd] in Px.
    inversion Nl as [|kv' xs' Nx Nxs]; subst. cbn [snd] in Nx.
    assert (Pxs' : Forall (fun kv : pystr * value => reads_back d (snd kv)) xs).
    { rewrite forallb_forall in Hxs. rewrite Forall_forall in *.
      intros [k' y] Hin. specialize (Hxs _ Hin). apply andb_prop in Hxs.
      destruct Hxs as [_ Hy]. cbn [snd].
      apply (Pxs _ Hin Hy). exact (Nxs _ Hin). }
    destruct (@parse_encoded_members level d rest xs Pxs' Hxs k x [] Hk
                (Px Hx d Nx) Hx Hd) as (f & Hf).
    exists (S f). intros [|g] Hg; [lia|].
    specialize (Hf g ltac:(lia)).
    cbn [encode]. rewrite <- !app_assoc.
    change (lit "{" ++ ?t) with (123%N :: t).
    cbn [scan_once]. change (123 =? 34)%N with false.
    change (123 =? 123)%N with true. cbv iota.
    rewrite skip_ws_newline_indent, skip_ws_key. exact Hf.
Qed.

(** A result found with some budget is found with the budget [json.loads]
    gives. *)
Lemma scan_once_any_budget (f b d : nat) (s : pystr) (v : value) (rest : pystr) :
  scan_once f d s = Found v rest -> 2 * length s + 1 <= b ->
  scan_once b d s = Found v rest.
Proof.
  intros Hf Hb. destruct (Nat.le_gt_cases f b) as [L|L].
  - exact (@scan_once_found_more _ _ _ _ _ _ _ Hf L).
  - assert (K : forall k, scan_once (b + k) d s = scan_once b d s).
    { induction k as [|k IK]; [now rewrite Nat.add_0_r|].
      rewrite Nat.add_succ_r. destruct (scan_more_fuel (b + k)) as (M & _ & _).
      rewrite M; [exact IK|]. rewrite IK.
      destruct (scan_budget b) as (B & _ & _). now apply B. }
    rewrite <- (K (f - b)). replace (b + (f - b)) with f by lia. exact Hf.
Qed.

(** [json.loads(json.dumps(v, indent=2)) == v] for every writable [v] the
    decoder can follow. *)
Lemma json_round_trip (v : value) :
  writable v = true -> nesting v <= nesting_limit ->
  json_loads (json_dumps v) = Ok v.
Proof.
  intros Hv Hn. unfold json_loads, json_dumps.
  destruct (encode_head 0 v Hv) as (c & t & E & Hws & _ & Hc).
  destruct (scan_encoded v Hv Hn 0 [] eq_refl) as (f & Hf).
  specialize (Hf f (le_n f)). rewrite app_nil_r in Hf.
  apply N.ltb_lt in Hc.
  replace (startswith (encode 0 v) [65279%N]) with false.
  - replace (skip_ws (encode 0 v)) with (encode 0 v)
      by (rewrite E; symmetry; now apply skip_ws_head).
    now rewrite (@scan_once_any_budget f _ _ _ _ _ Hf (le_n _)).
  - rewrite E. symmetry. apply startswith_head_ne. lia.
Qed.

End encoded.

(** C9.  For every bundle the export can carry (a use case and a timestamp
    of Unicode text, an evaluation of [None], booleans, integers, text, lists
    and dicts with distinct text keys), the JSON text of lines 599-603
    decodes, what it decodes to is a dict with exactly the keys [use_case],
    [evaluation] and [generated_at] in that order, and each of the three
    fields is the original value. *)
Theorem export_round_trip `{PyRuntime} (use_case : use_case) (result : value)
    (generated_at : pystr) :
  exportable (use_case_value use_case) = true ->
  exportable result = true ->
  is_text generated_at = true ->
  exists decoded,
    json_loads (export_json use_case result generated_at) = Ok decoded /\
    decoded = export_bundle use_case result generated_at /\
    keys decoded = [lit "use_case"; lit "evaluation"; lit "generated_at"] /\
    getitem decoded (lit "use_case") = Ok (use_case_value use_case) /\
    getitem decoded (lit "evaluation") = Ok result /\
    getitem decoded (lit "generated_at") = Ok (VStr generated_at).
Proof.
  intros Hu Hr Hg. unfold exportable in Hu, Hr.
  apply andb_prop in Hu. destruct Hu as [Hu Nu].
  apply andb_prop in Hr. destruct Hr as [Hr Nr].
  apply Nat.ltb_lt in Nu, Nr.
  assert (Hb : writable (export_bundle use_case result generated_at) = true).
  { unfold export_bundle. cbn [writable map fst forallb].
    cbn [writable] in Hu. rewrite Hu, Hr, Hg. reflexivity. }
  assert (Nb : nesting (export_bundle use_case result generated_at) <= nesting_limit).
  { unfold export_bundle. cbn [nesting fold_right]. lia. }
  exists (export_bundle use_case result generated_at).
  split; [exact (@json_round_trip _ _ Hb Nb)|].
  repeat split.
Qed.

Lemma export_round_trip_witness :
  exists decoded,
    json_loads (H := ascii_runtime)
      (export_json (H := ascii_runtime) resume_screener resume_evaluation
         (lit "2026-01-15T10:30:00.123456")) = Ok decoded /\
    decoded = export_bundle resume_screener resume_evaluation
                (lit "2026-01-15T10:30:00.123456") /\
    keys decoded = [lit "use_case"; lit "evaluation"; lit "generated_at"] /\
    getitem decoded (lit "use_case") = Ok (use_case_value resume_screener) /\
    getitem decoded (lit "evaluation") = Ok resume_evaluation /\
    getitem decoded (lit "generated_at") = Ok (VStr (lit "2026-01-15T10:30:00.123456")).
Proof.
  exact (@export_round_trip ascii_runtime resume_screener resume_evaluation
           (lit "2026-01-15T10:30:00.123456") eq_refl eq_refl eq_refl).
Defined.

(* ================================================================== *)
(** * evaluate_use_case: what is reported *)
(* ================================================================== *)


(** An exception of the service is caught: the result is [None] and the
    one error names the exception, except that a [JSONDecodeError] raised
    by the service is reported as a parse failure. *)
Theorem service_failure_reported `{PyRuntime}
    (completion : pystr -> pystr -> res value) (use_case_data : use_case)
    (api_key : pystr) (e : exn) :
  (forall prompt, completion api_key prompt = Raise e) ->
  evaluate_use_case completion use_case_data api_key
  = (VNone,
     [match e with
      | JSONDecodeError => st_error (lit "Failed to parse AI response. Please try again.")
      | _ => st_error_exception (lit "Error calling Groq API: ") e
      end]).
Proof.
  intros Hc. unfold evaluate_use_case.
  destruct (build_prompt_total use_case_data) as (prompt & ->).
  cbn [bind]. rewrite Hc. cbn [bind]. destruct e; reflexivity.
Qed.

Lemma service_failure_reported_witness :
  evaluate_use_case (H := ascii_runtime) (fun _ _ => Raise ValueError) resume_screener
    (lit "gsk_key")
  = (VNone, [st_error_exception (lit "Error calling Groq API: ") ValueError]).
Proof.
  exact (@service_failure_reported ascii_runtime (fun _ _ => Raise ValueError)
           resume_screener (lit "gsk_key") ValueError (fun _ => eq_refl)).
Defined.

(* ================================================================== *)
(** * The Evaluate button *)
(* ================================================================== *)

Lemma on_evaluate_complete `{PyRuntime} (completion : pystr -> pystr -> res value)
    (w : widgets) (s : session_state) :
  form_complete w = true ->
  on_evaluate completion w s
  = let (result, told) :=
      evaluate_use_case completion (use_case_of_form w) (api_key w) in
    if truthy result then
      ({| evaluation_result := result; use_case_data := Some (use_case_of_form w) |},
       told ++ [ st_success ([9989%N]
                             ++ lit " Evaluation complete! View results in the Results tab.");
                 st_balloons ])
    else (s, told).
Proof.
  unfold form_complete, on_evaluate. intros Hf.
  repeat (apply andb_prop in Hf; destruct Hf as [Hf ?]).
  repeat match goal with
         | H : negb _ = true |- _ => apply negb_true_iff in H; rewrite H
         end.
  reflexivity.
Qed.

Lemma on_evaluate_incomplete `{PyRuntime} (w : widgets) :
  form_complete w = false ->
  exists text,
    (forall completion s, on_evaluate completion w s = (s, [st_error text])) /\
    In text [ lit "Please enter a use case name";
              lit "Please select a department";
              lit "Please select at least one target market";
              lit "Please select at least one data type";
              lit "Please enter a description";
              lit "Please enter your Groq API key in the sidebar" ].
Proof.
  unfold form_complete, on_evaluate. intros Hf.
  destruct (is_empty (name_input w)); [eexists; split; [reflexivity|cbn; tauto]|].
  destruct (pystr_eqb (department_select w) (lit "Select..."));
    [eexists; split; [reflexivity|cbn; tauto]|].
  destruct (markets_select w); [eexists; split; [reflexivity|cbn; tauto]|].
  destruct (data_types_select w); [eexists; split; [reflexivity|cbn; tauto]|].
  destruct (is_empty (description_area w)); [eexists; split; [reflexivity|cbn; tauto]|].
  destruct (is_empty (api_key w)); [eexists; split; [reflexivity|cbn; tauto]|].
  discriminate Hf.
Qed.

(** With a field missing the service is not asked: whatever the service
    would answer, the run reports the one validation error and leaves the
    session as it was. *)
Theorem validation_before_service `{PyRuntime}
    (completion completion' : pystr -> pystr -> res value)
    (w : widgets) (s : session_state) :
  form_complete w = false ->
  on_evaluate completion w s = on_evaluate completion' w s /\
  fst (on_evaluate completion w s) = s /\
  exists text, snd (on_evaluate completion w s) = [st_error text].
Proof.
  intros Hf. destruct (on_evaluate_incomplete w Hf) as (text & E & _).
  rewrite !E. repeat split. now exists text.
Qed.

Lemma validation_before_service_witness :
  on_evaluate (H := ascii_runtime) (fun _ _ => Ok (VStr (lit "{}")))
    resume_form_without_key initial_state
  = on_evaluate (H := ascii_runtime) (fun _ _ => Raise ValueError)
      resume_form_without_key initial_state.
Proof.
  exact (proj1 (@validation_before_service ascii_runtime
                  (fun _ _ => Ok (VStr (lit "{}"))) (fun _ _ => Raise ValueError)
                  resume_form_without_key initial_state eq_refl)).
Defined.

(** With the form complete and an answer that decodes, the result is
    stored with the use case of the form exactly when it counts as true; a
    decoded [{}], [[]], [0] or [null] is dropped without any message. *)
Theorem answer_stored_when_true `{PyRuntime}
    (completion : pystr -> pystr -> res value) (w : widgets) (s : session_state)
    (content : pystr) (result : value) :
  form_complete w = true ->
  (forall prompt, completion (api_key w) prompt = Ok (VStr content)) ->
  parse_response content = Ok result ->
  on_evaluate completion w s
  = if truthy result then
      ({| evaluation_result := result; use_case_data := Some (use_case_of_form w) |},
       [ st_success ([9989%N]
                     ++ lit " Evaluation complete! View results in the Results tab.");
         st_balloons ])
    else (s, []).
Proof.
  intros Hf Hc Hp. rewrite (on_evaluate_complete completion w s Hf).
  unfold evaluate_use_case.
  destruct (build_prompt_total (use_case_of_form w)) as (prompt & ->).
  cbn [bind]. rewrite Hc. cbn [bind]. rewrite Hp. reflexivity.
Qed.

Lemma answer_stored_when_true_witness :
  on_evaluate (H := ascii_runtime) (fun _ _ => Ok (VStr (lit "{}"))) resume_form
    initial_state
  = (initial_state, []).
Proof.
  exact (@answer_stored_when_true ascii_runtime (fun _ _ => Ok (VStr (lit "{}")))
           resume_form initial_state (lit "{}") (VDict []) eq_refl
           (fun _ => eq_refl) eq_refl).
Defined.

(* ================================================================== *)
(** * The Results tab *)
(* ================================================================== *)

Lemma filter_download_app (a b : list st_call) :
  filter is_download (a ++ b) = filter is_download a ++ filter is_download b.
Proof. apply filter_app. Qed.

Lemma risk_cards_no_download `{PyRuntime} (risk_items : list (pystr * value)) (idx : nat) :
  filter is_download (fst (risk_cards idx risk_items)) = [].
Proof.
  revert idx. induction risk_items as [|item r IH]; intros idx; [reflexivity|].
  cbn [risk_cards]. destruct (risk_card_of idx item) as [card|e] eqn:E; cbn [bind tell fst].
  - unfold risk_card_of in E. destruct item as [risk_name risk_data].
    repeat match type of E with
           | (_ <- ?m ;; _) = _ => destruct m; [cbn [bind] in E|discriminate E]
           end.
    injection E as <-. cbn [app filter is_download]. apply IH.
  - reflexivity.
Qed.

Lemma action_lines_no_download `{PyRuntime} (actions : list value) :
  filter is_download (fst (action_lines actions)) = [].
Proof.
  induction actions as [|action r IH]; [reflexivity|].
  cbn [action_lines]. destruct (action_line_of action) as [line|e] eqn:E;
    cbn [bind tell fst]; [|reflexivity].
  unfold action_line_of in E.
  repeat match type of E with
         | (_ <- ?m ;; _) = _ => destruct m; [cbn [bind] in E|discriminate E]
         end.
  injection E as <-. cbn [app filter is_download]. apply IH.
Qed.

(** The download buttons of the results view: none, or the two of
    [export_buttons]. *)
Lemma results_view_downloads `{PyRuntime} `{Reportlab} (now : clock)
    (use_case : use_case) (result : value) :
  filter is_download (fst (results_view now use_case result)) = [] \/
  exists story,
    generate_pdf_report (generated now) use_case result = Ok story /\
    filter is_download (fst (results_view now use_case result))
    = fst (export_buttons now use_case result) /\
    snd (export_buttons now use_case result) = None.
Proof.
  assert (X : filter is_download (fst (export_buttons now use_case result)) = [] \/
              exists story,
                generate_pdf_report (generated now) use_case result = Ok story /\
                filter is_download (fst (export_buttons now use_case result))
                = fst (export_buttons now use_case result) /\
                snd (export_buttons now use_case result) = None).
  { unfold export_buttons.
    destruct (generate_pdf_report (generated now) use_case result) as [story|e];
      cbn [bind tell fst snd]; [right|left; reflexivity].
    exists story. repeat split. }
  remember (results_view now use_case result) as rv eqn:E.
  assert (K : filter is_download (fst rv) = [] \/
              filter is_download (fst rv)
              = filter is_download (fst (export_buttons now use_case result))).
  { unfold results_view in E.
    destruct (get result (lit "overall_score") (VStr (lit "N/A"))) as [overall_score|e];
      cbn [bind] in E; [|subst rv; left; reflexivity].
    destruct (get result (lit "risk_level") (VStr (lit "N/A"))) as [risk_level|e];
      cbn [bind tell fst] in E; [|subst rv; left; reflexivity].
    destruct (get result (lit "executive_summary") (VStr (lit "No summary available.")))
      as [executive_summary|e]; cbn [bind tell fst snd] in E;
      [|subst rv; left; reflexivity].
    destruct (get result (lit "risks") (VDict [])) as [risks|e]; cbn [bind] in E;
      [|subst rv; left; reflexivity].
    destruct (items risks) as [risk_items|e]; [|subst rv; left; reflexivity].
    unfold and_then in E.
    pose proof (risk_cards_no_download risk_items 0) as C.
    destruct (snd (risk_cards 0 risk_items));
      [subst rv; left; cbn [app fst filter is_download]; exact C|].
    destruct (get result (lit "recommended_actions") (VList [])) as [actions|e];
      [|subst rv; left; cbn [app fst filter is_download];
        rewrite filter_download_app, C; reflexivity].
    destruct (truthy actions).
    - destruct (iterate actions) as [elements|e];
        [|subst rv; left; cbn [app fst filter is_download];
          rewrite filter_download_app, C; reflexivity].
      pose proof (action_lines_no_download elements) as A.
      destruct (snd (action_lines elements)); subst rv;
        cbn [app fst snd filter is_download].
      + left. now rewrite filter_download_app, C, A.
      + right. now rewrite !filter_download_app, C, A.
    - subst rv. cbn [app fst snd filter is_download]. right.
      now rewrite !filter_download_app, C. }
  destruct K as [K|K]; [left; exact K|].
  destruct X as [X|(story & G & X & N)]; [left; congruence|right].
  exists story. repeat split; [exact G|congruence|exact N].
Qed.

(** A run offers the PDF and the JSON download together or not at all.
    When it offers them, Clear was not pressed, and they are those of the
    pair the session holds once the Evaluate tab is done (the pair stored
    before, or the one Evaluate has just stored): the use case is the stored
    one, the result is the stored one and counts as true, the PDF is the
    story [generate_pdf_report] made of that pair and the JSON its export.
    Each file name takes a reading of the clock of its own. *)
Theorem downloads_together `{PyRuntime} `{Reportlab}
    (completion : pystr -> pystr -> res value)
    (now : clock) (w : widgets) (s : session_state) :
  downloads (main completion now w s) = [] \/
  exists use_case story,
    clear_btn w = false /\
    use_case_data
      (fst (if evaluate_btn w then on_evaluate completion w s else (s, [])))
    = Some use_case /\
    truthy
      (evaluation_result
         (fst (if evaluate_btn w then on_evaluate completion w s else (s, []))))
    = true /\
    generate_pdf_report (generated now) use_case
      (evaluation_result
         (fst (if evaluate_btn w then on_evaluate completion w s else (s, []))))
    = Ok story /\
    downloads (main completion now w s)
    = [ st_download_button ([128196%N] ++ lit " Download PDF Report")
          (pdf_buffer story)
          (lit "AIGovLens_Report_" ++ replace_char 32%N (lit "_") (name use_case)
           ++ lit "_" ++ pdf_yyyymmdd now ++ lit ".pdf")
          (lit "application/pdf");
        st_download_button ([128202%N] ++ lit " Download JSON")
          (json_str
             (export_json use_case
                (evaluation_result
                   (fst (if evaluate_btn w then on_evaluate completion w s
                         else (s, []))))
                (isoformat now)))
          (lit "AIGovLens_Data_" ++ replace_char 32%N (lit "_") (name use_case)
           ++ lit "_" ++ json_yyyymmdd now ++ lit ".json")
          (lit "application/json") ].
Proof.
  unfold main. destruct (clear_btn w); [left; reflexivity|].
  assert (T : exists s1 told,
              (if evaluate_btn w then on_evaluate completion w s else (s, [])) = (s1, told)
              /\ filter is_download told = []).
  { destruct (evaluate_btn w).
    - destruct (on_evaluate_no_download completion w s) as [F _].
      destruct (on_evaluate completion w s) as [s1 told]. now exists s1, told.
    - now exists s, []. }
  destruct T as (s1 & told & -> & Ht).
  unfold downloads. cbn [calls fst].
  change (filter _ (told ++ calls (results_tab now w s1)))
    with (filter is_download (told ++ calls (results_tab now w s1))).
  rewrite filter_download_app, Ht. cbn [app].
  unfold results_tab.
  destruct (use_case_data s1) as [use_case|]; [|left; reflexivity].
  destruct (truthy (evaluation_result s1)) eqn:Tr; [|left; reflexivity].
  destruct (results_view_downloads now use_case (evaluation_result s1))
    as [V|(story & G & V & N)].
  - left. destruct (results_view now use_case (evaluation_result s1)) as [t [e|]];
      [exact V|]. destruct (new_evaluation_btn w); exact V.
  - right. exists use_case, story. repeat split; [exact G|].
    assert (E : fst (export_buttons now use_case (evaluation_result s1))
                = [ st_download_button ([128196%N] ++ lit " Download PDF Report")
                      (pdf_buffer story)
                      (lit "AIGovLens_Report_"
                       ++ replace_char 32%N (lit "_") (name use_case)
                       ++ lit "_" ++ pdf_yyyymmdd now ++ lit ".pdf")
                      (lit "application/pdf");
                    st_download_button ([128202%N] ++ lit " Download JSON")
                      (json_str (export_json use_case (evaluation_result s1)
                                   (isoformat now)))
                      (lit "AIGovLens_Data_"
                       ++ replace_char 32%N (lit "_") (name use_case)
                       ++ lit "_" ++ json_yyyymmdd now ++ lit ".json")
                      (lit "application/json") ]).
    { unfold export_buttons. rewrite G. reflexivity. }
    transitivity (fst (export_buttons now use_case (evaluation_result s1)));
      [|exact E].
    rewrite <- V.
    destruct (results_view now use_case (evaluation_result s1)) as [t [e|]];
      [reflexivity|]. destruct (new_evaluation_btn w); reflexivity.
Qed.

(** A report needs [risk_level] and [overall_score].  The header and the
    overview are made first, each paragraph parsed as it is made: when the
    line of the date and the description are markup the parser accepts, a
    result without one of the two fields makes [generate_pdf_report] raise
    [KeyError], so the results view ends at the PDF and offers no download
    at all.  A description the parser refuses raises [ValueError] before
    either field is read. *)
Theorem report_needs_level_and_score `{PyRuntime} `{Reportlab} (now : clock)
    (use_case_data : use_case) (d : dict) :
  parses_as_markup (lit "Generated: " ++ generated now) = true ->
  dict_find d (lit "risk_level") = None \/
  (exists risk_level color,
     dict_find d (lit "risk_level") = Some risk_level /\
     level_color risk_level = Ok color /\
     dict_find d (lit "overall_score") = None) ->
  (parses_as_markup (description use_case_data) = true ->
   generate_pdf_report (generated now) use_case_data (VDict d) = Raise KeyError /\
   export_buttons now use_case_data (VDict d) = ([], Some KeyError)) /\
  (parses_as_markup (description use_case_data) = false ->
   generate_pdf_report (generated now) use_case_data (VDict d) = Raise ValueError /\
   export_buttons now use_case_data (VDict d) = ([], Some ValueError)).
Proof.
  intros Hg Hd.
  assert (A : report_assessment (VDict d) = Raise KeyError).
  { unfold report_assessment, getitem.
    destruct Hd as [-> |(risk_level & color & -> & C & S)]; [reflexivity|].
    cbn [bind]. rewrite C. cbn [bind]. now rewrite S. }
  split; intros Hp.
  - assert (G : generate_pdf_report (generated now) use_case_data (VDict d)
                = Raise KeyError).
    { unfold generate_pdf_report, report_header, report_overview.
      rewrite (paragraph_of_markup _ subtitle_style Hg). cbn [bind].
      rewrite (paragraph_of_markup _ body_style Hp). cbn [bind].
      now rewrite A. }
    split; [exact G|]. unfold export_buttons. now rewrite G.
  - assert (G : generate_pdf_report (generated now) use_case_data (VDict d)
                = Raise ValueError).
    { unfold generate_pdf_report, report_header, report_overview.
      rewrite (paragraph_of_markup _ subtitle_style Hg). cbn [bind].
      unfold paragraph. now rewrite Hp. }
    split; [exact G|]. unfold export_buttons. now rewrite G.
Qed.

Lemma report_needs_level_and_score_witness :
  generate_pdf_report (H := ascii_runtime) (H0 := plain_reportlab)
    (lit "November 04, 2026 at 09:00 AM")
    resume_screener (VDict [(lit "overall_score", VInt 78)]) = Raise KeyError.
Proof.
  exact (proj1 (proj1 (@report_needs_level_and_score ascii_runtime plain_reportlab
                         {| generated := lit "November 04, 2026 at 09:00 AM";
                            pdf_yyyymmdd := lit "20261104";
                            isoformat := lit "2026-11-04T09:00:00.000000";
                            json_yyyymmdd := lit "20261104" |}
                         resume_screener
                         [(lit "overall_score", VInt 78)] eq_refl (or_introl eq_refl))
                  eq_refl)).
Defined.

(** The results view needs a level that is a [str]: on any other level
    (a number, [null], a list) the badge helper raises [AttributeError], and
    so do the cards from that entry on. *)
Theorem level_must_be_text `{PyRuntime} (idx : nat) (risk_name : pystr) (rd : dict)
    (level : value) (rest : list (pystr * value)) :
  dict_find rd (lit "level") = Some level ->
  (forall s, level <> VStr s) ->
  get_risk_badge level = Raise AttributeError /\
  risk_card_of idx (risk_name, VDict rd) = Raise AttributeError /\
  risk_cards idx ((risk_name, VDict rd) :: rest) = ([], Some AttributeError).
Proof.
  intros Hl Hs.
  assert (B : get_risk_badge level = Raise AttributeError).
  { destruct level; try reflexivity. now elim (Hs s). }
  assert (C : risk_card_of idx (risk_name, VDict rd) = Raise AttributeError).
  { unfold risk_card_of, get. rewrite Hl. cbn [bind]. now rewrite B. }
  repeat split; [exact B|exact C|]. cbn [risk_cards]. now rewrite C.
Qed.

Lemma level_must_be_text_witness :
  risk_cards (H := ascii_runtime) 0
    [ (lit "bias", VDict [(lit "level", VNone)]);
      (lit "privacy", VDict [(lit "level", VStr (lit "LOW"))]) ]
  = ([], Some AttributeError).
Proof.
  exact (proj2 (proj2 (@level_must_be_text ascii_runtime 0 (lit "bias")
                         [(lit "level", VNone)] VNone
                         [(lit "privacy", VDict [(lit "level", VStr (lit "LOW"))])]
                         eq_refl ltac:(discriminate)))).
Defined.

Lemma risk_card_of_renderable `{PyRuntime} (idx : nat) (item : pystr * value) :
  card_renderable item = true ->
  exists badge summary,
    risk_card_of idx item
    = Ok (risk_card (Nat.modulo idx 2) (risk_icon (fst item))
            (title (replace_char 95%N (lit " ") (fst item))) badge summary).
Proof.
  destruct item as [risk_name risk_data]. unfold card_renderable. cbn [fst snd].
  destruct risk_data as [ | | | | | |rd]; try discriminate.
  unfold risk_card_of, get.
  destruct (dict_find rd (lit "level")) as [[ | | | |s| | ]|]; try discriminate;
    intros _; cbn [bind].
  - unfold get_risk_badge.
    destruct (pystr_eqb (upper s) (lit "HIGH"));
      [|destruct (pystr_eqb (upper s) (lit "MEDIUM"))];
      cbn [bind]; destruct (dict_find rd (lit "summary")); cbn [bind];
      eexists; eexists; reflexivity.
  - unfold get_risk_badge.
    destruct (pystr_eqb (upper (lit "UNKNOWN")) (lit "HIGH"));
      [|destruct (pystr_eqb (upper (lit "UNKNOWN")) (lit "MEDIUM"))];
      cbn [bind]; destruct (dict_find rd (lit "summary")); cbn [bind];
      eexists; eexists; reflexivity.
Qed.

(** The cards of the results view: one for each entry of [risks], in the
    order of the mapping, in the two columns by turns, each with the icon
    and the title of its own key. *)
Theorem risk_cards_by_turns `{PyRuntime} (risk_items : list (pystr * value))
    (idx : nat) :
  forallb card_renderable risk_items = true ->
  exists cards,
    risk_cards idx risk_items = (cards, None) /\
    length cards = length risk_items /\
    forall i item, nth_error risk_items i = Some item ->
      exists badge summary,
        nth_error cards i
        = Some (risk_card (Nat.modulo (idx + i) 2) (risk_icon (fst item))
                  (title (replace_char 95%N (lit " ") (fst item))) badge summary).
Proof.
  revert idx. induction risk_items as [|item r IH]; intros idx Hr.
  - exists []. repeat split. intros [|i] item E; discriminate E.
  - cbn [forallb] in Hr. apply andb_prop in Hr. destruct Hr as [Hi Hr].
    destruct (IH (S idx) Hr) as (cards & E & L & N).
    destruct (risk_card_of_renderable idx item Hi) as (badge & summary & C).
    eexists (_ :: cards). cbn [risk_cards]. rewrite C, E. cbn [bind tell fst snd app].
    split; [reflexivity|]. split; [cbn [length]; now rewrite L|].
    intros [|i] item' Hn; cbn [nth_error] in *.
    + injection Hn as <-. rewrite Nat.add_0_r. now exists badge, summary.
    + destruct (N i item' Hn) as (b & s & Hc). exists b, s.
      now rewrite Nat.add_succ_r.
Qed.

Lemma risk_cards_by_turns_witness :
  exists cards,
    risk_cards (H := ascii_runtime) 0
      [ (lit "regulatory", VDict [(lit "level", VStr (lit "high"))]);
        (lit "bias", VDict []);
        (lit "data_privacy", VDict [(lit "level", VStr (lit "LOW"))]) ]
    = (cards, None) /\ length cards = 3.
Proof.
  destruct (@risk_cards_by_turns ascii_runtime
              [ (lit "regulatory", VDict [(lit "level", VStr (lit "high"))]);
                (lit "bias", VDict []);
                (lit "data_privacy", VDict [(lit "level", VStr (lit "LOW"))]) ]
              0 eq_refl) as (cards & E & L & _).
  exists cards. split; [exact E|exact L].
Defined.

(* ================================================================== *)
(** * The session over many runs *)
(* ================================================================== *)

Lemma on_evaluate_coherent `{PyRuntime} (completion : pystr -> pystr -> res value)
    (w : widgets) (s : session_state) :
  coherent s -> coherent (fst (on_evaluate completion w s)).
Proof.
  intros Hs. destruct (form_complete w) eqn:F.
  - rewrite (on_evaluate_complete completion w s F).
    destruct (evaluate_use_case completion (use_case_of_form w) (api_key w))
      as [result told].
    destruct (truthy result) eqn:T; [exact T|exact Hs].
  - destruct (on_evaluate_incomplete w F) as (text & E & _). now rewrite E.
Qed.

Lemma main_coherent `{PyRuntime} `{Reportlab} (completion : pystr -> pystr -> res value)
    (now : clock) (w : widgets) (s : session_state) :
  coherent s -> coherent (state (main completion now w s)).
Proof.
  intros Hs. unfold main. destruct (clear_btn w); [reflexivity|].
  assert (T : coherent (fst (if evaluate_btn w then on_evaluate completion w s
                             else (s, [])))).
  { destruct (evaluate_btn w); [now apply on_evaluate_coherent|exact Hs]. }
  destruct (if evaluate_btn w then on_evaluate completion w s else (s, []))
    as [s1 told]. cbn [fst] in T. cbn [state].
  unfold results_tab.
  destruct (use_case_data s1) as [use_case|]; [|exact T].
  destruct (truthy (evaluation_result s1)); [|exact T].
  destruct (results_view now use_case (evaluation_result s1)) as [t [e|]];
    [exact T|].
  destruct (new_evaluation_btn w); [reflexivity|exact T].
Qed.

(** Whatever the runs of the script (the service, the clock and the
    widgets of each), the session they lead to from the empty one holds a
    use case exactly when it holds a result that counts as true: the pair is
    written and cleared together. *)
Theorem session_stays_coherent `{PyRuntime} `{Reportlab}
    (runs : list ((pystr -> pystr -> res value) * clock * widgets)) :
  coherent
    (fold_left (fun s r => state (main (fst (fst r)) (snd (fst r)) (snd r) s))
       runs initial_state).
Proof.
  assert (G : forall s, coherent s ->
            coherent (fold_left
                        (fun s r => state (main (fst (fst r)) (snd (fst r)) (snd r) s))
                        runs s)).
  { induction runs as [|r runs IH]; intros s Hs; [exact Hs|].
    cbn [fold_left]. apply IH. now apply main_coherent. }
  apply G. reflexivity.
Qed.

(* ================================================================== *)
(** * The answer's text: white space and fences *)
(* ================================================================== *)

Lemma strip_pad_left (pad s : pystr) :
  forallb is_space pad = true -> strip (pad ++ s) = strip s.
Proof.
  induction pad as [|c pad IH]; intros Hp; [reflexivity|].
  cbn [forallb] in Hp. apply andb_prop in Hp. destruct Hp as [Hc Hp].
  cbn [app]. rewrite (@strip_cons_space (pad ++ s) c Hc). now apply IH.
Qed.

Lemma strip_pad_right (pad s : pystr) :
  forallb is_space pad = true -> strip (s ++ pad) = strip s.
Proof.
  induction pad as [|c pad IH] using rev_ind; intros Hp; [now rewrite app_nil_r|].
  rewrite forallb_app in Hp. apply andb_prop in Hp. destruct Hp as [Hp Hc].
  cbn [forallb] in Hc. rewrite andb_true_r in Hc.
  rewrite app_assoc, (@strip_snoc_space (s ++ pad) c Hc). now apply IH.
Qed.

(** White space around the answer changes nothing: the text handed to
    [json.loads], and so the decoded value or the error, are those of the
    answer alone. *)
Theorem surrounding_space_ignored `{PyRuntime} (before after content : pystr) :
  forallb is_space before = true -> forallb is_space after = true ->
  clean_response (before ++ content ++ after) = clean_response content /\
  parse_response (before ++ content ++ after) = parse_response content.
Proof.
  intros Hb Ha.
  assert (C : clean_response (before ++ content ++ after) = clean_response content).
  { unfold clean_response.
    now rewrite (@strip_pad_left before (content ++ after) Hb),
      (@strip_pad_right after content Ha). }
  split; [exact C|]. unfold parse_response. now rewrite C.
Qed.

Lemma surrounding_space_ignored_witness :
  parse_response (H := ascii_runtime) (lit "  " ++ out_of_schema_response ++ newline)
  = parse_response (H := ascii_runtime) out_of_schema_response.
Proof.
  exact (proj2 (@surrounding_space_ignored ascii_runtime (lit "  ") newline
                  out_of_schema_response eq_refl eq_refl)).
Defined.

Lemma parse_fenced_witness :
  parse_response (H := ascii_runtime)
    (fence ++ lit "json" ++ newline ++ out_of_schema_response ++ newline ++ fence)
  = parse_response (H := ascii_runtime) out_of_schema_response.
Proof.
  exact (proj1 (@parse_fenced ascii_runtime out_of_schema_response eq_refl)).
Defined.

(* ================================================================== *)
(** * The report as a whole *)
(* ================================================================== *)

Lemma actions_section_typed `{PyRuntime} (evaluation_result : value)
    (actions : list value) :
  actions_of evaluation_result = Some actions ->
  actions_section evaluation_result
  = Ok match actions with
       | [] => []
       | _ :: _ =>
           [ Table (actions_header :: map capped_row (firstn 6 actions))
               [6; 30; 15; 14]%Z action_table_style ]
       end.
Proof.
  intros Ha. unfold actions_of in Ha.
  destruct evaluation_result as [| | | | | |d]; try discriminate Ha.
  unfold actions_section, get.
  destruct (dict_find d (lit "recommended_actions")) as [[| | | | |l|]|];
    try discriminate Ha.
  - destruct (forallb is_action l) eqn:F; [|discriminate Ha]. injection Ha as <-.
    cbn [bind truthy]. destruct l as [|a l]; [reflexivity|].
    cbn [slice_to bind iterate].
    rewrite (@for_each_map _ _ action_row capped_row); [reflexivity|].
    apply Forall_forall. intros x Hx. apply action_row_capped.
    pose proof (forallb_firstn is_action 6 (a :: l) F) as F'.
    rewrite forallb_forall in F'. now apply F'.
  - injection Ha as <-. reflexivity.
Qed.

Lemma risk_sections_typed `{PyRuntime} `{Reportlab} (risks : list (pystr * value)) :
  forallb renderable_risk risks = true ->
  exists sections,
    for_each risk_section risks = Ok sections /\ length sections = length risks.
Proof.
  induction risks as [|entry risks IH]; intros Hr.
  - now exists [].
  - cbn [forallb] in Hr. apply andb_prop in Hr. destruct Hr as [He Hr].
    destruct (IH Hr) as (sections & Hs & L).
    destruct (risk_section_renderable entry He) as (color & _ & Hsec).
    eexists (_ :: sections). cbn [for_each]. rewrite Hsec, Hs. cbn [bind].
    split; [reflexivity|]. cbn [length]. now rewrite L.
Qed.

(** For a result that is typed as the renderer reads it (a level that can
    be looked up, a score, a summary that is a text, risks that are records
    with summaries that are texts, actions that are Actions) and whose
    texts, like the description of the use case and the line of the date,
    are markup the paragraph parser accepts, every piece of the story is
    made, and the story is the header, the overview of the use case, the
    assessment, the risk heading with one section for each entry of
    [risks], the actions heading with the table when there are actions, and
    the footer, in this order.  The report is that story when [doc.build]
    lays it out, and the exception of [doc.build] when it does not. *)
Theorem report_of_typed_result `{PyRuntime} `{Reportlab} (generated : pystr)
    (use_case_data : use_case)
    (d : dict) (risk_level overall_score : value) (color executive_summary : pystr)
    (risks : list (pystr * value)) (actions : list value) :
  parses_as_markup (lit "Generated: " ++ generated) = true ->
  parses_as_markup (description use_case_data) = true ->
  dict_find d (lit "risk_level") = Some risk_level ->
  level_color risk_level = Ok color ->
  dict_find d (lit "overall_score") = Some overall_score ->
  get (VDict d) (lit "executive_summary") (VStr []) = Ok (VStr executive_summary) ->
  parses_as_markup executive_summary = true ->
  get (VDict d) (lit "risks") (VDict []) = Ok (VDict risks) ->
  forallb renderable_risk risks = true ->
  actions_of (VDict d) = Some actions ->
  exists header overview assessment sections,
    report_header generated = Ok header /\
    report_overview use_case_data = Ok overview /\
    report_assessment (VDict d) = Ok assessment /\
    for_each risk_section risks = Ok sections /\
    length sections = length risks /\
    generate_pdf_report generated use_case_data (VDict d)
    = match
        doc_build
          (header ++ overview ++ assessment
           ++ (Paragraph (VStr ([9888%N; 65039%N] ++ lit " Risk Assessment"))
                 heading_style
               :: concat sections)
           ++ (Paragraph (VStr ([9989%N] ++ lit " Recommended Actions")) heading_style
               :: match actions with
                  | [] => []
                  | _ :: _ =>
                      [ Table (actions_header :: map capped_row (firstn 6 actions))
                          [6; 30; 15; 14]%Z action_table_style ]
                  end)
           ++ report_footer)
      with
      | None =>
          Ok (header ++ overview ++ assessment
              ++ (Paragraph (VStr ([9888%N; 65039%N] ++ lit " Risk Assessment"))
                    heading_style
                  :: concat sections)
              ++ (Paragraph (VStr ([9989%N] ++ lit " Recommended Actions"))
                    heading_style
                  :: match actions with
                     | [] => []
                     | _ :: _ =>
                         [ Table (actions_header :: map capped_row (firstn 6 actions))
                             [6; 30; 15; 14]%Z action_table_style ]
                     end)
              ++ report_footer)
      | Some e => Raise e
      end.
Proof.
  intros Hg Hp Hl Hc Hs He Hm Hr Hrr Ha.
  destruct (risk_sections_typed risks Hrr) as (sections & Hsec & L).
  assert (Hh : exists header, report_header generated = Ok header).
  { unfold report_header. rewrite (paragraph_of_markup _ subtitle_style Hg).
    cbn [bind]. eexists; reflexivity. }
  destruct Hh as (header & Hh).
  assert (Ho : exists overview, report_overview use_case_data = Ok overview).
  { unfold report_overview. rewrite (paragraph_of_markup _ body_style Hp).
    cbn [bind]. eexists; reflexivity. }
  destruct Ho as (overview & Ho).
  assert (A : exists assessment, report_assessment (VDict d) = Ok assessment).
  { unfold report_assessment, getitem. rewrite Hl. cbn [bind]. rewrite Hc.
    cbn [bind]. rewrite Hs. cbn [bind]. rewrite He. cbn [bind].
    rewrite (paragraph_of_markup _ body_style Hm). cbn [bind].
    eexists; reflexivity. }
  destruct A as (assessment & A).
  exists header, overview, assessment, sections. repeat split; try assumption.
  unfold generate_pdf_report, risk_breakdown. rewrite Hh. cbn [bind].
  rewrite Ho. cbn [bind]. rewrite A. cbn [bind].
  rewrite Hr. cbn [bind items]. rewrite Hsec. cbn [bind].
  rewrite (actions_section_typed (VDict d) Ha). reflexivity.
Qed.

Lemma report_of_typed_result_witness :
  exists story,
    generate_pdf_report (H := ascii_runtime) (H0 := plain_reportlab)
      (lit "November 04, 2026 at 09:00 AM")
      resume_screener resume_evaluation = Ok story /\
    length story = 23.
Proof.
  destruct (@report_of_typed_result ascii_runtime plain_reportlab
              (lit "November 04, 2026 at 09:00 AM")
              resume_screener
              [ (lit "overall_score", VInt 78);
                (lit "risk_level", VStr (lit "HIGH"));
                (lit "risks",
                 VDict [ (lit "bias",
                          VDict [ (lit "level", VStr (lit "HIGH"));
                                  (lit "score", VInt 80);
                                  (lit "summary", VStr (lit "Historical bias."));
                                  (lit "key_concerns",
                                   VList [VStr (lit "Proxy features")]) ]) ]);
                (lit "recommended_actions", VList []);
                (lit "executive_summary", VStr (lit "Proceed with care.")) ]
              (VStr (lit "HIGH")) (VInt 78) (lit "#DC2626") (lit "Proceed with care.")
              [ (lit "bias",
                 VDict [ (lit "level", VStr (lit "HIGH"));
                         (lit "score", VInt 80);
                         (lit "summary", VStr (lit "Historical bias."));
                         (lit "key_concerns", VList [VStr (lit "Proxy features")]) ]) ]
              [] eq_refl eq_refl eq_refl eq_refl eq_refl eq_refl eq_refl eq_refl
              eq_refl eq_refl)
    as (header & overview & assessment & sections & Hh & Ho & A & S & L & G).
  vm_compute in Hh. injection Hh as <-. vm_compute in Ho. injection Ho as <-.
  vm_compute in A. injection A as <-. vm_compute in S. injection S as <-.
  eexists. split; [etransitivity; [exact G|]; vm_compute; reflexivity|].
  reflexivity.
Defined.

(* ================================================================== *)
(** * The export text *)
(* ================================================================== *)

Lemma hex_digit_ascii (n : N) : (n < 16)%N -> is_ascii (hex_digit n) = true.
Proof.
  intros Hn. unfold is_ascii, hex_digit. apply N.ltb_lt.
  destruct (n <? 10)%N; lia.
Qed.

Lemma u_escape_ascii (n : N) : (n < 65536)%N -> forallb is_ascii (u_escape n) = true.
Proof.
  intros Hn. unfold u_escape. cbn [forallb].
  rewrite !hex_digit_ascii; [reflexivity| | | |].
  - apply N.mod_lt. lia.
  - apply N.mod_lt. lia.
  - apply N.mod_lt. lia.
  - apply N.Div0.div_lt_upper_bound. lia.
Qed.

Lemma escape_char_ascii (c : cp) :
  is_scalar c = true -> forallb is_ascii (escape_char c) = true.
Proof.
  intros Hc. unfold escape_char.
  repeat match goal with
         | |- context [if (c =? ?k)%N then _ else _] =>
             destruct (c =? k)%N; [reflexivity|]
         end.
  destruct ((32 <=? c) && (c <=? 126))%N eqn:P.
  { apply andb_prop in P. destruct P as [_ P]. apply N.leb_le in P.
    cbn [forallb]. unfold is_ascii. rewrite andb_true_r. apply N.ltb_lt. lia. }
  destruct (c <? 65536)%N eqn:B.
  - apply N.ltb_lt in B. now apply u_escape_ascii.
  - apply N.ltb_ge in B. unfold is_scalar in Hc.
    assert (Hn : (c - 65536 < 1048576)%N).
    { apply orb_prop in Hc. destruct Hc as [Hc|Hc].
      - apply N.ltb_lt in Hc. lia.
      - apply andb_prop in Hc. destruct Hc as [_ Hc]. apply N.ltb_lt in Hc. lia. }
    cbv zeta. rewrite (high_half Hn), low_half, forallb_app.
    assert (A : ((c - 65536) / 1024 < 1024)%N)
      by (apply N.Div0.div_lt_upper_bound; lia).
    assert (M : ((c - 65536) mod 1024 < 1024)%N) by (apply N.mod_lt; lia).
    rewrite !u_escape_ascii; [reflexivity|lia|lia].
Qed.

Lemma encode_basestring_ascii_is_ascii (s : pystr) :
  is_text s = true -> forallb is_ascii (encode_basestring_ascii s) = true.
Proof.
  intros Hs. unfold encode_basestring_ascii, dq. rewrite !forallb_app.
  cbn [forallb]. rewrite andb_true_r. cbn [is_ascii andb].
  change (is_ascii 34%N) with true. cbn [andb].
  induction s as [|c s IH]; [reflexivity|].
  unfold is_text in Hs. cbn [forallb] in Hs. apply andb_prop in Hs.
  destruct Hs as [Hc Hs]. cbn [flat_map]. rewrite forallb_app.
  rewrite (escape_char_ascii c Hc). now apply IH.
Qed.

Lemma str_int_ascii (z : Z) : forallb is_ascii (str_int z) = true.
Proof.
  assert (D : forall ds, forallb is_digit ds = true -> forallb is_ascii ds = true).
  { induction ds as [|d ds IH]; [reflexivity|]. cbn [forallb]. intros Hd.
    apply andb_prop in Hd. destruct Hd as [Hd Hds]. rewrite (IH Hds), andb_true_r.
    unfold is_digit in Hd. apply andb_prop in Hd. destruct Hd as [_ Hd].
    apply N.leb_le in Hd. apply N.ltb_lt. lia. }
  assert (S : forall n, forallb is_ascii (str_N n) = true).
  { intros n. destruct (str_N_spec n) as (d & ds & -> & Hds & _ & Hd & _).
    cbn [forallb]. rewrite (D ds Hds), andb_true_r. apply N.ltb_lt. lia. }
  destruct z as [|p|p]; unfold str_int; [apply S|apply S|].
  cbn [forallb]. now rewrite S.
Qed.

Lemma newline_indent_ascii (level : nat) :
  forallb is_ascii (newline_indent level) = true.
Proof.
  unfold newline_indent. cbn [forallb]. change (is_ascii 10%N) with true. cbn [andb].
  induction (2 * level) as [|n IH]; [reflexivity|exact IH].
Qed.

Lemma forallb_flat_map {A B : Type} (p : B -> bool) (f : A -> list B) (l : list A) :
  Forall (fun a => forallb p (f a) = true) l -> forallb p (flat_map f l) = true.
Proof.
  induction 1 as [|a l Ha _ IH]; [reflexivity|].
  cbn [flat_map]. now rewrite forallb_app, Ha, IH.
Qed.

Lemma encode_ascii `{PyRuntime} (v : value) :
  writable v = true -> forall level, forallb is_ascii (encode level v) = true.
Proof.
  induction v as [ |b|z|l|s|l IHl|d IHd] using value_induction; intros Hv level.
  - reflexivity.
  - destruct b; reflexivity.
  - apply str_int_ascii.
  - discriminate Hv.
  - now apply encode_basestring_ascii_is_ascii.
  - destruct l as [|x xs]; [reflexivity|].
    cbn [writable forallb] in Hv. apply andb_prop in Hv. destruct Hv as [Hx Hxs].
    inversion IHl as [|x' xs' Px Pxs]; subst.
    cbn [encode]. rewrite !forallb_app, newline_indent_ascii, (Px Hx).
    rewrite newline_indent_ascii. cbn [andb].
    rewrite forallb_flat_map; [reflexivity|].
    rewrite forallb_forall in Hxs. rewrite Forall_forall in *.
    intros y Hy. rewrite !forallb_app, newline_indent_ascii, (Pxs y Hy (Hxs y Hy)).
    reflexivity.
  - destruct d as [|[k x] xs]; [reflexivity|].
    cbn [writable] in Hv. apply andb_prop in Hv. destruct Hv as [_ Hxs].
    cbn [forallb] in Hxs. apply andb_prop in Hxs. destruct Hxs as [Hkx Hxs].
    apply andb_prop in Hkx. destruct Hkx as [Hk Hx].
    inversion IHd as [|kv' xs' Px Pxs]; subst. cbn [snd] in Px.
    cbn [encode]. rewrite !forallb_app, newline_indent_ascii, (Px Hx).
    rewrite newline_indent_ascii, (encode_basestring_ascii_is_ascii k Hk).
    cbn [andb].
    rewrite forallb_flat_map; [reflexivity|].
    rewrite forallb_forall in Hxs. rewrite Forall_forall in *.
    intros [k' y] Hy. specialize (Hxs _ Hy). apply andb_prop in Hxs.
    destruct Hxs as [Hk' Hy'].
    rewrite !forallb_app, newline_indent_ascii,
      (encode_basestring_ascii_is_ascii k' Hk'), (Pxs _ Hy Hy').
    reflexivity.
Qed.

(** The export is written in ASCII alone, whatever characters the use
    case and the evaluation hold: every other character goes out as a
    [\u] escape. *)
Theorem export_is_ascii `{PyRuntime} (use_case : use_case) (result : value)
    (generated_at : pystr) :
  exportable (use_case_value use_case) = true ->
  exportable result = true ->
  is_text generated_at = true ->
  forallb is_ascii (export_json use_case result generated_at) = true.
Proof.
  intros Hu Hr Hg. unfold export_json, json_dumps. apply encode_ascii.
  unfold exportable in Hu, Hr.
  apply andb_prop in Hu. destruct Hu as [Hu _].
  apply andb_prop in Hr. destruct Hr as [Hr _].
  unfold export_bundle. cbn [writable map fst forallb].
  cbn [writable] in Hu. rewrite Hu, Hr, Hg. reflexivity.
Qed.

Lemma export_is_ascii_witness :
  forallb is_ascii
    (export_json (H := ascii_runtime) resume_screener
       (VDict [(lit "executive_summary", VStr [8364%N; 128269%N])])
       (lit "2026-01-15T10:30:00.123456")) = true.
Proof.
  exact (@export_is_ascii ascii_runtime resume_screener
           (VDict [(lit "executive_summary", VStr [8364%N; 128269%N])])
           (lit "2026-01-15T10:30:00.123456") eq_refl eq_refl eq_refl).
Defined.

(* ================================================================== *)
(** * The names of the downloads *)
(* ================================================================== *)

Lemma replace_char_gone (old : cp) (new s : pystr) :
  existsb (N.eqb old) new = false ->
  existsb (N.eqb old) (replace_char old new s) = false.
Proof.
  intros Hn. unfold replace_char. induction s as [|c s IH]; [reflexivity|].
  cbn [flat_map]. rewrite existsb_app. apply orb_false_intro; [|exact IH].
  destruct (c =? old)%N eqn:E; [exact Hn|].
  cbn [existsb]. rewrite orb_false_r, N.eqb_sym. exact E.
Qed.

(** No space of the use case's name reaches a file name: a download's name
    holds a space only if a reading of the date does. *)
Theorem download_names_without_space `{PyRuntime} `{Reportlab} (now : clock)
    (use_case : use_case)
    (result : value) (label : pystr) (data : download_data) (file_name mime : pystr) :
  In (st_download_button label data file_name mime)
     (fst (export_buttons now use_case result)) ->
  existsb (N.eqb 32) (pdf_yyyymmdd now) = false ->
  existsb (N.eqb 32) (json_yyyymmdd now) = false ->
  existsb (N.eqb 32) file_name = false.
Proof.
  intros Hin Hd Hj.
  assert (K : forall prefix date suffix,
              existsb (N.eqb 32) prefix = false ->
              existsb (N.eqb 32) date = false ->
              existsb (N.eqb 32) suffix = false ->
              existsb (N.eqb 32)
                (prefix ++ replace_char 32%N (lit "_") (name use_case) ++ lit "_"
                 ++ date ++ suffix) = false).
  { intros prefix date suffix Hp Hdate Hs. rewrite existsb_app.
    apply orb_false_intro; [exact Hp|]. rewrite existsb_app.
    apply orb_false_intro; [exact (@replace_char_gone 32%N (lit "_") _ eq_refl)|].
    rewrite existsb_app. apply orb_false_intro; [reflexivity|].
    rewrite existsb_app. apply orb_false_intro; [exact Hdate|exact Hs]. }
  unfold export_buttons in Hin.
  destruct (generate_pdf_report (generated now) use_case result) as [story|e];
    cbn [bind tell fst app] in Hin.
  - destruct Hin as [E|[E|[]]]; injection E as _ _ <- _.
    + exact (K (lit "AIGovLens_Report_") _ (lit ".pdf") eq_refl Hd eq_refl).
    + exact (K (lit "AIGovLens_Data_") _ (lit ".json") eq_refl Hj eq_refl).
  - destruct Hin.
Qed.

Lemma download_names_without_space_witness :
  existsb (N.eqb 32)
    (lit "AIGovLens_Data_"
     ++ replace_char 32%N (lit "_") (name resume_screener) ++ lit "_" ++ lit "20261105"
     ++ lit ".json") = false.
Proof.
  apply (@download_names_without_space ascii_runtime plain_reportlab
           {| generated := lit "November 04, 2026 at 11:59 PM";
              pdf_yyyymmdd := lit "20261104";
              isoformat := lit "2026-11-05T00:00:00.000012";
              json_yyyymmdd := lit "20261105" |}
           resume_screener resume_evaluation
           ([128202%N] ++ lit " Download JSON")
           (json_str (export_json (H := ascii_runtime) resume_screener resume_evaluation
                        (lit "2026-11-05T00:00:00.000012")))
           _ (lit "application/json")).
  - vm_compute. right. left. reflexivity.
  - reflexivity.
  - reflexivity.
Defined.

(* ================================================================== *)
(** * The actions of the results view *)
(* ================================================================== *)

Lemma action_line_of_renderable `{PyRuntime} (action : value) :
  line_renderable action = true -> exists line, action_line_of action = Ok line.
Proof.
  destruct action as [| | | | | |d]; try discriminate. cbn [line_renderable].
  unfold action_line_of, get.
  destruct (dict_find d (lit "priority")) as [[ |b|z|l|s| | ]|]; try discriminate;
    intros _; cbn [bind priority_color];
    try destruct (float_integral l);
    cbn [bind];
    destruct (dict_find d (lit "action")); cbn [bind];
    destruct (dict_find d (lit "regulation")); cbn [bind];
    destruct (dict_find d (lit "owner")); cbn [bind];
    eexists; reflexivity.
Qed.

(** The results view lists every recommended action, the seventh and
    later ones too (the report stops at six). *)
Theorem action_lines_all `{PyRuntime} (actions : list value) :
  forallb line_renderable actions = true ->
  exists lines,
    action_lines actions = (lines, None) /\ length lines = length actions.
Proof.
  induction actions as [|action r IH]; intros Ha.
  - now exists [].
  - cbn [forallb] in Ha. apply andb_prop in Ha. destruct Ha as [Hx Hr].
    destruct (IH Hr) as (lines & E & L).
    destruct (action_line_of_renderable action Hx) as (line & A).
    exists (line :: lines). cbn [action_lines]. rewrite A, E. cbn [bind tell fst snd app].
    split; [reflexivity|]. cbn [length]. now rewrite L.
Qed.

Lemma action_lines_all_witness :
  exists lines,
    action_lines (H := ascii_runtime)
      (repeat (VDict [(lit "priority", VInt 1); (lit "action", VStr (lit "Audit"))]) 8)
    = (lines, None) /\ length lines = 8.
Proof.
  exact (@action_lines_all ascii_runtime
           (repeat (VDict [(lit "priority", VInt 1); (lit "action", VStr (lit "Audit"))]) 8)
           eq_refl).
Defined.
